(** * DAEMON fluid engine: a shallow embedding of [fluid-engine.js]

    The engine is a WebGL stable-fluids solver.  Its numerical kernels are
    GLSL fragment shaders kept as template strings in the JavaScript class
    [DaemonFluidEngine]; the class itself owns the render targets, the
    ping-pong indices, the quality presets and the frame loop.

    Conventions of the embedding:
    - a GLSL [float] is an exact rational ([Q]); equalities between shader
      values are therefore stated with [==];
    - [sqrt] and [exp] have no rational counterpart and are taken from the
      type class [Builtins];
    - a texture is a total function from texel indices to [vec4], sampled the
      way [_createRenderTarget] configures it: [NEAREST] filtering with
      [CLAMP_TO_EDGE] wrapping;
    - a draw call of the full-screen quad runs the fragment shader once per
      pixel of the viewport, at the pixel centre, and stores its output as
      it is: the storage type of a target is recorded, the rounding it
      implies is not. *)

From Stdlib Require Import ZArith QArith Qround Qabs Lia Lqa List Bool.
Import ListNotations.
Open Scope Q_scope.

(* ================================================================== *)
(** * GLSL values and built-in functions *)
(* ================================================================== *)

Record vec2 := Vec2 { x2 : Q; y2 : Q }.
Record vec4 := Vec4 { x4 : Q; y4 : Q; z4 : Q; w4 : Q }.

(** Component-wise equality up to [Qeq]. *)
Definition veq2 (a b : vec2) : Prop := x2 a == x2 b /\ y2 a == y2 b.
Definition veq4 (a b : vec4) : Prop :=
  x4 a == x4 b /\ y4 a == y4 b /\ z4 a == z4 b /\ w4 a == w4 b.

(** Swizzles. *)
Definition xy (v : vec4) : vec2 := Vec2 (x4 v) (y4 v).
Definition zw (v : vec4) : vec2 := Vec2 (z4 v) (w4 v).

(** [vec4(v, z, w)] and [vec4(a, b)] constructors. *)
Definition vec4_2ss (v : vec2) (z w : Q) : vec4 := Vec4 (x2 v) (y2 v) z w.
Definition vec4_22 (a b : vec2) : vec4 := Vec4 (x2 a) (y2 a) (x2 b) (y2 b).

Definition add2 (a b : vec2) : vec2 := Vec2 (x2 a + x2 b) (y2 a + y2 b).
Definition sub2 (a b : vec2) : vec2 := Vec2 (x2 a - x2 b) (y2 a - y2 b).
Definition mul2 (a b : vec2) : vec2 := Vec2 (x2 a * x2 b) (y2 a * y2 b).
Definition div2 (a b : vec2) : vec2 := Vec2 (x2 a / x2 b) (y2 a / y2 b).
Definition neg2 (a : vec2) : vec2 := Vec2 (- x2 a) (- y2 a).
(** scalar on the left, scalar on the right, [v + s], [v - s], [v / s] *)
Definition smul2 (s : Q) (a : vec2) : vec2 := Vec2 (s * x2 a) (s * y2 a).
Definition muls2 (a : vec2) (s : Q) : vec2 := Vec2 (x2 a * s) (y2 a * s).
Definition adds2 (a : vec2) (s : Q) : vec2 := Vec2 (x2 a + s) (y2 a + s).
Definition subs2 (a : vec2) (s : Q) : vec2 := Vec2 (x2 a - s) (y2 a - s).
Definition divs2 (a : vec2) (s : Q) : vec2 := Vec2 (x2 a / s) (y2 a / s).

Definition add4 (a b : vec4) : vec4 :=
  Vec4 (x4 a + x4 b) (y4 a + y4 b) (z4 a + z4 b) (w4 a + w4 b).
Definition muls4 (a : vec4) (s : Q) : vec4 :=
  Vec4 (x4 a * s) (y4 a * s) (z4 a * s) (w4 a * s).

Definition dot2 (a b : vec2) : Q := x2 a * x2 b + y2 a * y2 b.

(** [floor], on scalars and component-wise. *)
Definition floorQ (q : Q) : Q := inject_Z (Qfloor q).
Definition floor2 (a : vec2) : vec2 := Vec2 (floorQ (x2 a)) (floorQ (y2 a)).

(** [mod(x, y) = x - y * floor(x / y)]. *)
Definition modQ (x y : Q) : Q := x - y * floorQ (x / y).
Definition mods2 (a : vec2) (s : Q) : vec2 := Vec2 (modQ (x2 a) s) (modQ (y2 a) s).

Definition maxQ (a b : Q) : Q := if Qlt_le_dec a b then b else a.
Definition minQ (a b : Q) : Q := if Qlt_le_dec b a then b else a.

(** [clamp(x, lo, hi) = min(max(x, lo), hi)]. *)
Definition clamp (v lo hi : Q) : Q := minQ (maxQ v lo) hi.

(** [mix(a, b, t) = a * (1 - t) + b * t]. *)
Definition mixQ (a b t : Q) : Q := a * (1 - t) + b * t.
Definition mix4 (a b : vec4) (t : Q) : vec4 :=
  Vec4 (mixQ (x4 a) (x4 b) t) (mixQ (y4 a) (y4 b) t)
       (mixQ (z4 a) (z4 b) t) (mixQ (w4 a) (w4 b) t).

(** The transcendental built-ins the shaders call. *)
Class Builtins := { sqrtQ : Q -> Q; expQ : Q -> Q }.

Definition length2 `{Builtins} (a : vec2) : Q := sqrtQ (dot2 a a).

(* ================================================================== *)
(** * Textures and the full-screen draw *)
(* ================================================================== *)

(** Storage the texture was allocated with by [texImage2D]. *)
Inductive storage : Type :=
| RGBA32F_FLOAT          (* internal format RGBA32F, type FLOAT (WebGL2) *)
| RGBA_FLOAT             (* format RGBA, type FLOAT (WebGL1 + OES_texture_float) *)
| RGBA_UNSIGNED_BYTE.    (* format RGBA, type UNSIGNED_BYTE: normalized 8 bit *)

Definition is_float (s : storage) : bool :=
  match s with RGBA_UNSIGNED_BYTE => false | _ => true end.

Record sampler2D := Sampler {
  width : Z;
  height : Z;
  texel : Z -> Z -> vec4
}.

Definition clampZ (v lo hi : Z) : Z := Z.min (Z.max v lo) hi.

(** [texture2D(s, coord)] under [NEAREST] / [CLAMP_TO_EDGE]: the texel whose
    cell contains the normalized coordinate, clamped to the border texels. *)
Definition texture2D (s : sampler2D) (coord : vec2) : vec4 :=
  texel s (clampZ (Qfloor (x2 coord * inject_Z (width s))) 0 (width s - 1))
          (clampZ (Qfloor (y2 coord * inject_Z (height s))) 0 (height s - 1)).

(** What [_createRenderTarget] returns: [{ texture, fbo, width, height }]. *)
Record renderTarget := RenderTarget {
  texture : sampler2D;
  format : storage
}.

(** The varyings of the vertex shader ([_getVertexSource]) at the centre of
    pixel [(i, j)] of a [vw] x [vh] viewport.  The quad has
    [a_position] in [[0,1]^2]; [v_texCoord = a_position],
    [clipSpace = a_position * 2 - 1],
    [v_simPos = (clipSpace.x * u_aspectRatio, clipSpace.y)]. *)
Record varyings := Varyings { v_texCoord : vec2; v_simPos : vec2 }.

Definition a_position (vw vh i j : Z) : vec2 :=
  Vec2 ((inject_Z i + 0.5) / inject_Z vw) ((inject_Z j + 0.5) / inject_Z vh).

Definition vertex_main (u_aspectRatio : Q) (a_pos : vec2) : varyings :=
  let clipSpace := subs2 (muls2 a_pos 2) 1 in
  Varyings a_pos (Vec2 (x2 clipSpace * u_aspectRatio) (y2 clipSpace)).

Definition in_viewport (vw vh i j : Z) : bool :=
  ((0 <=? i) && (i <? vw) && (0 <=? j) && (j <? vh))%Z.

(** [gl.drawArrays(TRIANGLE_STRIP, 0, 4)] with the quad bound: the fragment
    program runs for every pixel of the viewport and its output replaces the
    texel of the bound target; texels outside the viewport keep their value. *)
Definition drawQuad (vw vh : Z) (u_aspectRatio : Q)
    (frag : varyings -> vec4) (target : sampler2D) : sampler2D :=
  Sampler (width target) (height target)
    (fun i j =>
       if in_viewport vw vh i j
       then frag (vertex_main u_aspectRatio (a_position vw vh i j))
       else texel target i j).

Definition draw_to (vw vh : Z) (u_aspectRatio : Q)
    (frag : varyings -> vec4) (t : renderTarget) : renderTarget :=
  RenderTarget (drawQuad vw vh u_aspectRatio frag (texture t)) (format t).

(** A two-element JavaScript array of render targets and its indexing. *)
Definition doubleFBO : Type := (renderTarget * renderTarget)%type.

Definition fbo_get (d : doubleFBO) (idx : Z) : renderTarget :=
  if (idx =? 0)%Z then fst d else snd d.

Definition fbo_set (d : doubleFBO) (idx : Z) (t : renderTarget) : doubleFBO :=
  if (idx =? 0)%Z then (t, snd d) else (fst d, t).

(* ================================================================== *)
(** * The fragment shaders *)
(* ================================================================== *)

Definition Qltb (a b : Q) : bool := negb (Qle_bool b a).

(** ** [_getAdvectSource] *)

Definition simToTexel (u_aspectRatio : Q) (simPos : vec2) : vec2 :=
  muls2 (Vec2 (x2 simPos / u_aspectRatio + 1) (y2 simPos + 1)) 0.5.

(** The first three statements of [main]: the back-traced position, in
    texel units. *)
Definition advect_texelPos (u_velocity : sampler2D) (u_dt u_rdx : Q)
    (u_invRes : vec2) (u_aspectRatio : Q) (v : varyings) : vec2 :=
  let vel := xy (texture2D u_velocity (v_texCoord v)) in
  let tracedPos := sub2 (v_simPos v) (smul2 (u_dt * u_rdx) vel) in
  div2 (simToTexel u_aspectRatio tracedPos) u_invRes.

Definition advect_main (u_velocity u_target : sampler2D) (u_dt u_rdx : Q)
    (u_invRes : vec2) (u_aspectRatio u_dissipation : Q) (v : varyings) : vec4 :=
  let texelPos := advect_texelPos u_velocity u_dt u_rdx u_invRes u_aspectRatio v in
  let st := adds2 (floor2 (subs2 texelPos 0.5)) 0.5 in
  let t := sub2 texelPos st in
  let st := mul2 st u_invRes in
  let st2 := add2 st u_invRes in
  let t11 := texture2D u_target st in
  let t21 := texture2D u_target (Vec2 (x2 st2) (y2 st)) in
  let t12 := texture2D u_target (Vec2 (x2 st) (y2 st2)) in
  let t22 := texture2D u_target st2 in
  muls4 (mix4 (mix4 t11 t21 (x2 t)) (mix4 t12 t22 (x2 t)) (y2 t)) u_dissipation.

(** ** [_getDivergenceSource] *)

(** One axis of [sampleVel]: the offset (in texels) and the sign multiplier
    chosen by [if (c < 0.0) {1, -1} else if (c > 1.0) {-1, -1}], starting
    from offset [0.0] and multiplier [1.0]. *)
Definition reflect_flip (c : Q) : Q * Q :=
  if Qltb c 0 then (1, -1)
  else if Qltb 1 c then (-1, -1)
  else (0, 1).

Definition sampleVel (u_velocity : sampler2D) (u_invRes : vec2) (coord : vec2) : vec2 :=
  let offset := Vec2 (fst (reflect_flip (x2 coord))) (fst (reflect_flip (y2 coord))) in
  let mult := Vec2 (snd (reflect_flip (x2 coord))) (snd (reflect_flip (y2 coord))) in
  mul2 mult (xy (texture2D u_velocity (add2 coord (mul2 offset u_invRes)))).

Definition divergence_main (u_velocity : sampler2D) (u_halfRdx : Q)
    (u_invRes : vec2) (v : varyings) : vec4 :=
  let L := sampleVel u_velocity u_invRes (sub2 (v_texCoord v) (Vec2 (x2 u_invRes) 0)) in
  let R := sampleVel u_velocity u_invRes (add2 (v_texCoord v) (Vec2 (x2 u_invRes) 0)) in
  let B := sampleVel u_velocity u_invRes (sub2 (v_texCoord v) (Vec2 0 (y2 u_invRes))) in
  let T := sampleVel u_velocity u_invRes (add2 (v_texCoord v) (Vec2 0 (y2 u_invRes))) in
  Vec4 (u_halfRdx * ((x2 R - x2 L) + (y2 T - y2 B))) 0 0 1.

(** ** [_getPressureSource] and [_getGradientSource] *)

(** One axis of [sampleP]: only an offset, no sign multiplier. *)
Definition reflect (c : Q) : Q :=
  if Qltb c 0 then 1
  else if Qltb 1 c then -1
  else 0.

Definition sampleP (u_pressure : sampler2D) (u_invRes : vec2) (coord : vec2) : Q :=
  let offset := Vec2 (reflect (x2 coord)) (reflect (y2 coord)) in
  x4 (texture2D u_pressure (add2 coord (mul2 offset u_invRes))).

Definition pressure_main (u_pressure u_divergence : sampler2D) (u_alpha : Q)
    (u_invRes : vec2) (v : varyings) : vec4 :=
  let L := sampleP u_pressure u_invRes (sub2 (v_texCoord v) (Vec2 (x2 u_invRes) 0)) in
  let R := sampleP u_pressure u_invRes (add2 (v_texCoord v) (Vec2 (x2 u_invRes) 0)) in
  let B := sampleP u_pressure u_invRes (sub2 (v_texCoord v) (Vec2 0 (y2 u_invRes))) in
  let T := sampleP u_pressure u_invRes (add2 (v_texCoord v) (Vec2 0 (y2 u_invRes))) in
  let div := x4 (texture2D u_divergence (v_texCoord v)) in
  Vec4 ((L + R + B + T + u_alpha * div) * 0.25) 0 0 1.

Definition gradient_main (u_pressure u_velocity : sampler2D) (u_halfRdx : Q)
    (u_invRes : vec2) (v : varyings) : vec4 :=
  let L := sampleP u_pressure u_invRes (sub2 (v_texCoord v) (Vec2 (x2 u_invRes) 0)) in
  let R := sampleP u_pressure u_invRes (add2 (v_texCoord v) (Vec2 (x2 u_invRes) 0)) in
  let B := sampleP u_pressure u_invRes (sub2 (v_texCoord v) (Vec2 0 (y2 u_invRes))) in
  let T := sampleP u_pressure u_invRes (add2 (v_texCoord v) (Vec2 0 (y2 u_invRes))) in
  let vel := xy (texture2D u_velocity (v_texCoord v)) in
  vec4_2ss (sub2 vel (smul2 u_halfRdx (Vec2 (R - L) (T - B)))) 0 1.

(** ** [_getForceSource] and [_getDyeSource]: the stroke geometry *)

Definition clipToSim (u_aspectRatio : Q) (c : vec2) : vec2 :=
  Vec2 (x2 c * u_aspectRatio) (y2 c).

(** [float distToSeg(vec2 a, vec2 b, vec2 p, out float fp)].  The result
    pairs the returned distance with what the call stored in the [out]
    parameter: [Some v] when the statement [fp = proj / lx] was executed,
    [None] when the function returned before reaching it. *)
Definition distToSeg `{Builtins} (a b p : vec2) : Q * option Q :=
  let d := sub2 p a in
  let x := sub2 b a in
  let lx := length2 x in
  if Qle_bool lx 0.0001 then (length2 d, None)
  else
    let proj := dot2 d (divs2 x lx) in
    let fp := proj / lx in
    if Qltb proj 0 then (length2 d, Some fp)
    else if Qltb lx proj then (length2 (sub2 p b), Some fp)
    else (sqrtQ (Qabs (dot2 d d - proj * proj)), Some fp).

(** The caller declares [float fp;] without an initializer, so after the call
    the variable holds the stored value if there is one and otherwise
    whatever indeterminate value [fp_uninit] the local started with. *)
Definition fp_after_call (out_fp : option Q) (fp_uninit : Q) : Q :=
  match out_fp with Some f => f | None => fp_uninit end.

(** [tapering = 1.0 - clamp(fp, 0.0, 1.0) * 0.6] *)
Definition tapering_of (fp : Q) : Q := 1 - clamp fp 0 1 * 0.6.

Definition force_main `{Builtins} (u_velocity : sampler2D) (u_dt u_dx : Q)
    (u_pointer u_lastPointer : vec2) (u_isDown : bool)
    (u_radius u_aspectRatio : Q) (fp_uninit : Q) (v : varyings) : vec4 :=
  let vel := xy (texture2D u_velocity (v_texCoord v)) in
  let vel :=
    if u_isDown then
      let ptr := clipToSim u_aspectRatio u_pointer in
      let lastPtr := clipToSim u_aspectRatio u_lastPointer in
      let ptrVel := divs2 (neg2 (sub2 lastPtr ptr)) (maxQ u_dt 0.001) in
      let '(dist, out_fp) := distToSeg ptr lastPtr (v_simPos v) in
      let fp := fp_after_call out_fp fp_uninit in
      let tapering := tapering_of fp in
      let m := expQ (- dist / u_radius) in
      let m := m * (tapering * tapering) in
      let targetVel := muls2 ptrVel u_dx in
      add2 vel (muls2 (sub2 targetVel vel) m)
    else vel in
  vec4_2ss vel 0 1.

(** ** [_getDyeSource]: palettes and dye injection *)

Record vec3 := Vec3 { r3 : Q; g3 : Q; b3 : Q }.

Definition add3 (a b : vec3) : vec3 := Vec3 (r3 a + r3 b) (g3 a + g3 b) (b3 a + b3 b).
Definition muls3 (a : vec3) (s : Q) : vec3 := Vec3 (r3 a * s) (g3 a * s) (b3 a * s).
Definition smul3 (s : Q) (a : vec3) : vec3 := Vec3 (s * r3 a) (s * g3 a) (s * b3 a).
Definition mix3 (a b : vec3) (t : Q) : vec3 :=
  Vec3 (mixQ (r3 a) (r3 b) t) (mixQ (g3 a) (g3 b) t) (mixQ (b3 a) (b3 b) t).

(** [pow(x, n)] for the whole-number exponents the palettes use. *)
Definition powQ (x : Q) (n : positive) : Q := Qpower_positive x n.

Definition plasma (x : Q) : vec3 :=
  add3 (mix3 (Vec3 0.134 0 0.117) (Vec3 0 0.478 1) x)
       (muls3 (muls3 (Vec3 0.631 0.925 1) (powQ x 9)) 0.1).

Definition ocean (x : Q) : vec3 :=
  add3 (mix3 (Vec3 0 0.02 0.1) (Vec3 0 0.5 0.7) x)
       (muls3 (muls3 (Vec3 0.7 1 1) (powQ x 5)) 0.25).

Definition fire (x : Q) : vec3 :=
  add3 (mix3 (Vec3 0.15 0 0) (Vec3 1 0.35 0) x)
       (muls3 (muls3 (Vec3 1 1 0.4) (powQ x 3)) 0.35).

Definition neon (x : Q) : vec3 :=
  add3 (mix3 (Vec3 0.4 0 0.5) (Vec3 0 1 0.4) x)
       (muls3 (muls3 (Vec3 1 1 1) (powQ x 7)) 0.2).

Definition aurora (x : Q) : vec3 :=
  let c1 := Vec3 0.1 0 0.2 in
  let c2 := Vec3 0 0.8 0.4 in
  let c3 := Vec3 0.3 1 0.9 in
  add3 (mix3 (mix3 c1 c2 x) c3 (x * x))
       (muls3 (muls3 (Vec3 0.8 1 0.9) (powQ x 6)) 0.15).

Definition sunset (x : Q) : vec3 :=
  let c1 := Vec3 0.15 0 0.1 in
  let c2 := Vec3 0.9 0.3 0.1 in
  let c3 := Vec3 1 0.8 0.3 in
  add3 (mix3 (mix3 c1 c2 x) c3 (x * x))
       (muls3 (muls3 (Vec3 1 0.9 0.7) (powQ x 4)) 0.2).

Definition cosmic (x : Q) : vec3 :=
  let c1 := Vec3 0.05 0 0.15 in
  let c2 := Vec3 0.5 0.1 0.7 in
  let c3 := Vec3 0.9 0.6 1 in
  add3 (mix3 (mix3 c1 c2 x) c3 (x * x))
       (muls3 (muls3 (Vec3 1 0.8 1) (powQ x 5)) 0.25).

Definition matrix (x : Q) : vec3 :=
  add3 (Vec3 0 (x * 0.8) 0)
       (muls3 (muls3 (Vec3 0.2 1 0.3) (powQ x 4)) 0.4).

Definition getColor (mode : Z) (x : Q) : vec3 :=
  if (mode =? 0)%Z then plasma x
  else if (mode =? 1)%Z then ocean x
  else if (mode =? 2)%Z then fire x
  else if (mode =? 3)%Z then neon x
  else if (mode =? 4)%Z then aurora x
  else if (mode =? 5)%Z then sunset x
  else if (mode =? 6)%Z then cosmic x
  else matrix x.

Definition rgb (c : vec4) : vec3 := Vec3 (x4 c) (y4 c) (z4 c).
Definition with_rgb (c : vec4) (v : vec3) : vec4 := Vec4 (r3 v) (g3 v) (b3 v) (w4 c).

Definition dye_main `{Builtins} (u_dye : sampler2D) (u_dt : Q)
    (u_pointer u_lastPointer : vec2) (u_isDown : bool)
    (u_radius u_aspectRatio u_intensity : Q) (u_colorMode : Z) (u_decay : Q)
    (fp_uninit : Q) (v : varyings) : vec4 :=
  let color := texture2D u_dye (v_texCoord v) in
  let color := with_rgb color (muls3 (rgb color) u_decay) in
  if u_isDown then
    let ptr := clipToSim u_aspectRatio u_pointer in
    let lastPtr := clipToSim u_aspectRatio u_lastPointer in
    let ptrVel := divs2 (neg2 (sub2 lastPtr ptr)) (maxQ u_dt 0.001) in
    let '(dist, out_fp) := distToSeg ptr lastPtr (v_simPos v) in
    let fp := fp_after_call out_fp fp_uninit in
    let tapering := tapering_of fp in
    let R := 0.03 in
    let m := expQ (- dist / R) in
    let speed := length2 ptrVel in
    let x := clamp ((speed * speed * 0.015 - dist * 4) * tapering) 0 1 in
    with_rgb color (add3 (rgb color) (muls3 (smul3 m (getColor u_colorMode x)) u_intensity))
  else color.

(** ** [_getParticleUpdateSource] and [_getParticleInitSource] *)

Definition particleUpdate_main (u_particleData u_velocity : sampler2D)
    (u_dt : Q) (u_flowScale : vec2) (u_drag u_speed : Q) (v : varyings) : vec4 :=
  let data := texture2D u_particleData (v_texCoord v) in
  let pos := xy data in
  let vel := zw data in
  let texCoord := muls2 (adds2 pos 1) 0.5 in
  let flowVel := mul2 (xy (texture2D u_velocity texCoord)) u_flowScale in
  let vel := add2 vel (muls2 (sub2 flowVel vel) u_drag) in
  let pos := add2 pos (muls2 (smul2 u_dt vel) u_speed) in
  (* Wrap *)
  let pos := subs2 (mods2 (adds2 pos 1) 2) 1 in
  vec4_22 pos vel.

(** The position before the [// Wrap] line of the shader, kept apart so that
    statements can speak about the unwrapped coordinate. *)
Definition particle_unwrapped (u_particleData u_velocity : sampler2D)
    (u_dt : Q) (u_flowScale : vec2) (u_drag u_speed : Q) (v : varyings) : vec2 :=
  let data := texture2D u_particleData (v_texCoord v) in
  let pos := xy data in
  let vel := zw data in
  let texCoord := muls2 (adds2 pos 1) 0.5 in
  let flowVel := mul2 (xy (texture2D u_velocity texCoord)) u_flowScale in
  let vel := add2 vel (muls2 (sub2 flowVel vel) u_drag) in
  add2 pos (muls2 (smul2 u_dt vel) u_speed).

Definition particleInit_main (v : varyings) : vec4 :=
  let pos := subs2 (muls2 (v_texCoord v) 2) 1 in
  vec4_2ss pos 0 0.

(* ================================================================== *)
(** * The JavaScript class [DaemonFluidEngine] *)
(* ================================================================== *)

(** One row of [this.qualityPresets]. *)
Record Preset := mkPreset { particles : Z; scale : Q; iterations : Z }.

(** Quality presets (optimized) *)
Definition defaultPresets : list Preset :=
  [ mkPreset 16384 (1 / 8) 10      (* Ultra Low *)
  ; mkPreset 65536 (1 / 6) 14      (* Low *)
  ; mkPreset 262144 (1 / 4) 20     (* Medium *)
  ; mkPreset 524288 (1 / 3) 25     (* High *)
  ; mkPreset 1048576 (1 / 2) 32 ]. (* Ultra High *)

(** [this.settings] *)
Record Settings := mkSettings {
  quality : Z;
  solverIterations : Z;
  dyeIntensity : Q;
  forceRadius : Q;
  colorMode : Z;
  cellSize : Q;
  particleSpeed : Q;
  dyeDecay : Q;
  velocityDissipation : Q
}.

(** The [options] argument of the constructor; an absent key is [None]. *)
Record Options := mkOptions {
  opt_quality : option Z;
  opt_solverIterations : option Z;
  opt_dyeIntensity : option Q;
  opt_forceRadius : option Q;
  opt_colorMode : option Z;
  opt_particleSpeed : option Q;
  opt_dyeDecay : option Q;
  opt_velocityDissipation : option Q;
  opt_autoQuality : option bool
}.

(** The argument of [updateSettings]: any subset of the keys of
    [this.settings]. *)
Record SettingsPatch := mkPatch {
  p_quality : option Z;
  p_solverIterations : option Z;
  p_dyeIntensity : option Q;
  p_forceRadius : option Q;
  p_colorMode : option Z;
  p_cellSize : option Q;
  p_particleSpeed : option Q;
  p_dyeDecay : option Q;
  p_velocityDissipation : option Q
}.

(** [a ?? b] *)
Definition nullish {A : Type} (a : option A) (b : A) : A :=
  match a with Some v => v | None => b end.

(** [this.pointer] *)
Record Pointer := mkPointer {
  ptr_x : Q; ptr_y : Q; ptr_dx : Q; ptr_dy : Q; isDown : bool; moved : bool
}.

(** The simulation grid: sizes, render targets and read indices. *)
Record Grid := mkGrid {
  simWidth : Z;
  simHeight : Z;
  aspectRatio : Q;
  velocityFBO : doubleFBO;
  pressureFBO : doubleFBO;
  divergenceFBO : renderTarget;
  dyeFBO : doubleFBO;
  velIdx : Z;
  pressIdx : Z;
  dyeIdx : Z
}.

(** The particle buffers. *)
Record Particles := mkParticles {
  particleDataSize : Z;
  particleCount : Z;
  particleUVs : list vec2;        (* the [Float32Array] [uvs], two floats per vertex *)
  particleData : doubleFBO;
  particleReadIdx : Z
}.

(** Frame statistics. *)
Record Perf := mkPerf {
  frameCount : Z;
  lastFpsTime : Q;
  currentFps : Z;
  lastFrameTime : Q;
  lowFpsCount : Z
}.

(** The fields of [this] the simulation depends on.  [innerWidth] and
    [innerHeight] stand for [window.innerWidth] / [window.innerHeight];
    [fieldBuilds] and [particleBuilds] are not fields of the class: they
    count the executions of [_initFramebuffers] and [_initParticleBuffers]. *)
Record DaemonFluidEngine := mkEngine {
  isWebGL2 : bool;
  floatTexSupport : bool;
  innerWidth : Z;
  innerHeight : Z;
  settings : Settings;
  qualityPresets : list Preset;
  grid : Grid;
  particleSys : Particles;
  pointer : Pointer;
  lastPointer : vec2;
  perf : Perf;
  autoQualityEnabled : bool;
  fieldBuilds : nat;
  particleBuilds : nat
}.

Definition set_settings (s : Settings) (e : DaemonFluidEngine) : DaemonFluidEngine :=
  mkEngine (isWebGL2 e) (floatTexSupport e) (innerWidth e) (innerHeight e)
    s (qualityPresets e) (grid e) (particleSys e) (pointer e) (lastPointer e)
    (perf e) (autoQualityEnabled e) (fieldBuilds e) (particleBuilds e).

Definition set_grid (g : Grid) (e : DaemonFluidEngine) : DaemonFluidEngine :=
  mkEngine (isWebGL2 e) (floatTexSupport e) (innerWidth e) (innerHeight e)
    (settings e) (qualityPresets e) g (particleSys e) (pointer e) (lastPointer e)
    (perf e) (autoQualityEnabled e) (fieldBuilds e) (particleBuilds e).

Definition set_particleSys (p : Particles) (e : DaemonFluidEngine) : DaemonFluidEngine :=
  mkEngine (isWebGL2 e) (floatTexSupport e) (innerWidth e) (innerHeight e)
    (settings e) (qualityPresets e) (grid e) p (pointer e) (lastPointer e)
    (perf e) (autoQualityEnabled e) (fieldBuilds e) (particleBuilds e).

Definition set_lastPointer (l : vec2) (e : DaemonFluidEngine) : DaemonFluidEngine :=
  mkEngine (isWebGL2 e) (floatTexSupport e) (innerWidth e) (innerHeight e)
    (settings e) (qualityPresets e) (grid e) (particleSys e) (pointer e) l
    (perf e) (autoQualityEnabled e) (fieldBuilds e) (particleBuilds e).

Definition set_pointer (q : Pointer) (e : DaemonFluidEngine) : DaemonFluidEngine :=
  mkEngine (isWebGL2 e) (floatTexSupport e) (innerWidth e) (innerHeight e)
    (settings e) (qualityPresets e) (grid e) (particleSys e) q (lastPointer e)
    (perf e) (autoQualityEnabled e) (fieldBuilds e) (particleBuilds e).

Definition set_perf (p : Perf) (e : DaemonFluidEngine) : DaemonFluidEngine :=
  mkEngine (isWebGL2 e) (floatTexSupport e) (innerWidth e) (innerHeight e)
    (settings e) (qualityPresets e) (grid e) (particleSys e) (pointer e) (lastPointer e)
    p (autoQualityEnabled e) (fieldBuilds e) (particleBuilds e).

Definition count_fieldBuild (e : DaemonFluidEngine) : DaemonFluidEngine :=
  mkEngine (isWebGL2 e) (floatTexSupport e) (innerWidth e) (innerHeight e)
    (settings e) (qualityPresets e) (grid e) (particleSys e) (pointer e) (lastPointer e)
    (perf e) (autoQualityEnabled e) (S (fieldBuilds e)) (particleBuilds e).

Definition count_particleBuild (e : DaemonFluidEngine) : DaemonFluidEngine :=
  mkEngine (isWebGL2 e) (floatTexSupport e) (innerWidth e) (innerHeight e)
    (settings e) (qualityPresets e) (grid e) (particleSys e) (pointer e) (lastPointer e)
    (perf e) (autoQualityEnabled e) (fieldBuilds e) (S (particleBuilds e)).

Definition set_quality (q : Z) (s : Settings) : Settings :=
  mkSettings q (solverIterations s) (dyeIntensity s) (forceRadius s) (colorMode s)
    (cellSize s) (particleSpeed s) (dyeDecay s) (velocityDissipation s).

Definition set_solverIterations (n : Z) (s : Settings) : Settings :=
  mkSettings (quality s) n (dyeIntensity s) (forceRadius s) (colorMode s)
    (cellSize s) (particleSpeed s) (dyeDecay s) (velocityDissipation s).

Definition set_velocity (d : doubleFBO) (idx : Z) (g : Grid) : Grid :=
  mkGrid (simWidth g) (simHeight g) (aspectRatio g) d (pressureFBO g)
    (divergenceFBO g) (dyeFBO g) idx (pressIdx g) (dyeIdx g).

Definition set_pressure (d : doubleFBO) (idx : Z) (g : Grid) : Grid :=
  mkGrid (simWidth g) (simHeight g) (aspectRatio g) (velocityFBO g) d
    (divergenceFBO g) (dyeFBO g) (velIdx g) idx (dyeIdx g).

Definition set_divergence (t : renderTarget) (g : Grid) : Grid :=
  mkGrid (simWidth g) (simHeight g) (aspectRatio g) (velocityFBO g) (pressureFBO g)
    t (dyeFBO g) (velIdx g) (pressIdx g) (dyeIdx g).

Definition set_dye (d : doubleFBO) (idx : Z) (g : Grid) : Grid :=
  mkGrid (simWidth g) (simHeight g) (aspectRatio g) (velocityFBO g) (pressureFBO g)
    (divergenceFBO g) d (velIdx g) (pressIdx g) idx.

(** [this.qualityPresets[q]]: [None] is JavaScript's [undefined]. *)
Definition preset_at (presets : list Preset) (q : Z) : option Preset :=
  if (q <? 0)%Z then None else nth_error presets (Z.to_nat q).

(** [Math.round] and [Math.max] on the values the engine feeds them. *)
Definition Math_round (x : Q) : Z := Qfloor (x + 0.5).

(** [Math.ceil(Math.sqrt(count))] for a whole number [count >= 0]. *)
Definition Math_ceil_sqrt (count : Z) : Z :=
  let s := Z.sqrt count in
  if (s * s =? count)%Z then s else (s + 1)%Z.

(** ** Framebuffers *)

Definition zero4 : vec4 := Vec4 0 0 0 0.

(** [_createRenderTarget(w, h, isFloat = false)]: [texImage2D] with a [null]
    image allocates zero-filled storage of the chosen type. *)
Definition _createRenderTarget (e : DaemonFluidEngine) (w h : Z) (isFloat : bool)
    : renderTarget :=
  let fmt :=
    if isWebGL2 e then
      (if isFloat then RGBA32F_FLOAT else RGBA_UNSIGNED_BYTE)
    else
      (if isFloat && floatTexSupport e then RGBA_FLOAT else RGBA_UNSIGNED_BYTE) in
  RenderTarget (Sampler w h (fun _ _ => zero4)) fmt.

Definition _createDoubleFBO (e : DaemonFluidEngine) (w h : Z) (isFloat : bool)
    : doubleFBO :=
  (_createRenderTarget e w h isFloat, _createRenderTarget e w h isFloat).

Definition range (n : Z) : list Z := map Z.of_nat (seq 0 (Z.to_nat n)).

(** The nested loops filling [uvs]: entry [i * dataSize + j] is
    [((j + 0.5) / dataSize, (i + 0.5) / dataSize)]. *)
Definition make_uvs (dataSize : Z) : list vec2 :=
  flat_map (fun i =>
    map (fun j => Vec2 ((inject_Z j + 0.5) / inject_Z dataSize)
                       ((inject_Z i + 0.5) / inject_Z dataSize))
        (range dataSize))
    (range dataSize).

(** [_initParticles]: the init program is drawn into both particle targets;
    the program never sets [u_aspectRatio], which therefore reads [0]. *)
Definition _initParticles (e : DaemonFluidEngine) : DaemonFluidEngine :=
  let ps := particleSys e in
  let ds := particleDataSize ps in
  let d := particleData ps in
  let d := fbo_set d 0 (draw_to ds ds 0 particleInit_main (fbo_get d 0)) in
  let d := fbo_set d 1 (draw_to ds ds 0 particleInit_main (fbo_get d 1)) in
  set_particleSys
    (mkParticles ds (particleCount ps) (particleUVs ps) d (particleReadIdx ps)) e.

(** [_initParticleBuffers]; [None] is the [TypeError] of reading
    [preset.particles] on an [undefined] preset. *)
Definition _initParticleBuffers (e : DaemonFluidEngine) : option DaemonFluidEngine :=
  match preset_at (qualityPresets e) (quality (settings e)) with
  | None => None
  | Some preset =>
      let count := particles preset in
      let dataSize := Math_ceil_sqrt count in
      let uvs := make_uvs dataSize in
      let pd := (_createRenderTarget e dataSize dataSize true,
                 _createRenderTarget e dataSize dataSize true) in
      Some (_initParticles
              (count_particleBuild
                 (set_particleSys
                    (mkParticles dataSize (dataSize * dataSize) uvs pd 0) e)))
  end.

Definition sim_extent (inner : Z) (p : Preset) : Z :=
  Z.max 32 (Math_round (inject_Z inner * scale p)).

(** [_initFramebuffers] *)
Definition _initFramebuffers (e : DaemonFluidEngine) : option DaemonFluidEngine :=
  match preset_at (qualityPresets e) (quality (settings e)) with
  | None => None
  | Some preset =>
      let w := sim_extent (innerWidth e) preset in
      let h := sim_extent (innerHeight e) preset in
      let e := set_settings (set_solverIterations (iterations preset) (settings e)) e in
      let g := mkGrid w h (inject_Z w / inject_Z h)
                 (_createDoubleFBO e w h true)
                 (_createDoubleFBO e w h true)
                 (_createRenderTarget e w h true)
                 (_createDoubleFBO e w h false)
                 0 0 0 in
      _initParticleBuffers (count_fieldBuild (set_grid g e))
  end.

(** [_resize] *)
Definition _resize (e : DaemonFluidEngine) : option DaemonFluidEngine :=
  match preset_at (qualityPresets e) (quality (settings e)) with
  | None => None
  | Some preset =>
      let newW := sim_extent (innerWidth e) preset in
      let newH := sim_extent (innerHeight e) preset in
      if negb (newW =? simWidth (grid e))%Z || negb (newH =? simHeight (grid e))%Z
      then _initFramebuffers e
      else Some e
  end.

(** ** Public API *)

Definition getFPS (e : DaemonFluidEngine) : Z := currentFps (perf e).
Definition getParticleCount (e : DaemonFluidEngine) : Z := particleCount (particleSys e).

(** [setQuality(q)] *)
Definition setQuality (q : Z) (e : DaemonFluidEngine) : option DaemonFluidEngine :=
  _initFramebuffers (set_settings (set_quality (Z.max 0 (Z.min 4 q)) (settings e)) e).

(** [Object.assign(this.settings, s)] *)
Definition assign_settings (t : Settings) (s : SettingsPatch) : Settings :=
  mkSettings
    (nullish (p_quality s) (quality t))
    (nullish (p_solverIterations s) (solverIterations t))
    (nullish (p_dyeIntensity s) (dyeIntensity t))
    (nullish (p_forceRadius s) (forceRadius t))
    (nullish (p_colorMode s) (colorMode t))
    (nullish (p_cellSize s) (cellSize t))
    (nullish (p_particleSpeed s) (particleSpeed t))
    (nullish (p_dyeDecay s) (dyeDecay t))
    (nullish (p_velocityDissipation s) (velocityDissipation t)).

(** [updateSettings(s)] *)
Definition updateSettings (s : SettingsPatch) (e : DaemonFluidEngine) : DaemonFluidEngine :=
  set_settings (assign_settings (settings e) s) e.

(** ** The constructor

    The part of the constructor that fixes the state: capabilities as found by
    [_initExtensions], the settings with their defaults, the presets, the
    frame statistics (with [now] for [performance.now()]), then
    [_initFramebuffers] and [_resize].  The frame loop it starts is
    [_animate] below. *)
Definition empty_target : renderTarget :=
  RenderTarget (Sampler 0 0 (fun _ _ => zero4)) RGBA_UNSIGNED_BYTE.

Definition default_settings (options : Options) : Settings :=
  mkSettings
    (nullish (opt_quality options) 2%Z)
    (nullish (opt_solverIterations options) 20%Z)
    (nullish (opt_dyeIntensity options) 1.2)
    (nullish (opt_forceRadius options) 0.018)
    (nullish (opt_colorMode options) 0%Z)
    32
    (nullish (opt_particleSpeed options) 1.0)
    (nullish (opt_dyeDecay options) 0.98)
    (nullish (opt_velocityDissipation options) 0.999).

(** The object as it stands just before the [// Initialize] block. *)
Definition uninitialized (webgl2 floatTex : bool) (winW winH : Z) (now : Q)
    (options : Options) : DaemonFluidEngine :=
  mkEngine webgl2 floatTex winW winH (default_settings options) defaultPresets
    (mkGrid 0 0 1 (empty_target, empty_target) (empty_target, empty_target)
            empty_target (empty_target, empty_target) 0 0 0)
    (mkParticles 0 0 [] (empty_target, empty_target) 0)
    (mkPointer 0 0 0 0 false false)
    (Vec2 0 0)
    (mkPerf 0 now 60 now 0)
    (match opt_autoQuality options with Some false => false | _ => true end)
    O O.

Definition constructor (webgl2 floatTex : bool) (winW winH : Z) (now : Q)
    (options : Options) : option DaemonFluidEngine :=
  match _initFramebuffers (uninitialized webgl2 floatTex winW winH now options) with
  | None => None
  | Some e => _resize e
  end.

(** ** Pointer events

    [clientX], [clientY] come from the event, [rect] from
    [canvas.getBoundingClientRect()]. *)
Record Rect := mkRect { rect_left : Q; rect_top : Q; rect_width : Q; rect_height : Q }.

(** [_updatePointer(e)] *)
Definition _updatePointer (clientX clientY : Q) (rect : Rect)
    (e : DaemonFluidEngine) : DaemonFluidEngine :=
  let q := pointer e in
  set_pointer
    (mkPointer ((clientX - rect_left rect) / rect_width rect * 2 - 1)
               (- ((clientY - rect_top rect) / rect_height rect) * 2 + 1)
               (ptr_dx q) (ptr_dy q) (isDown q) (moved q)) e.

(** The [mousedown] listener: the button is down, the pointer is where the
    event says, and the previous position is set to that same place. *)
Definition on_mousedown (clientX clientY : Q) (rect : Rect)
    (e : DaemonFluidEngine) : DaemonFluidEngine :=
  let q := pointer e in
  let e := set_pointer
      (mkPointer (ptr_x q) (ptr_y q) (ptr_dx q) (ptr_dy q) true (moved q)) e in
  let e := _updatePointer clientX clientY rect e in
  set_lastPointer (Vec2 (ptr_x (pointer e)) (ptr_y (pointer e))) e.

(** The [mouseup] and [mousemove] listeners. *)
Definition on_mouseup (e : DaemonFluidEngine) : DaemonFluidEngine :=
  let q := pointer e in
  set_pointer (mkPointer (ptr_x q) (ptr_y q) (ptr_dx q) (ptr_dy q) false (moved q)) e.

Definition on_mousemove (clientX clientY : Q) (rect : Rect)
    (e : DaemonFluidEngine) : DaemonFluidEngine :=
  let q := pointer e in
  let e := set_pointer
      (mkPointer (ptr_x q) (ptr_y q) (ptr_dx q) (ptr_dy q) (isDown q) true) e in
  _updatePointer clientX clientY rect e.

(** ** Simulation passes

    [_step] sets the viewport to [simWidth] x [simHeight]; every grid pass
    draws with it.  Programs that never set [u_aspectRatio] read [0] for
    it.  [undef] supplies, per fragment, the indeterminate value an
    uninitialized local of the force and dye shaders holds. *)

Definition invRes (g : Grid) : vec2 :=
  Vec2 (1 / inject_Z (simWidth g)) (1 / inject_Z (simHeight g)).

Inductive fieldName : Type := VelocityField | DyeField.

(** [_advect(target, idxName, dt, dissipation)], with
    [(target, idxName)] either [(this.velocityFBO, 'velIdx')] or
    [(this.dyeFBO, 'dyeIdx')]. *)
Definition _advect (which : fieldName) (dt dissipation : Q)
    (e : DaemonFluidEngine) : DaemonFluidEngine :=
  let g := grid e in
  let target := match which with VelocityField => velocityFBO g | DyeField => dyeFBO g end in
  let readIdx := match which with VelocityField => velIdx g | DyeField => dyeIdx g end in
  let writeIdx := (1 - readIdx)%Z in
  let frag := advect_main
      (texture (fbo_get (velocityFBO g) (velIdx g)))
      (texture (fbo_get target readIdx))
      dt (1 / cellSize (settings e)) (invRes g) (aspectRatio g) dissipation in
  let target' := fbo_set target writeIdx
      (draw_to (simWidth g) (simHeight g) (aspectRatio g) frag (fbo_get target writeIdx)) in
  match which with
  | VelocityField => set_grid (set_velocity target' writeIdx g) e
  | DyeField => set_grid (set_dye target' writeIdx g) e
  end.

(** [_applyForces(dt)] *)
Definition _applyForces `{Builtins} (undef : varyings -> Q) (dt : Q)
    (e : DaemonFluidEngine) : DaemonFluidEngine :=
  let g := grid e in
  let writeIdx := (1 - velIdx g)%Z in
  let frag := fun v => force_main
      (texture (fbo_get (velocityFBO g) (velIdx g)))
      dt (cellSize (settings e))
      (Vec2 (ptr_x (pointer e)) (ptr_y (pointer e))) (lastPointer e)
      (isDown (pointer e)) (forceRadius (settings e)) (aspectRatio g) (undef v) v in
  let d := fbo_set (velocityFBO g) writeIdx
      (draw_to (simWidth g) (simHeight g) (aspectRatio g) frag
               (fbo_get (velocityFBO g) writeIdx)) in
  set_grid (set_velocity d writeIdx g) e.

(** [_computeDivergence] *)
Definition _computeDivergence (e : DaemonFluidEngine) : DaemonFluidEngine :=
  let g := grid e in
  let frag := divergence_main
      (texture (fbo_get (velocityFBO g) (velIdx g)))
      (0.5 / cellSize (settings e)) (invRes g) in
  set_grid
    (set_divergence (draw_to (simWidth g) (simHeight g) 0 frag (divergenceFBO g)) g) e.

(** The body of the [for] loop of [_solvePressure]: draw into the buffer
    that is not being read, then make it the one to read. *)
Definition pressure_sweep (u_alpha : Q) (g : Grid) : Grid :=
  let writeIdx := (1 - pressIdx g)%Z in
  let frag := pressure_main
      (texture (fbo_get (pressureFBO g) (pressIdx g)))
      (texture (divergenceFBO g)) u_alpha (invRes g) in
  let d := fbo_set (pressureFBO g) writeIdx
      (draw_to (simWidth g) (simHeight g) 0 frag (fbo_get (pressureFBO g) writeIdx)) in
  set_pressure d writeIdx g.

(** The loop itself, for [n] rounds. *)
Fixpoint pressure_loop (n : nat) (u_alpha : Q) (g : Grid) : Grid :=
  match n with
  | O => g
  | S n' => pressure_loop n' u_alpha (pressure_sweep u_alpha g)
  end.

(** [_solvePressure]: [for (let i = 0; i < this.settings.solverIterations; i++)]
    runs [solverIterations] times for a non-negative whole number and not at
    all for a negative one. *)
Definition _solvePressure (e : DaemonFluidEngine) : DaemonFluidEngine :=
  let u_alpha := - cellSize (settings e) * cellSize (settings e) in
  set_grid
    (pressure_loop (Z.to_nat (solverIterations (settings e))) u_alpha (grid e)) e.

(** [_subtractGradient] *)
Definition _subtractGradient (e : DaemonFluidEngine) : DaemonFluidEngine :=
  let g := grid e in
  let writeIdx := (1 - velIdx g)%Z in
  let frag := gradient_main
      (texture (fbo_get (pressureFBO g) (pressIdx g)))
      (texture (fbo_get (velocityFBO g) (velIdx g)))
      (0.5 / cellSize (settings e)) (invRes g) in
  let d := fbo_set (velocityFBO g) writeIdx
      (draw_to (simWidth g) (simHeight g) 0 frag (fbo_get (velocityFBO g) writeIdx)) in
  set_grid (set_velocity d writeIdx g) e.

(** [_updateDye(dt)] *)
Definition _updateDye `{Builtins} (undef : varyings -> Q) (dt : Q)
    (e : DaemonFluidEngine) : DaemonFluidEngine :=
  let g := grid e in
  let writeIdx := (1 - dyeIdx g)%Z in
  let frag := fun v => dye_main
      (texture (fbo_get (dyeFBO g) (dyeIdx g)))
      dt (Vec2 (ptr_x (pointer e)) (ptr_y (pointer e))) (lastPointer e)
      (isDown (pointer e)) (forceRadius (settings e)) (aspectRatio g)
      (dyeIntensity (settings e)) (colorMode (settings e)) (dyeDecay (settings e))
      (undef v) v in
  let d := fbo_set (dyeFBO g) writeIdx
      (draw_to (simWidth g) (simHeight g) (aspectRatio g) frag
               (fbo_get (dyeFBO g) writeIdx)) in
  set_grid (set_dye d writeIdx g) e.

(** [_updateParticles(dt)]: viewport [particleDataSize] x [particleDataSize]. *)
Definition _updateParticles (dt : Q) (e : DaemonFluidEngine) : DaemonFluidEngine :=
  let g := grid e in
  let ps := particleSys e in
  let writeIdx := (1 - particleReadIdx ps)%Z in
  let frag := particleUpdate_main
      (texture (fbo_get (particleData ps) (particleReadIdx ps)))
      (texture (fbo_get (velocityFBO g) (velIdx g)))
      dt
      (Vec2 (1 / (cellSize (settings e) * aspectRatio g)) (1 / cellSize (settings e)))
      1.0 (particleSpeed (settings e)) in
  let d := fbo_set (particleData ps) writeIdx
      (draw_to (particleDataSize ps) (particleDataSize ps) 0 frag
               (fbo_get (particleData ps) writeIdx)) in
  set_particleSys
    (mkParticles (particleDataSize ps) (particleCount ps) (particleUVs ps) d writeIdx) e.

(** [_step(dt)] *)
Definition _step `{Builtins} (undef : varyings -> Q) (dt : Q)
    (e : DaemonFluidEngine) : DaemonFluidEngine :=
  let e := _advect VelocityField dt (velocityDissipation (settings e)) e in
  let e := _applyForces undef dt e in
  let e := _computeDivergence e in
  let e := _solvePressure e in
  let e := _subtractGradient e in
  let e := _updateDye undef dt e in
  let e := _advect DyeField dt (dyeDecay (settings e)) e in
  let e := _updateParticles dt e in
  set_lastPointer (Vec2 (ptr_x (pointer e)) (ptr_y (pointer e))) e.

(** The projection part of the frame, in the order [_step] runs it. *)
Definition projection (e : DaemonFluidEngine) : DaemonFluidEngine :=
  _subtractGradient (_solvePressure (_computeDivergence e)).

(** ** The frame loop *)

(** The auto-quality block of [_animate], run once per sampling window after
    [this.currentFps] has been updated. *)
Definition autoQuality (e : DaemonFluidEngine) : option DaemonFluidEngine :=
  if autoQualityEnabled e && (currentFps (perf e) <? 20)%Z
     && (0 <? quality (settings e))%Z
  then
    let p := perf e in
    let e := set_perf (mkPerf (frameCount p) (lastFpsTime p) (currentFps p)
                              (lastFrameTime p) (lowFpsCount p + 1)) e in
    if (5 <=? lowFpsCount (perf e))%Z then
      match setQuality (quality (settings e) - 1) e with
      | None => None
      | Some e =>
          let p := perf e in
          Some (set_perf (mkPerf (frameCount p) (lastFpsTime p) (currentFps p)
                                 (lastFrameTime p) 0) e)
      end
    else Some e
  else
    let p := perf e in
    Some (set_perf (mkPerf (frameCount p) (lastFpsTime p) (currentFps p)
                           (lastFrameTime p) 0) e).

(** One sampling window closing with a measured rate of [fps]: the statements
    of [_animate] between the assignment of [this.currentFps] and the end of
    the [if (now - this.lastFpsTime >= 500)] block. *)
Definition fps_window (now : Q) (fps : Z) (e : DaemonFluidEngine)
    : option DaemonFluidEngine :=
  let p := perf e in
  autoQuality (set_perf (mkPerf 0 now fps (lastFrameTime p) (lowFpsCount p)) e).

(** [_animate], with [now] for [performance.now()].  Rendering does not
    change the simulation state and is left out. *)
Definition _animate `{Builtins} (undef : varyings -> Q) (now : Q)
    (e : DaemonFluidEngine) : option DaemonFluidEngine :=
  let dt := minQ ((now - lastFrameTime (perf e)) / 1000) 0.02 in
  let p := perf e in
  let e := set_perf (mkPerf (frameCount p + 1) (lastFpsTime p) (currentFps p)
                            now (lowFpsCount p)) e in
  let p := perf e in
  let r :=
    if Qle_bool 500 (now - lastFpsTime p) then
      fps_window now
        (Math_round (inject_Z (frameCount p) * 1000 / (now - lastFpsTime p))) e
    else Some e in
  match r with
  | None => None
  | Some e => Some (_step undef dt e)
  end.

(** A run of sampling windows with the given measured rates. *)
Fixpoint run_windows (samples : list (Q * Z)) (e : DaemonFluidEngine)
    : option DaemonFluidEngine :=
  match samples with
  | [] => Some e
  | (now, fps) :: rest =>
      match fps_window now fps e with
      | None => None
      | Some e' => run_windows rest e'
      end
  end.

(* ================================================================== *)
(** * Cell-level reading of the stencils

    The same passes written over cell indices instead of normalized
    coordinates, following the wording of the design notes: an out-of-domain
    neighbour is reflected back into the domain (which lands on the border
    cell), velocity differencing flips the sign of a reflected sample,
    pressure sampling does not. *)
(* ================================================================== *)

(** The cell a neighbour index is reflected to on an axis of [n] cells. *)
Definition nb (n k : Z) : Z := clampZ k 0 (n - 1).

(** The sign a velocity sample carries: [-1] when the neighbour was out of
    the domain, [1] otherwise. *)
Definition flip (n k : Z) : Q :=
  if ((k <? 0) || (n <=? k))%Z then -1 else 1.

(** Divergence of a velocity field at cell [(i, j)]:
    [div = halfRdx * ((R.x - L.x) + (T.y - B.y))]. *)
Definition divergence_cell (W H : Z) (halfRdx : Q) (vel : Z -> Z -> vec2)
    (i j : Z) : Q :=
  halfRdx *
  ((flip W (i + 1) * x2 (vel (nb W (i + 1)) j)
    - flip W (i - 1) * x2 (vel (nb W (i - 1)) j))
   + (flip H (j + 1) * y2 (vel i (nb H (j + 1)))
      - flip H (j - 1) * y2 (vel i (nb H (j - 1))))).

(** One Jacobi sweep: [p' = (pL + pR + pB + pT + alpha * div) * 0.25]. *)
Definition jacobi_cell (W H : Z) (alpha : Q) (div p : Z -> Z -> Q)
    (i j : Z) : Q :=
  (p (nb W (i - 1)) j + p (nb W (i + 1)) j
   + p i (nb H (j - 1)) + p i (nb H (j + 1))
   + alpha * div i j) * 0.25.

(** [n] sweeps, each reading the result of the previous one. *)
Fixpoint jacobi_iter (n : nat) (W H : Z) (alpha : Q) (div p : Z -> Z -> Q)
    : Z -> Z -> Q :=
  match n with
  | O => p
  | S n' => jacobi_iter n' W H alpha div (jacobi_cell W H alpha div p)
  end.

(** Projection: [velocity' = velocity - halfRdx * gradient(p)]. *)
Definition gradient_cell (W H : Z) (halfRdx : Q) (p : Z -> Z -> Q)
    (vel : Z -> Z -> vec2) (i j : Z) : vec2 :=
  sub2 (vel i j)
       (smul2 halfRdx
          (Vec2 (p (nb W (i + 1)) j - p (nb W (i - 1)) j)
                (p i (nb H (j + 1)) - p i (nb H (j - 1))))).

(** ** Reading the state of an engine *)

Definition in_grid (e : DaemonFluidEngine) (i j : Z) : Prop :=
  (0 <= i < simWidth (grid e))%Z /\ (0 <= j < simHeight (grid e))%Z.

(** The buffers a pass would read next, cell by cell. *)
Definition read_velocity (g : Grid) (i j : Z) : vec2 :=
  xy (texel (texture (fbo_get (velocityFBO g) (velIdx g))) i j).
Definition read_pressure (g : Grid) (i j : Z) : Q :=
  x4 (texel (texture (fbo_get (pressureFBO g) (pressIdx g))) i j).
Definition read_divergence (g : Grid) (i j : Z) : Q :=
  x4 (texel (texture (divergenceFBO g)) i j).
Definition read_dye (g : Grid) (i j : Z) : vec4 :=
  texel (texture (fbo_get (dyeFBO g) (dyeIdx g))) i j.

Definition velocity_at (e : DaemonFluidEngine) : Z -> Z -> vec2 := read_velocity (grid e).
Definition pressure_at (e : DaemonFluidEngine) : Z -> Z -> Q := read_pressure (grid e).
Definition divergence_at (e : DaemonFluidEngine) : Z -> Z -> Q := read_divergence (grid e).
Definition dye_at (e : DaemonFluidEngine) : Z -> Z -> vec4 := read_dye (grid e).
Definition particle_at (e : DaemonFluidEngine) (i j : Z) : vec4 :=
  texel (texture (fbo_get (particleData (particleSys e))
                          (particleReadIdx (particleSys e)))) i j.

(** The texel a pass reading the named field would fetch. *)
Definition field_at (which : fieldName) (e : DaemonFluidEngine) (i j : Z) : vec4 :=
  match which with
  | VelocityField =>
      texel (texture (fbo_get (velocityFBO (grid e)) (velIdx (grid e)))) i j
  | DyeField => dye_at e i j
  end.

(** The divergence of the current velocity field, as [_computeDivergence]
    would store it. *)
Definition divergence_of (e : DaemonFluidEngine) (i j : Z) : Q :=
  divergence_at (_computeDivergence e) i j.

Definition sized (W H : Z) (t : renderTarget) : Prop :=
  width (texture t) = W /\ height (texture t) = H.

(** Shape of a grid as [_initFramebuffers] builds it: positive extents, every
    target of that extent, aspect ratio the quotient of the extents. *)
Record grid_wf (g : Grid) : Prop := {
  wf_width : (0 < simWidth g)%Z;
  wf_height : (0 < simHeight g)%Z;
  wf_vel0 : sized (simWidth g) (simHeight g) (fst (velocityFBO g));
  wf_vel1 : sized (simWidth g) (simHeight g) (snd (velocityFBO g));
  wf_press0 : sized (simWidth g) (simHeight g) (fst (pressureFBO g));
  wf_press1 : sized (simWidth g) (simHeight g) (snd (pressureFBO g));
  wf_div : sized (simWidth g) (simHeight g) (divergenceFBO g);
  wf_dye0 : sized (simWidth g) (simHeight g) (fst (dyeFBO g));
  wf_dye1 : sized (simWidth g) (simHeight g) (snd (dyeFBO g));
  wf_aspect : aspectRatio g == inject_Z (simWidth g) / inject_Z (simHeight g)
}.

(* ================================================================== *)
(** * Predicates the statements are phrased with *)
(* ================================================================== *)

(** What a successful [_initFramebuffers] leaves behind. *)
Record rebuilt_from (e : DaemonFluidEngine) (p : Preset) (e' : DaemonFluidEngine)
    : Prop := {
  rb_settings : settings e' = set_solverIterations (iterations p) (settings e);
  rb_presets : qualityPresets e' = qualityPresets e;
  rb_caps : isWebGL2 e' = isWebGL2 e /\ floatTexSupport e' = floatTexSupport e;
  rb_window : innerWidth e' = innerWidth e /\ innerHeight e' = innerHeight e;
  rb_perf : perf e' = perf e;
  rb_auto : autoQualityEnabled e' = autoQualityEnabled e;
  rb_fieldBuilds : fieldBuilds e' = S (fieldBuilds e);
  rb_particleBuilds : particleBuilds e' = S (particleBuilds e);
  rb_simWidth : simWidth (grid e') = sim_extent (innerWidth e) p;
  rb_simHeight : simHeight (grid e') = sim_extent (innerHeight e) p;
  rb_velocity : velocityFBO (grid e') = _createDoubleFBO e
                  (sim_extent (innerWidth e) p) (sim_extent (innerHeight e) p) true;
  rb_pressure : pressureFBO (grid e') = _createDoubleFBO e
                  (sim_extent (innerWidth e) p) (sim_extent (innerHeight e) p) true;
  rb_divergence : divergenceFBO (grid e') = _createRenderTarget e
                  (sim_extent (innerWidth e) p) (sim_extent (innerHeight e) p) true;
  rb_dye : dyeFBO (grid e') = _createDoubleFBO e
                  (sim_extent (innerWidth e) p) (sim_extent (innerHeight e) p) false;
  rb_aspect : aspectRatio (grid e')
              = inject_Z (sim_extent (innerWidth e) p)
                / inject_Z (sim_extent (innerHeight e) p);
  rb_indices : velIdx (grid e') = 0%Z /\ pressIdx (grid e') = 0%Z /\ dyeIdx (grid e') = 0%Z;
  rb_dataSize : particleDataSize (particleSys e') = Math_ceil_sqrt (particles p);
  rb_count : particleCount (particleSys e')
             = (Math_ceil_sqrt (particles p) * Math_ceil_sqrt (particles p))%Z;
  rb_uvs : particleUVs (particleSys e') = make_uvs (Math_ceil_sqrt (particles p));
  rb_readIdx : particleReadIdx (particleSys e') = 0%Z;
  rb_particle0 : fst (particleData (particleSys e'))
                 = draw_to (Math_ceil_sqrt (particles p)) (Math_ceil_sqrt (particles p)) 0
                     particleInit_main
                     (_createRenderTarget e (Math_ceil_sqrt (particles p))
                        (Math_ceil_sqrt (particles p)) true);
  rb_particle1 : snd (particleData (particleSys e'))
                 = draw_to (Math_ceil_sqrt (particles p)) (Math_ceil_sqrt (particles p)) 0
                     particleInit_main
                     (_createRenderTarget e (Math_ceil_sqrt (particles p))
                        (Math_ceil_sqrt (particles p)) true)
}.

(** The centre of cell [k] on an axis of [n] cells, as a normalized
    coordinate. *)
Definition centre (n k : Z) : Q := (inject_Z k + 0.5) / inject_Z n.

(** The fragment of cell [(i, j)] in a [W] x [H] viewport. *)
Definition fragment (W H : Z) (aspect : Q) (i j : Z) : varyings :=
  vertex_main aspect (a_position W H i j).


(** The position of the particle stored in texel [(i, j)] after integration
    and before the wrap, in the update [_updateParticles(dt)] performs. *)
Definition unwrapped_at (dt : Q) (e : DaemonFluidEngine) (i j : Z) : vec2 :=
  particle_unwrapped
    (texture (fbo_get (particleData (particleSys e)) (particleReadIdx (particleSys e))))
    (texture (fbo_get (velocityFBO (grid e)) (velIdx (grid e)))) dt
    (Vec2 (1 / (cellSize (settings e) * aspectRatio (grid e)))
          (1 / cellSize (settings e)))
    1.0 (particleSpeed (settings e))
    (fragment (particleDataSize (particleSys e)) (particleDataSize (particleSys e))
              0 i j).

(** A sampling window whose measured rate is below the threshold of 20. *)
Definition low (s : Q * Z) : Prop := (snd s < 20)%Z.

(** The storage a target requested as float gets on this context. *)
Definition float_storage (e : DaemonFluidEngine) : storage :=
  if isWebGL2 e then RGBA32F_FLOAT
  else if floatTexSupport e then RGBA_FLOAT
  else RGBA_UNSIGNED_BYTE.

(* ================================================================== *)
(** * Concrete inputs used by the examples *)
(* ================================================================== *)

(** No option given: [new DaemonFluidEngine(id)]. *)
Definition no_options : Options :=
  mkOptions None None None None None None None None None.


(** [{ quality: 0 }] *)
Definition options_quality0 : Options :=
  mkOptions (Some 0%Z) None None None None None None None None.

(** [{ quality: 7 }] *)
Definition options_quality7 : Options :=
  mkOptions (Some 7%Z) None None None None None None None None.

(** [{ quality: q }] and [{ solverIterations: n }] as [updateSettings] arguments. *)
Definition patch_quality (q : Z) : SettingsPatch :=
  mkPatch (Some q) None None None None None None None None.

(** A WebGL2 context on a 1920 x 1080 window, before initialization. *)
Definition desktop (options : Options) : DaemonFluidEngine :=
  uninitialized true true 1920 1080 0 options.

(** The engine a page gets from [new DaemonFluidEngine(id, options)] on that
    context. *)
Definition booted (options : Options) : DaemonFluidEngine :=
  match constructor true true 1920 1080 0 options with
  | Some e => e
  | None => desktop options
  end.

(** Five sampling windows, half a second apart, each measuring 10 fps. *)
Definition five_low_windows : list (Q * Z) :=
  [ (500, 10%Z); (1000, 10%Z); (1500, 10%Z); (2000, 10%Z); (2500, 10%Z) ].

(** Rational stand-ins for [sqrt] and [exp], enough to run the shaders that
    call them: the square root rounded down to a multiple of 1/10000, and
    [1 / (1 - x + x^2 / 2)] or [1 + x + x^2 / 2] for the exponential. *)
Definition approx_sqrt (q : Q) : Q :=
  inject_Z (Z.sqrt (Qfloor (q * 100000000))) / 10000.

Definition approx_exp (q : Q) : Q :=
  if Qle_bool q 0 then 1 / (1 - q + q * q / 2) else 1 + q + q * q / 2.

Definition approx_builtins : Builtins :=
  {| sqrtQ := approx_sqrt; expQ := approx_exp |}.

(** A render target holding given texels, with the extent and storage of
    [t]. *)
Definition with_texels (f : Z -> Z -> vec4) (t : renderTarget) : renderTarget :=
  RenderTarget (Sampler (width (texture t)) (height (texture t)) f) (format t).

(** The engine [e] at a moment when the velocity, respectively pressure,
    buffer to be read holds the field [f]. *)
Definition with_velocity (f : Z -> Z -> vec2) (e : DaemonFluidEngine)
    : DaemonFluidEngine :=
  let g := grid e in
  set_grid
    (set_velocity
       (fbo_set (velocityFBO g) (velIdx g)
          (with_texels (fun i j => vec4_2ss (f i j) 0 1)
                       (fbo_get (velocityFBO g) (velIdx g))))
       (velIdx g) g) e.

Definition with_pressure (f : Z -> Z -> Q) (e : DaemonFluidEngine)
    : DaemonFluidEngine :=
  let g := grid e in
  set_grid
    (set_pressure
       (fbo_set (pressureFBO g) (pressIdx g)
          (with_texels (fun i j => Vec4 (f i j) 0 0 1)
                       (fbo_get (pressureFBO g) (pressIdx g))))
       (pressIdx g) g) e.

(** A velocity field alternating between [(1, 0)] and [(-1, 0)] from one
    column to the next. *)
Definition checkerboard (i j : Z) : vec2 :=
  Vec2 (if Z.even i then 1 else -1) 0.

(** A pressure field that is [1] on cell [(10, 10)] and [0] elsewhere. *)
Definition spike (i j : Z) : Q :=
  if ((i =? 10) && (j =? 10))%Z then 1 else 0.

(** A freshly constructed engine whose velocity is the checkerboard. *)
Definition checker_engine : DaemonFluidEngine :=
  with_velocity checkerboard (booted no_options).



(** The engine at a moment when the particle buffer to be read holds [f]. *)
Definition with_particles (f : Z -> Z -> vec4) (e : DaemonFluidEngine)
    : DaemonFluidEngine :=
  let ps := particleSys e in
  set_particleSys
    (mkParticles (particleDataSize ps) (particleCount ps) (particleUVs ps)
       (fbo_set (particleData ps) (particleReadIdx ps)
          (with_texels f (fbo_get (particleData ps) (particleReadIdx ps))))
       (particleReadIdx ps)) e.

(** A press in the middle of a full-window canvas, with no movement yet, on
    the engine whose velocity is the checkerboard. *)
Definition press_engine : DaemonFluidEngine :=
  on_mousedown 960 540 (mkRect 0 0 1920 1080) checker_engine.





(** Every particle at [x = 0.999], in a uniform flow to the right that
    moves a particle by [0.02] per frame of 16 ms
    ([640/9 = 1.25 * cellSize * aspectRatio] on the 480 x 270 grid). *)
Definition flow_engine : DaemonFluidEngine :=
  with_particles (fun _ _ => Vec4 0.999 0 0 0)
    (with_velocity (fun _ _ => Vec2 (640 # 9) 0) (booted no_options)).

(* ================================================================== *)
(** * Further methods: [reset], touch events, particle rendering *)
(* ================================================================== *)

(** [gl.clear(gl.COLOR_BUFFER_BIT)] on a bound target, with the clear colour
    [c]: every texel of the attachment takes that colour (the viewport does
    not restrict a clear, and no scissor test is enabled). *)
Definition clear_target (c : vec4) (t : renderTarget) : renderTarget :=
  RenderTarget (Sampler (width (texture t)) (height (texture t)) (fun _ _ => c))
               (format t).

Definition clear_both (c : vec4) (d : doubleFBO) : doubleFBO :=
  (clear_target c (fst d), clear_target c (snd d)).

(** [reset()]: [gl.clearColor(0, 0, 0, 1)], a clear of both targets of
    [velocityFBO], [pressureFBO] and [dyeFBO], then [_initParticles()]. *)
Definition reset (e : DaemonFluidEngine) : DaemonFluidEngine :=
  let g := grid e in
  let c := Vec4 0 0 0 1 in
  _initParticles
    (set_grid
       (mkGrid (simWidth g) (simHeight g) (aspectRatio g)
          (clear_both c (velocityFBO g)) (clear_both c (pressureFBO g))
          (divergenceFBO g) (clear_both c (dyeFBO g))
          (velIdx g) (pressIdx g) (dyeIdx g)) e).

(** [_updateTouch(e)], with [touches] the [(clientX, clientY)] pairs of
    [e.touches]: only the first touch is looked at, and an empty list leaves
    the pointer where it was. *)
Definition _updateTouch (touches : list (Q * Q)) (rect : Rect)
    (e : DaemonFluidEngine) : DaemonFluidEngine :=
  match touches with
  | [] => e
  | (clientX, clientY) :: _ =>
      let q := pointer e in
      set_pointer
        (mkPointer ((clientX - rect_left rect) / rect_width rect * 2 - 1)
                   (- ((clientY - rect_top rect) / rect_height rect) * 2 + 1)
                   (ptr_dx q) (ptr_dy q) (isDown q) (moved q)) e
  end.

(** The [touchstart], [touchend] and [touchmove] listeners. *)
Definition on_touchstart (touches : list (Q * Q)) (rect : Rect)
    (e : DaemonFluidEngine) : DaemonFluidEngine :=
  let q := pointer e in
  let e := set_pointer
      (mkPointer (ptr_x q) (ptr_y q) (ptr_dx q) (ptr_dy q) true (moved q)) e in
  let e := _updateTouch touches rect e in
  set_lastPointer (Vec2 (ptr_x (pointer e)) (ptr_y (pointer e))) e.

Definition on_touchend (e : DaemonFluidEngine) : DaemonFluidEngine :=
  let q := pointer e in
  set_pointer (mkPointer (ptr_x q) (ptr_y q) (ptr_dx q) (ptr_dy q) false (moved q)) e.

Definition on_touchmove (touches : list (Q * Q)) (rect : Rect)
    (e : DaemonFluidEngine) : DaemonFluidEngine :=
  let q := pointer e in
  let e := set_pointer
      (mkPointer (ptr_x q) (ptr_y q) (ptr_dx q) (ptr_dy q) (isDown q) true) e in
  _updateTouch touches rect e.

(** The [resize] listener of the window, [() => this._resize()], run when
    the window has taken the inner size [w] x [h]. *)
Definition set_window (w h : Z) (e : DaemonFluidEngine) : DaemonFluidEngine :=
  mkEngine (isWebGL2 e) (floatTexSupport e) w h
    (settings e) (qualityPresets e) (grid e) (particleSys e) (pointer e) (lastPointer e)
    (perf e) (autoQualityEnabled e) (fieldBuilds e) (particleBuilds e).

Definition on_resize (w h : Z) (e : DaemonFluidEngine) : option DaemonFluidEngine :=
  _resize (set_window w h e).

(** [_getParticleVertSource]: [gl_Position] and [v_color] of the vertex whose
    attribute is [a_particleUV]. *)
Definition particleVert_main `{Builtins} (u_particleData : sampler2D)
    (a_particleUV : vec2) : vec4 * vec4 :=
  let data := texture2D u_particleData a_particleUV in
  let pos := xy data in
  let vel := zw data in
  let speed := length2 vel in
  let x := clamp (speed * 4) 0 1 in
  let c := add3 (mix3 (Vec3 0.134 0 0.117) (Vec3 0 0.478 1) x)
                (muls3 (muls3 (muls3 (muls3 (Vec3 0.631 0.925 1) x) x) x) 0.1) in
  (vec4_2ss pos 0 1, Vec4 (r3 c) (g3 c) (b3 c) 1).

(** [_renderParticles]: [gl.drawArrays(gl.POINTS, 0, this.particleCount)]
    runs the vertex shader on the first [particleCount] entries of the UV
    buffer, reading the particle target that was written last. *)
Definition _renderParticles `{Builtins} (e : DaemonFluidEngine) : list (vec4 * vec4) :=
  let ps := particleSys e in
  map (particleVert_main (texture (fbo_get (particleData ps) (particleReadIdx ps))))
      (firstn (Z.to_nat (particleCount ps)) (particleUVs ps)).

(** [_getDisplaySource]: the texel of [u_texture] under the pixel. *)
Definition display_main (u_texture : sampler2D) (v : varyings) : vec4 :=
  texture2D u_texture (v_texCoord v).

(** The blending [_render] switches on around its two draws:
    [gl.blendFunc(gl.SRC_ALPHA, gl.SRC_ALPHA)] with [gl.FUNC_ADD], that is
    [src * src.a + dst * src.a] on every channel. *)
Definition blend (src dst : vec4) : vec4 :=
  add4 (muls4 src (w4 src)) (muls4 dst (w4 src)).

(** [_renderDye], drawn with that blending over what the canvas holds at that
    point of [_render] (the cleared background and the particles).  The
    viewport is the canvas, which [_resize] keeps at the size of the window;
    the display program never sets [u_aspectRatio]. *)
Definition _renderDye (e : DaemonFluidEngine) (canvas : Z -> Z -> vec4)
    : Z -> Z -> vec4 :=
  fun i j =>
    if in_viewport (innerWidth e) (innerHeight e) i j
    then blend
           (display_main (texture (fbo_get (dyeFBO (grid e)) (dyeIdx (grid e))))
              (vertex_main 0 (a_position (innerWidth e) (innerHeight e) i j)))
           (canvas i j)
    else canvas i j.

(** ** A session

    What happens to the object once it is constructed: animation frames, the
    listeners installed by [_initEventListeners], and calls of the public
    methods.  A handler that throws ends the session ([None]). *)
Inductive event : Type :=
| Frame (undef : varyings -> Q) (now : Q)
| MouseDown (clientX clientY : Q) (rect : Rect)
| MouseUp
| MouseMove (clientX clientY : Q) (rect : Rect)
| TouchStart (touches : list (Q * Q)) (rect : Rect)
| TouchEnd
| TouchMove (touches : list (Q * Q)) (rect : Rect)
| WindowResize (w h : Z)
| CallSetQuality (q : Z)
| CallUpdateSettings (s : SettingsPatch)
| CallReset.

Definition handle `{Builtins} (ev : event) (e : DaemonFluidEngine)
    : option DaemonFluidEngine :=
  match ev with
  | Frame undef now => _animate undef now e
  | MouseDown x y rect => Some (on_mousedown x y rect e)
  | MouseUp => Some (on_mouseup e)
  | MouseMove x y rect => Some (on_mousemove x y rect e)
  | TouchStart touches rect => Some (on_touchstart touches rect e)
  | TouchEnd => Some (on_touchend e)
  | TouchMove touches rect => Some (on_touchmove touches rect e)
  | WindowResize w h => on_resize w h e
  | CallSetQuality q => setQuality q e
  | CallUpdateSettings s => Some (updateSettings s e)
  | CallReset => Some (reset e)
  end.

Fixpoint session `{Builtins} (evs : list event) (e : DaemonFluidEngine)
    : option DaemonFluidEngine :=
  match evs with
  | [] => Some e
  | ev :: rest =>
      match handle ev e with
      | None => None
      | Some e' => session rest e'
      end
  end.


(** ** Further predicates *)



(** A read index is one of the two slots of its double buffer. *)
Definition slot (idx : Z) : Prop := idx = 0%Z \/ idx = 1%Z.

(** The fluid is at rest: zero velocity on every cell. *)
Definition at_rest (e : DaemonFluidEngine) : Prop :=
  forall i j, in_grid e i j -> veq2 (velocity_at e i j) (Vec2 0 0).

(** The pressure buffer holds the same value [c] on every cell. *)
Definition uniform_pressure (c : Q) (e : DaemonFluidEngine) : Prop :=
  forall i j, in_grid e i j -> pressure_at e i j == c.

(** Where a cell sits on an axis of [n] cells, seen from the walls: [1] on
    the first cell, [-1] on the last one, [0] in between, and [0] as well on
    an axis of a single cell, which is first and last at once. *)
Definition wall_sign (n k : Z) : Q :=
  (if (k =? 0)%Z then 1 else 0) - (if (k =? n - 1)%Z then 1 else 0).


(** An engine nothing is happening in: a well-formed grid, the pointer up,
    the fluid at rest and the same pressure [c] on every cell. *)
Definition idle_state (c : Q) (e : DaemonFluidEngine) : Prop :=
  grid_wf (grid e) /\ isDown (pointer e) = false
  /\ at_rest e /\ uniform_pressure c e.

(** [e'] has the settings, the pointer and the grid extent of [e]. *)
Definition same_scene (e e' : DaemonFluidEngine) : Prop :=
  settings e' = settings e /\ pointer e' = pointer e
  /\ simWidth (grid e') = simWidth (grid e)
  /\ simHeight (grid e') = simHeight (grid e).

(** The flow velocity a particle at [pos] picks up in [_updateParticles]:
    [texture2D(u_velocity, (pos + 1.0) * 0.5).xy * u_flowScale], with the
    texture and the scale that method binds. *)
Definition flow_at (e : DaemonFluidEngine) (pos : vec2) : vec2 :=
  mul2 (xy (texture2D (texture (fbo_get (velocityFBO (grid e)) (velIdx (grid e))))
                      (muls2 (adds2 pos 1) 0.5)))
       (Vec2 (1 / (cellSize (settings e) * aspectRatio (grid e)))
             (1 / cellSize (settings e))).

(** The velocity the force pass pulls the fluid towards: [targetVel] of
    [_getForceSource], [-(lastPtr - ptr) / max(u_dt, 0.001) * u_dx], with
    the uniforms [_applyForces] binds. *)
Definition stroke_velocity (dt : Q) (e : DaemonFluidEngine) : vec2 :=
  let ptr := clipToSim (aspectRatio (grid e))
               (Vec2 (ptr_x (pointer e)) (ptr_y (pointer e))) in
  let lastPtr := clipToSim (aspectRatio (grid e)) (lastPointer e) in
  muls2 (divs2 (neg2 (sub2 lastPtr ptr)) (maxQ dt 0.001)) (cellSize (settings e)).

(** Both particle targets have the extent [particleDataSize]. *)
Definition particles_wf (e : DaemonFluidEngine) : Prop :=
  (0 < particleDataSize (particleSys e))%Z
  /\ sized (particleDataSize (particleSys e)) (particleDataSize (particleSys e))
       (fst (particleData (particleSys e)))
  /\ sized (particleDataSize (particleSys e)) (particleDataSize (particleSys e))
       (snd (particleData (particleSys e))).

(** Every particle lies in the domain [[-1, 1) x [-1, 1)]. *)
Definition particles_in_domain (e : DaemonFluidEngine) : Prop :=
  forall i j,
    (0 <= i < particleDataSize (particleSys e))%Z ->
    (0 <= j < particleDataSize (particleSys e))%Z ->
    (-1 <= x4 (particle_at e i j) /\ x4 (particle_at e i j) < 1)
    /\ (-1 <= y4 (particle_at e i j) /\ y4 (particle_at e i j) < 1).

(** The shape the constructor gives the buffers of the grid: well-formed
    targets of at least 32 cells a side, and read indices that are 0 or 1. *)
Definition grid_shape (e : DaemonFluidEngine) : Prop :=
  grid_wf (grid e)
  /\ (32 <= simWidth (grid e))%Z /\ (32 <= simHeight (grid e))%Z
  /\ slot (velIdx (grid e)) /\ slot (pressIdx (grid e)) /\ slot (dyeIdx (grid e)).

(** The shape [_initParticleBuffers] and [_initParticles] give the particle
    system: two square targets, one UV pair per texel, a read index that is
    0 or 1, and every particle inside the domain. *)
Definition particles_shape (e : DaemonFluidEngine) : Prop :=
  particles_wf e
  /\ slot (particleReadIdx (particleSys e))
  /\ particleUVs (particleSys e) = make_uvs (particleDataSize (particleSys e))
  /\ particleCount (particleSys e)
     = (particleDataSize (particleSys e) * particleDataSize (particleSys e))%Z
  /\ particles_in_domain e.

(** The shape the constructor gives the object. *)
Definition engine_inv (e : DaemonFluidEngine) : Prop :=
  qualityPresets e = defaultPresets /\ grid_shape e /\ particles_shape e.

(** The dye to be read has alpha zero on every cell. *)
Definition dye_transparent (e : DaemonFluidEngine) : Prop :=
  forall i j, in_grid e i j -> w4 (dye_at e i j) == 0.

(** The engine at a moment when the dye buffer to be read holds [f]. *)
Definition with_dye (f : Z -> Z -> vec4) (e : DaemonFluidEngine)
    : DaemonFluidEngine :=
  let g := grid e in
  set_grid
    (set_dye
       (fbo_set (dyeFBO g) (dyeIdx g)
          (with_texels f (fbo_get (dyeFBO g) (dyeIdx g))))
       (dyeIdx g) g) e.

(** A freshly constructed engine whose dye is the same opaque colour on
    every cell. *)
Definition dyed_engine : DaemonFluidEngine :=
  with_dye (fun _ _ => Vec4 1 0.5 0.25 1) (booted no_options).


(* ================================================================== *)
(** * Reconstruction: [_initFramebuffers], [setQuality], [_resize] *)
(* ================================================================== *)

Section Reconstruction.

Variable e : DaemonFluidEngine.
Variable p : Preset.
Hypothesis Hpreset : preset_at (qualityPresets e) (quality (settings e)) = Some p.

Lemma initFramebuffers_rebuilds :
  exists e', _initFramebuffers e = Some e' /\ rebuilt_from e p e'.
Proof.
  unfold _initFramebuffers. rewrite Hpreset.
  unfold _initParticleBuffers.
  cbn [set_settings set_grid count_fieldBuild qualityPresets settings
       set_solverIterations quality].
  rewrite Hpreset.
  eexists. split; [reflexivity|].
  constructor; try reflexivity; try (split; reflexivity).
  repeat split; reflexivity.
Qed.

End Reconstruction.

Lemma preset_at_default (q : Z) :
  (0 <= q <= 4)%Z -> exists p, preset_at defaultPresets q = Some p.
Proof.
  intros Hq.
  assert (q = 0 \/ q = 1 \/ q = 2 \/ q = 3 \/ q = 4)%Z as Hc by lia.
  destruct Hc as [-> | [-> | [-> | [-> | ->]]]]; eexists; reflexivity.
Qed.

Lemma preset_at_default_none (q : Z) :
  (q < 0 \/ 4 < q)%Z -> preset_at defaultPresets q = None.
Proof.
  intros Hq. unfold preset_at.
  destruct (q <? 0)%Z eqn:E; [reflexivity|].
  apply Z.ltb_ge in E.
  apply nth_error_None. simpl. lia.
Qed.

Lemma clamp_level_range (q : Z) : (0 <= Z.max 0 (Z.min 4 q) <= 4)%Z.
Proof. lia. Qed.

(** [setQuality] always succeeds on the preset table of the constructor. *)
Lemma setQuality_rebuilds (q : Z) (e : DaemonFluidEngine) :
  qualityPresets e = defaultPresets ->
  exists e' p,
    setQuality q e = Some e'
    /\ preset_at defaultPresets (Z.max 0 (Z.min 4 q)) = Some p
    /\ quality (settings e') = Z.max 0 (Z.min 4 q)
    /\ rebuilt_from (set_settings (set_quality (Z.max 0 (Z.min 4 q)) (settings e)) e) p e'.
Proof.
  intros Hp.
  destruct (preset_at_default (Z.max 0 (Z.min 4 q)) (clamp_level_range q)) as [p Hq].
  unfold setQuality.
  destruct (initFramebuffers_rebuilds
              (set_settings (set_quality (Z.max 0 (Z.min 4 q)) (settings e)) e) p)
    as [e' [He' Hr]].
  { cbn [set_settings qualityPresets settings set_quality quality].
    rewrite Hp. exact Hq. }
  exists e', p.
  split; [exact He'|]. split; [exact Hq|]. split; [|exact Hr].
  rewrite (rb_settings _ _ _ Hr). reflexivity.
Qed.

(* ================================================================== *)
(** * The quality controller *)
(* ================================================================== *)

(** A window at or above 20 fps, or any window while the controller is
    disabled or the level is already 0, only clears the streak. *)
Lemma fps_window_clears (now : Q) (fps : Z) (e : DaemonFluidEngine) :
  (autoQualityEnabled e = false \/ 20 <= fps \/ quality (settings e) <= 0)%Z ->
  exists e',
    fps_window now fps e = Some e'
    /\ lowFpsCount (perf e') = 0%Z
    /\ settings e' = settings e
    /\ grid e' = grid e
    /\ particleSys e' = particleSys e
    /\ qualityPresets e' = qualityPresets e
    /\ autoQualityEnabled e' = autoQualityEnabled e
    /\ fieldBuilds e' = fieldBuilds e
    /\ particleBuilds e' = particleBuilds e.
Proof.
  intros Hc. unfold fps_window, autoQuality.
  cbn [set_perf autoQualityEnabled perf currentFps settings].
  assert (autoQualityEnabled e && (fps <? 20)%Z && (0 <? quality (settings e))%Z = false)
    as ->.
  { destruct Hc as [-> | [H | H]].
    - reflexivity.
    - apply Z.ltb_ge in H. rewrite H. apply andb_false_iff. left. apply andb_false_r.
    - assert ((0 <? quality (settings e))%Z = false) as -> by (apply Z.ltb_ge; lia).
      apply andb_false_r. }
  eexists. split; [reflexivity|]. repeat split.
Qed.

(** A low window that does not complete a streak of five only counts. *)
Lemma fps_window_counts (now : Q) (fps : Z) (e : DaemonFluidEngine) :
  autoQualityEnabled e = true -> (fps < 20)%Z -> (0 < quality (settings e))%Z ->
  (lowFpsCount (perf e) + 1 < 5)%Z ->
  exists e',
    fps_window now fps e = Some e'
    /\ lowFpsCount (perf e') = (lowFpsCount (perf e) + 1)%Z
    /\ settings e' = settings e
    /\ grid e' = grid e
    /\ particleSys e' = particleSys e
    /\ qualityPresets e' = qualityPresets e
    /\ autoQualityEnabled e' = autoQualityEnabled e
    /\ fieldBuilds e' = fieldBuilds e
    /\ particleBuilds e' = particleBuilds e.
Proof.
  intros Ha Hf Hq Hc. unfold fps_window, autoQuality.
  cbn [set_perf autoQualityEnabled perf currentFps settings lowFpsCount
       frameCount lastFpsTime lastFrameTime].
  rewrite Ha.
  assert ((fps <? 20)%Z = true) as -> by (apply Z.ltb_lt; assumption).
  assert ((0 <? quality (settings e))%Z = true) as -> by (apply Z.ltb_lt; assumption).
  assert ((5 <=? lowFpsCount (perf e) + 1)%Z = false) as -> by (apply Z.leb_gt; assumption).
  cbn [andb]. eexists. split; [reflexivity|]. repeat split. exact Ha.
Qed.

(** The low window that completes the streak lowers the level through
    [setQuality] and clears the streak. *)
Lemma fps_window_downgrades (now : Q) (fps : Z) (e : DaemonFluidEngine) :
  autoQualityEnabled e = true -> (fps < 20)%Z -> (0 < quality (settings e))%Z ->
  (5 <= lowFpsCount (perf e) + 1)%Z ->
  qualityPresets e = defaultPresets ->
  exists e',
    fps_window now fps e = Some e'
    /\ lowFpsCount (perf e') = 0%Z
    /\ quality (settings e') = Z.max 0 (Z.min 4 (quality (settings e) - 1))
    /\ qualityPresets e' = qualityPresets e
    /\ autoQualityEnabled e' = autoQualityEnabled e
    /\ fieldBuilds e' = S (fieldBuilds e)
    /\ particleBuilds e' = S (particleBuilds e).
Proof.
  intros Ha Hf Hq Hc Hp. unfold fps_window, autoQuality.
  cbn [set_perf autoQualityEnabled perf currentFps settings lowFpsCount
       frameCount lastFpsTime lastFrameTime].
  rewrite Ha.
  assert ((fps <? 20)%Z = true) as -> by (apply Z.ltb_lt; assumption).
  assert ((0 <? quality (settings e))%Z = true) as -> by (apply Z.ltb_lt; assumption).
  assert ((5 <=? lowFpsCount (perf e) + 1)%Z = true) as -> by (apply Z.leb_le; assumption).
  cbn [andb].
  match goal with
  | |- context [setQuality ?q ?x] =>
      destruct (setQuality_rebuilds q x) as [e1 [p1 [He1 [_ [Hq1 Hr]]]]];
      [exact Hp|]
  end.
  rewrite He1. eexists. split; [reflexivity|].
  cbn [set_perf perf lowFpsCount settings qualityPresets autoQualityEnabled
       fieldBuilds particleBuilds].
  repeat split.
  - exact Hq1.
  - rewrite (rb_presets _ _ _ Hr). reflexivity.
  - rewrite (rb_auto _ _ _ Hr). exact Ha.
  - rewrite (rb_fieldBuilds _ _ _ Hr). reflexivity.
  - rewrite (rb_particleBuilds _ _ _ Hr). reflexivity.
Qed.

Lemma initFramebuffers_inv (e e' : DaemonFluidEngine) :
  _initFramebuffers e = Some e' ->
  exists p, preset_at (qualityPresets e) (quality (settings e)) = Some p
            /\ rebuilt_from e p e'.
Proof.
  intros H.
  destruct (preset_at (qualityPresets e) (quality (settings e))) as [p|] eqn:Hp.
  - exists p. split; [reflexivity|].
    destruct (initFramebuffers_rebuilds e p Hp) as [e1 [He1 Hr]].
    rewrite H in He1. injection He1 as <-. exact Hr.
  - unfold _initFramebuffers in H. rewrite Hp in H. discriminate.
Qed.

Lemma setQuality_level (q : Z) (e e' : DaemonFluidEngine) :
  setQuality q e = Some e' -> quality (settings e') = Z.max 0 (Z.min 4 q).
Proof.
  unfold setQuality. intros H.
  apply initFramebuffers_inv in H. destruct H as [p [_ Hr]].
  rewrite (rb_settings _ _ _ Hr). reflexivity.
Qed.

(** No sampling window raises the level. *)
Lemma fps_window_never_raises (now : Q) (fps : Z) (e e' : DaemonFluidEngine) :
  fps_window now fps e = Some e' ->
  (quality (settings e') <= quality (settings e))%Z.
Proof.
  unfold fps_window, autoQuality.
  cbn [set_perf autoQualityEnabled perf currentFps settings lowFpsCount
       frameCount lastFpsTime lastFrameTime].
  destruct (autoQualityEnabled e && (fps <? 20)%Z && (0 <? quality (settings e))%Z)
    eqn:Hc.
  - apply andb_true_iff in Hc. destruct Hc as [_ Hq]. apply Z.ltb_lt in Hq.
    destruct (5 <=? lowFpsCount (perf e) + 1)%Z.
    + match goal with
      | |- context [setQuality ?q ?x] => destruct (setQuality q x) as [e1|] eqn:He1
      end; [|discriminate].
      intros H. injection H as <-.
      apply setQuality_level in He1.
      cbn [set_perf settings]. rewrite He1.
      cbn [set_perf settings]. lia.
    + intros H. injection H as <-. cbn [set_perf settings]. lia.
  - intros H. injection H as <-. cbn [set_perf settings]. lia.
Qed.

Lemma run_windows_never_raises (samples : list (Q * Z)) :
  forall e e', run_windows samples e = Some e' ->
               (quality (settings e') <= quality (settings e))%Z.
Proof.
  induction samples as [|[now fps] rest IH]; intros e e' H.
  - injection H as <-. lia.
  - cbn [run_windows] in H.
    destruct (fps_window now fps e) as [e1|] eqn:H1; [|discriminate].
    apply fps_window_never_raises in H1. apply IH in H. lia.
Qed.

(** A run of low windows too short to complete a streak changes nothing but
    the counter. *)
Lemma run_windows_counting (samples : list (Q * Z)) :
  forall e,
    autoQualityEnabled e = true -> (0 < quality (settings e))%Z ->
    Forall low samples ->
    (lowFpsCount (perf e) + Z.of_nat (length samples) < 5)%Z ->
    exists e',
      run_windows samples e = Some e'
      /\ lowFpsCount (perf e') = (lowFpsCount (perf e) + Z.of_nat (length samples))%Z
      /\ settings e' = settings e
      /\ grid e' = grid e
      /\ particleSys e' = particleSys e
      /\ qualityPresets e' = qualityPresets e
      /\ autoQualityEnabled e' = autoQualityEnabled e
      /\ fieldBuilds e' = fieldBuilds e
      /\ particleBuilds e' = particleBuilds e.
Proof.
  induction samples as [|[now fps] rest IH]; intros e Ha Hq Hl Hc.
  - exists e. cbn [run_windows length Z.of_nat]. repeat split. lia.
  - inversion Hl as [|s r Hs Hr]; subst.
    cbn [length] in Hc. rewrite Nat2Z.inj_succ in Hc.
    destruct (fps_window_counts now fps e Ha Hs Hq ltac:(lia))
      as [e1 [H1 [Hc1 [Hs1 [Hg1 [Hp1 [Hq1 [Ha1 [Hf1 Hb1]]]]]]]]].
    destruct (IH e1) as [e' [H' [Hc' [Hs' [Hg' [Hp' [Hq' [Ha' [Hf' Hb']]]]]]]]].
    + rewrite Ha1. exact Ha.
    + rewrite Hs1. exact Hq.
    + exact Hr.
    + rewrite Hc1. lia.
    + exists e'. cbn [run_windows]. rewrite H1.
      split; [exact H'|].
      cbn [length]. rewrite Nat2Z.inj_succ.
      repeat split; try congruence. rewrite Hc', Hc1. lia.
Qed.

(** Five low windows in a row, starting from a cleared streak at a level
    above 0: exactly one downgrade, by one level, with one reconstruction. *)
Lemma run_windows_five_low (samples : list (Q * Z)) (e : DaemonFluidEngine) :
  autoQualityEnabled e = true -> qualityPresets e = defaultPresets ->
  (0 < quality (settings e) <= 4)%Z -> lowFpsCount (perf e) = 0%Z ->
  Forall low samples -> length samples = 5%nat ->
  exists e',
    run_windows samples e = Some e'
    /\ quality (settings e') = (quality (settings e) - 1)%Z
    /\ lowFpsCount (perf e') = 0%Z
    /\ fieldBuilds e' = S (fieldBuilds e)
    /\ particleBuilds e' = S (particleBuilds e).
Proof.
  intros Ha Hp Hq Hc Hl Hn.
  assert (exists front last, samples = front ++ [last] /\ length front = 4%nat)
    as [front [[now fps] [-> Hfront]]].
  { destruct samples as [|s1 [|s2 [|s3 [|s4 [|s5 [|]]]]]]; try discriminate.
    exists [s1; s2; s3; s4], s5. split; reflexivity. }
  apply Forall_app in Hl. destruct Hl as [Hlf Hll].
  inversion Hll as [|s r Hs _]; subst.
  destruct (run_windows_counting front e Ha ltac:(lia) Hlf ltac:(rewrite Hc, Hfront; simpl; lia))
    as [e1 [H1 [Hc1 [Hs1 [Hg1 [Hp1 [Hq1 [Ha1 [Hf1 Hb1]]]]]]]]].
  destruct (fps_window_downgrades now fps e1)
    as [e' [H' [Hc' [Hs' [Hq' [Ha' [Hf' Hb']]]]]]].
  - rewrite Ha1. exact Ha.
  - exact Hs.
  - rewrite Hs1. lia.
  - rewrite Hc1, Hc, Hfront. simpl. lia.
  - rewrite Hq1. exact Hp.
  - exists e'. split.
    + clear - H1 H'. revert e H1.
      induction front as [|[n f] front IH]; intros e H1.
      * cbn [run_windows] in H1. injection H1 as ->.
        cbn [app run_windows]. rewrite H'. reflexivity.
      * cbn [app run_windows] in *.
        destruct (fps_window n f e) as [e2|]; [|discriminate].
        apply IH. exact H1.
    + rewrite Hs', Hs1, Hf', Hf1, Hb', Hb1.
      repeat split; try assumption. lia.
Qed.

(** After [_initFramebuffers] the grid already has the extent [_resize]
    computes, so the [_resize] of the constructor changes nothing. *)
Lemma resize_after_init (e e' : DaemonFluidEngine) (p : Preset) :
  preset_at (qualityPresets e) (quality (settings e)) = Some p ->
  rebuilt_from e p e' -> _resize e' = Some e'.
Proof.
  intros Hp Hr. unfold _resize.
  rewrite (rb_presets _ _ _ Hr), (rb_settings _ _ _ Hr).
  cbn [set_solverIterations quality]. rewrite Hp.
  destruct (rb_window _ _ _ Hr) as [-> ->].
  rewrite (rb_simWidth _ _ _ Hr), (rb_simHeight _ _ _ Hr).
  rewrite !Z.eqb_refl. reflexivity.
Qed.

Lemma constructor_boots (webgl2 floatTex : bool) (winW winH : Z) (now : Q)
    (options : Options) (p : Preset) :
  preset_at defaultPresets (nullish (opt_quality options) 2%Z) = Some p ->
  exists e',
    constructor webgl2 floatTex winW winH now options = Some e'
    /\ rebuilt_from (uninitialized webgl2 floatTex winW winH now options) p e'.
Proof.
  intros Hp. unfold constructor.
  destruct (initFramebuffers_rebuilds
              (uninitialized webgl2 floatTex winW winH now options) p Hp)
    as [e' [He' Hr]].
  rewrite He'. exists e'. split; [|exact Hr].
  exact (resize_after_init
           (uninitialized webgl2 floatTex winW winH now options) e' p Hp Hr).
Qed.

Lemma booted_rebuilt (options : Options) (p : Preset) :
  preset_at defaultPresets (nullish (opt_quality options) 2%Z) = Some p ->
  rebuilt_from (desktop options) p (booted options).
Proof.
  intros Hp. unfold booted.
  destruct (constructor_boots true true 1920 1080 0 options p Hp) as [e' [-> Hr]].
  exact Hr.
Qed.

Lemma booted_is_init (options : Options) (p : Preset) :
  preset_at defaultPresets (nullish (opt_quality options) 2%Z) = Some p ->
  _initFramebuffers (desktop options) = Some (booted options).
Proof.
  intros Hp. unfold booted, constructor, desktop.
  destruct (initFramebuffers_rebuilds
              (uninitialized true true 1920 1080 0 options) p Hp) as [e' [He' Hr]].
  rewrite He'.
  rewrite (resize_after_init
             (uninitialized true true 1920 1080 0 options) e' p Hp Hr).
  reflexivity.
Qed.

(** The state summary of a freshly constructed engine. *)
Lemma booted_state (options : Options) (p : Preset) :
  preset_at defaultPresets (nullish (opt_quality options) 2%Z) = Some p ->
  quality (settings (booted options)) = nullish (opt_quality options) 2%Z
  /\ solverIterations (settings (booted options)) = iterations p
  /\ qualityPresets (booted options) = defaultPresets
  /\ lowFpsCount (perf (booted options)) = 0%Z
  /\ autoQualityEnabled (booted options)
     = match opt_autoQuality options with Some false => false | _ => true end
  /\ fieldBuilds (booted options) = 1%nat
  /\ particleBuilds (booted options) = 1%nat.
Proof.
  intros Hp. pose proof (booted_rebuilt options p Hp) as Hr.
  rewrite (rb_settings _ _ _ Hr), (rb_presets _ _ _ Hr), (rb_perf _ _ _ Hr),
    (rb_auto _ _ _ Hr), (rb_fieldBuilds _ _ _ Hr), (rb_particleBuilds _ _ _ Hr).
  repeat split.
Qed.

(** At level 0 no run of windows changes the level or reconstructs. *)
Lemma run_windows_level0 (samples : list (Q * Z)) :
  forall e,
    quality (settings e) = 0%Z ->
    exists e',
      run_windows samples e = Some e'
      /\ quality (settings e') = 0%Z
      /\ fieldBuilds e' = fieldBuilds e
      /\ particleBuilds e' = particleBuilds e.
Proof.
  induction samples as [|[now fps] rest IH]; intros e Hq.
  - exists e. repeat split. exact Hq.
  - destruct (fps_window_clears now fps e ltac:(right; right; lia))
      as [e1 [H1 [_ [Hs1 [_ [_ [_ [_ [Hf1 Hb1]]]]]]]]].
    destruct (IH e1 ltac:(rewrite Hs1; exact Hq)) as [e' [H' [Hq' [Hf' Hb']]]].
    exists e'. cbn [run_windows]. rewrite H1.
    repeat split; try assumption; congruence.
Qed.

(** Claim C5, as amended.  With auto-quality enabled: (1) no run of sampling
    windows ever raises the level; (2) starting from a cleared streak at a
    level from 1 to 4, five consecutive windows below 20 fps lower the level
    by exactly 1, clear the streak counter and reconstruct the fields and
    the particles exactly once, while (3) fewer than five such windows leave
    level and buffers alone and only count; (4) a window at or above 20 fps
    clears the streak counter and changes nothing else; (5) at level 0 a
    window below 20 fps also just clears the counter: there is no downgrade
    and no reconstruction. *)
Theorem auto_quality_downgrade :
  (forall samples e e',
      run_windows samples e = Some e' ->
      (quality (settings e') <= quality (settings e))%Z)
  /\ (forall samples e,
      autoQualityEnabled e = true -> qualityPresets e = defaultPresets ->
      (0 < quality (settings e) <= 4)%Z -> lowFpsCount (perf e) = 0%Z ->
      Forall low samples -> length samples = 5%nat ->
      exists e',
        run_windows samples e = Some e'
        /\ quality (settings e') = (quality (settings e) - 1)%Z
        /\ lowFpsCount (perf e') = 0%Z
        /\ fieldBuilds e' = S (fieldBuilds e)
        /\ particleBuilds e' = S (particleBuilds e))
  /\ (forall samples e,
      autoQualityEnabled e = true ->
      (0 < quality (settings e))%Z -> lowFpsCount (perf e) = 0%Z ->
      Forall low samples -> (length samples < 5)%nat ->
      exists e',
        run_windows samples e = Some e'
        /\ quality (settings e') = quality (settings e)
        /\ lowFpsCount (perf e') = Z.of_nat (length samples)
        /\ fieldBuilds e' = fieldBuilds e
        /\ particleBuilds e' = particleBuilds e)
  /\ (forall now fps e,
      (20 <= fps)%Z ->
      exists e',
        fps_window now fps e = Some e'
        /\ lowFpsCount (perf e') = 0%Z
        /\ quality (settings e') = quality (settings e)
        /\ fieldBuilds e' = fieldBuilds e
        /\ particleBuilds e' = particleBuilds e)
  /\ (forall now fps e,
      quality (settings e) = 0%Z ->
      exists e',
        fps_window now fps e = Some e'
        /\ lowFpsCount (perf e') = 0%Z
        /\ quality (settings e') = 0%Z
        /\ fieldBuilds e' = fieldBuilds e
        /\ particleBuilds e' = particleBuilds e).
Proof.
  split; [exact run_windows_never_raises|].
  split; [exact run_windows_five_low|].
  split; [|split].
  - intros samples e Ha Hq Hc Hl Hn.
    destruct (run_windows_counting samples e Ha Hq Hl ltac:(lia))
      as [e' [H' [Hc' [Hs' [_ [_ [_ [_ [Hf' Hb']]]]]]]]].
    exists e'. rewrite Hs', Hc', Hc. repeat split; assumption.
  - intros now fps e Hf.
    destruct (fps_window_clears now fps e ltac:(right; left; exact Hf))
      as [e' [H' [Hc' [Hs' [_ [_ [_ [_ [Hf' Hb']]]]]]]]].
    exists e'. rewrite Hs'. repeat split; assumption.
  - intros now fps e Hq.
    destruct (fps_window_clears now fps e ltac:(right; right; lia))
      as [e' [H' [Hc' [Hs' [_ [_ [_ [_ [Hf' Hb']]]]]]]]].
    exists e'. rewrite Hs', Hq. repeat split; assumption.
Qed.

Lemma auto_quality_downgrade_witness :
  exists e',
    run_windows five_low_windows (booted no_options) = Some e'
    /\ quality (settings e') = (quality (settings (booted no_options)) - 1)%Z
    /\ lowFpsCount (perf e') = 0%Z
    /\ fieldBuilds e' = S (fieldBuilds (booted no_options))
    /\ particleBuilds e' = S (particleBuilds (booted no_options)).
Proof.
  destruct (booted_state no_options (mkPreset 262144 (1 / 4) 20) eq_refl)
    as [Hq [_ [Hp [Hc [Ha _]]]]].
  apply (proj1 (proj2 auto_quality_downgrade) five_low_windows (booted no_options)).
  - exact Ha.
  - exact Hp.
  - rewrite Hq. cbn [nullish opt_quality no_options]. lia.
  - exact Hc.
  - repeat constructor.
  - reflexivity.
Defined.

(** Claim C5 as stated fails at level 0: five consecutive windows at 10 fps
    leave the level at 0 (it does not decrease by 1) and reconstruct nothing. *)
Lemma auto_quality_level0_counterexample :
  autoQualityEnabled (booted options_quality0) = true
  /\ lowFpsCount (perf (booted options_quality0)) = 0%Z
  /\ Forall low five_low_windows
  /\ exists e',
      run_windows five_low_windows (booted options_quality0) = Some e'
      /\ quality (settings e') = quality (settings (booted options_quality0))
      /\ quality (settings e') <> (quality (settings (booted options_quality0)) - 1)%Z
      /\ fieldBuilds e' = fieldBuilds (booted options_quality0).
Proof.
  destruct (booted_state options_quality0 (mkPreset 16384 (1 / 8) 10) eq_refl)
    as [Hq [_ [_ [Hc [Ha _]]]]].
  cbn [nullish opt_quality opt_autoQuality options_quality0] in Hq, Ha.
  split; [exact Ha|]. split; [exact Hc|].
  split; [repeat constructor|].
  destruct (run_windows_level0 five_low_windows (booted options_quality0) Hq)
    as [e' [H' [Hq' [Hf' _]]]].
  exists e'. rewrite Hq', Hq. repeat split; try assumption. lia.
Qed.

(* ================================================================== *)
(** * Configuration: iteration count and quality level *)
(* ================================================================== *)




(** Claim C8, the half that holds: [setQuality(q)] stores the level clamped
    into [[0,4]] and reconstructs fields and particles once, at the preset of
    that level. *)
Lemma setQuality_clamps (q : Z) (e : DaemonFluidEngine) :
  qualityPresets e = defaultPresets ->
  exists e' p,
    setQuality q e = Some e'
    /\ preset_at defaultPresets (Z.max 0 (Z.min 4 q)) = Some p
    /\ quality (settings e') = Z.max 0 (Z.min 4 q)
    /\ (0 <= quality (settings e') <= 4)%Z
    /\ solverIterations (settings e') = iterations p
    /\ simWidth (grid e') = sim_extent (innerWidth e) p
    /\ simHeight (grid e') = sim_extent (innerHeight e) p
    /\ getParticleCount e'
       = (Math_ceil_sqrt (particles p) * Math_ceil_sqrt (particles p))%Z
    /\ fieldBuilds e' = S (fieldBuilds e)
    /\ particleBuilds e' = S (particleBuilds e).
Proof.
  intros Hp.
  destruct (setQuality_rebuilds q e Hp) as [e' [p [He' [Hq [Hl Hr]]]]].
  exists e', p.
  split; [exact He'|]. split; [exact Hq|]. split; [exact Hl|].
  split; [rewrite Hl; lia|].
  split; [rewrite (rb_settings _ _ _ Hr); reflexivity|].
  split; [exact (rb_simWidth _ _ _ Hr)|].
  split; [exact (rb_simHeight _ _ _ Hr)|].
  split; [exact (rb_count _ _ _ Hr)|].
  split; [exact (rb_fieldBuilds _ _ _ Hr)|exact (rb_particleBuilds _ _ _ Hr)].
Qed.

(** Claim C8, the half the code misses: [updateSettings({ quality: 7 })] on a
    freshly constructed engine stores 7, not the clamped 4, reconstructs
    nothing, and leaves the engine in a state where the next [_resize] or
    [_initFramebuffers] reads an [undefined] preset and throws.  The
    constructor does not clamp either: [{ quality: 7 }] as an option makes it
    throw. *)
Theorem updateSettings_quality_unclamped :
  quality (settings (updateSettings (patch_quality 7) (booted no_options))) = 7%Z
  /\ Z.max 0 (Z.min 4 7) = 4%Z
  /\ grid (updateSettings (patch_quality 7) (booted no_options))
     = grid (booted no_options)
  /\ particleSys (updateSettings (patch_quality 7) (booted no_options))
     = particleSys (booted no_options)
  /\ fieldBuilds (updateSettings (patch_quality 7) (booted no_options))
     = fieldBuilds (booted no_options)
  /\ _resize (updateSettings (patch_quality 7) (booted no_options)) = None
  /\ _initFramebuffers (updateSettings (patch_quality 7) (booted no_options)) = None
  /\ constructor true true 1920 1080 0 options_quality7 = None.
Proof.
  destruct (booted_state no_options (mkPreset 262144 (1 / 4) 20) eq_refl)
    as [_ [_ [Hp _]]].
  generalize dependent (booted no_options). intros e Hp.
  split; [reflexivity|]. split; [reflexivity|]. split; [reflexivity|].
  split; [reflexivity|]. split; [reflexivity|].
  split; [|split].
  - unfold _resize.
    cbn [updateSettings set_settings qualityPresets settings assign_settings
         patch_quality p_quality nullish quality].
    rewrite Hp. reflexivity.
  - unfold _initFramebuffers.
    cbn [updateSettings set_settings qualityPresets settings assign_settings
         patch_quality p_quality nullish quality].
    rewrite Hp. reflexivity.
  - reflexivity.
Qed.

(* ================================================================== *)
(** * Storage of the render targets *)
(* ================================================================== *)

Lemma createRenderTarget_format (e : DaemonFluidEngine) (w h : Z) (isFloat : bool) :
  format (_createRenderTarget e w h isFloat)
  = if isFloat then float_storage e else RGBA_UNSIGNED_BYTE.
Proof.
  unfold _createRenderTarget, float_storage. cbn [format].
  destruct (isWebGL2 e), isFloat, (floatTexSupport e); reflexivity.
Qed.

(** Claim C6, as amended.  Reconstruction never fails for want of a float
    capability, and it always requests the dye targets with [isFloat = false]:
    both dye targets are normalized 8-bit whatever the context supports.  The
    velocity, pressure, divergence and particle targets are the ones that
    are float when float storage is available (WebGL2, or WebGL1 with
    [OES_texture_float]) and normalized 8-bit only when it is not. *)
Theorem dye_targets_are_8bit :
  (forall e p,
      preset_at (qualityPresets e) (quality (settings e)) = Some p ->
      exists e', _initFramebuffers e = Some e')
  /\ (forall e e',
      _initFramebuffers e = Some e' ->
      format (fst (dyeFBO (grid e'))) = RGBA_UNSIGNED_BYTE
      /\ format (snd (dyeFBO (grid e'))) = RGBA_UNSIGNED_BYTE
      /\ format (fst (velocityFBO (grid e'))) = float_storage e
      /\ format (snd (velocityFBO (grid e'))) = float_storage e
      /\ format (fst (pressureFBO (grid e'))) = float_storage e
      /\ format (snd (pressureFBO (grid e'))) = float_storage e
      /\ format (divergenceFBO (grid e')) = float_storage e
      /\ format (fst (particleData (particleSys e'))) = float_storage e
      /\ format (snd (particleData (particleSys e'))) = float_storage e)
  /\ (forall e,
      is_float (float_storage e) = isWebGL2 e || floatTexSupport e).
Proof.
  split; [|split].
  - intros e p Hp.
    destruct (initFramebuffers_rebuilds e p Hp) as [e' [He' _]].
    exists e'. exact He'.
  - intros e e' H. apply initFramebuffers_inv in H. destruct H as [p [_ Hr]].
    rewrite (rb_dye _ _ _ Hr), (rb_velocity _ _ _ Hr), (rb_pressure _ _ _ Hr),
      (rb_divergence _ _ _ Hr), (rb_particle0 _ _ _ Hr), (rb_particle1 _ _ _ Hr).
    unfold _createDoubleFBO, draw_to. cbn [fst snd format].
    rewrite !createRenderTarget_format. repeat split.
  - intros e. unfold float_storage.
    destruct (isWebGL2 e), (floatTexSupport e); reflexivity.
Qed.

Lemma dye_targets_are_8bit_witness :
  format (fst (dyeFBO (grid (booted no_options)))) = RGBA_UNSIGNED_BYTE
  /\ format (fst (velocityFBO (grid (booted no_options)))) = RGBA32F_FLOAT.
Proof.
  pose proof (proj1 (proj2 dye_targets_are_8bit) (desktop no_options)
                (booted no_options)
                (booted_is_init no_options (mkPreset 262144 (1 / 4) 20) eq_refl)) as H.
  split; [exact (proj1 H)|exact (proj1 (proj2 (proj2 H)))].
Defined.

(** Claim C6 as stated fails: on a WebGL2 context float storage is available
    (the velocity targets use it), yet both dye targets are normalized
    8-bit. *)
Lemma dye_not_float_on_webgl2 :
  isWebGL2 (desktop no_options) = true
  /\ is_float (float_storage (desktop no_options)) = true
  /\ is_float (format (fst (velocityFBO (grid (booted no_options))))) = true
  /\ is_float (format (fst (dyeFBO (grid (booted no_options))))) = false
  /\ is_float (format (snd (dyeFBO (grid (booted no_options))))) = false.
Proof.
  pose proof (booted_rebuilt no_options (mkPreset 262144 (1 / 4) 20) eq_refl) as Hr.
  rewrite (rb_dye _ _ _ Hr), (rb_velocity _ _ _ Hr).
  repeat split.
Qed.

(* ================================================================== *)
(** * Pixel centres and texel indices *)
(* ================================================================== *)

Lemma inject_Z_pos (n : Z) : (0 < n)%Z -> 0 < inject_Z n.
Proof. intros H. rewrite (Zlt_Qlt 0 n) in H. exact H. Qed.

Lemma inject_Z_nonzero (n : Z) : (0 < n)%Z -> ~ inject_Z n == 0.
Proof. intros H E. apply inject_Z_pos in H. rewrite E in H. lra. Qed.

Lemma inject_Z_succ (k : Z) : inject_Z (k + 1) == inject_Z k + 1.
Proof. rewrite inject_Z_plus. reflexivity. Qed.

Lemma inject_Z_pred (k : Z) : inject_Z (k - 1) == inject_Z k - 1.
Proof.
  unfold Z.sub. rewrite inject_Z_plus, inject_Z_opp.
  change (inject_Z 1) with 1. lra.
Qed.

(** A value half way between two whole numbers floors to the lower one. *)
Lemma Qfloor_half (m : Z) (q : Q) : q == inject_Z m + 0.5 -> Qfloor q = m.
Proof.
  intros H.
  pose proof (Qfloor_le q) as Hlo. pose proof (Qlt_floor q) as Hhi.
  assert (inject_Z (Qfloor q) < inject_Z (m + 1)) as H1.
  { rewrite inject_Z_succ. lra. }
  rewrite inject_Z_succ in Hhi.
  assert (inject_Z m < inject_Z (Qfloor q + 1)) as H2.
  { rewrite inject_Z_succ. lra. }
  rewrite <- Zlt_Qlt in H1, H2. lia.
Qed.

Lemma centre_scaled (n k : Z) (c : Q) :
  (0 < n)%Z -> c == centre n k -> c * inject_Z n == inject_Z k + 0.5.
Proof.
  intros Hn Hc. rewrite Hc. unfold centre. field. apply inject_Z_nonzero. exact Hn.
Qed.

Lemma centre_texel (n k : Z) (c : Q) :
  (0 < n)%Z -> (0 <= k < n)%Z -> c == centre n k ->
  clampZ (Qfloor (c * inject_Z n)) 0 (n - 1) = k.
Proof.
  intros Hn Hk Hc.
  rewrite (Qfloor_half k) by (apply centre_scaled; assumption).
  unfold clampZ. lia.
Qed.

Lemma centre_negative (n k : Z) (c : Q) :
  (0 < n)%Z -> c == centre n k -> Qltb c 0 = (k <? 0)%Z.
Proof.
  intros Hn Hc. pose proof (centre_scaled n k c Hn Hc) as Hs.
  pose proof (inject_Z_pos n Hn) as Hp.
  unfold Qltb.
  destruct (Qle_bool 0 c) eqn:E; cbn [negb]; symmetry.
  - apply Qle_bool_iff in E. apply Z.ltb_ge.
    assert (0 <= c * inject_Z n) as H0 by (apply Qmult_le_0_compat; lra).
    rewrite Hs in H0.
    assert (inject_Z (-1) < inject_Z k) as H1 by (change (inject_Z (-1)) with (-1); lra).
    rewrite <- Zlt_Qlt in H1. lia.
  - apply Z.ltb_lt.
    assert (~ 0 <= c) as Hneg by (intros H; apply Qle_bool_iff in H; congruence).
    apply Qnot_le_lt in Hneg.
    assert (c * inject_Z n < 0) as H0.
    { setoid_replace 0 with (0 * inject_Z n) by ring.
      apply Qmult_lt_compat_r; assumption. }
    rewrite Hs in H0.
    assert (inject_Z k < inject_Z 0) as H1 by (change (inject_Z 0) with 0; lra).
    rewrite <- Zlt_Qlt in H1. exact H1.
Qed.

Lemma centre_beyond (n k : Z) (c : Q) :
  (0 < n)%Z -> c == centre n k -> Qltb 1 c = (n <=? k)%Z.
Proof.
  intros Hn Hc. pose proof (centre_scaled n k c Hn Hc) as Hs.
  pose proof (inject_Z_pos n Hn) as Hp.
  unfold Qltb.
  destruct (Qle_bool c 1) eqn:E; cbn [negb]; symmetry.
  - apply Qle_bool_iff in E. apply Z.leb_gt.
    assert (c * inject_Z n <= 1 * inject_Z n) as H0
      by (apply Qmult_le_compat_r; lra).
    rewrite Hs in H0.
    assert (inject_Z k < inject_Z n) as H1 by lra.
    rewrite <- Zlt_Qlt in H1. exact H1.
  - apply Z.leb_le.
    assert (~ c <= 1) as Hneg by (intros H; apply Qle_bool_iff in H; congruence).
    apply Qnot_le_lt in Hneg.
    assert (1 * inject_Z n < c * inject_Z n) as H0
      by (apply Qmult_lt_compat_r; assumption).
    rewrite Hs in H0.
    assert (inject_Z n < inject_Z (k + 1)) as H1 by (rewrite inject_Z_succ; lra).
    rewrite <- Zlt_Qlt in H1. lia.
Qed.

(** What [sampleP] does on one axis, for the centre of a cell or of one of
    the two cells just outside the domain. *)
Lemma reflect_centre (n k : Z) (c : Q) :
  (0 < n)%Z -> (-1 <= k <= n)%Z -> c == centre n k ->
  clampZ (Qfloor ((c + reflect c * (1 / inject_Z n)) * inject_Z n)) 0 (n - 1)
  = nb n k.
Proof.
  intros Hn Hk Hc. pose proof (centre_scaled n k c Hn Hc) as Hs.
  pose proof (inject_Z_nonzero n Hn) as Hnz.
  unfold reflect.
  rewrite (centre_negative n k c Hn Hc), (centre_beyond n k c Hn Hc).
  unfold nb, clampZ.
  destruct (k <? 0)%Z eqn:E1; [|destruct (n <=? k)%Z eqn:E2].
  - apply Z.ltb_lt in E1.
    rewrite (Qfloor_half (k + 1)).
    + lia.
    + rewrite inject_Z_succ.
      setoid_replace ((c + 1 * (1 / inject_Z n)) * inject_Z n)
        with (c * inject_Z n + 1) by (field; exact Hnz).
      rewrite Hs. ring.
  - apply Z.ltb_ge in E1. apply Z.leb_le in E2.
    rewrite (Qfloor_half (k - 1)).
    + lia.
    + rewrite inject_Z_pred.
      setoid_replace ((c + -1 * (1 / inject_Z n)) * inject_Z n)
        with (c * inject_Z n - 1) by (field; exact Hnz).
      rewrite Hs. ring.
  - apply Z.ltb_ge in E1. apply Z.leb_gt in E2.
    rewrite (Qfloor_half k).
    + lia.
    + setoid_replace ((c + 0 * (1 / inject_Z n)) * inject_Z n)
        with (c * inject_Z n) by ring.
      exact Hs.
Qed.

(** [sampleVel] uses the same offsets and adds the sign. *)
Lemma reflect_flip_centre (n k : Z) (c : Q) :
  (0 < n)%Z -> c == centre n k ->
  reflect_flip c = (reflect c, flip n k).
Proof.
  intros Hn Hc. unfold reflect_flip, reflect, flip.
  rewrite (centre_negative n k c Hn Hc), (centre_beyond n k c Hn Hc).
  destruct (k <? 0)%Z, (n <=? k)%Z; reflexivity.
Qed.

(* ================================================================== *)
(** * The stencil shaders, cell by cell *)
(* ================================================================== *)

Section Stencils.

Variables W H : Z.
Hypothesis HW : (0 < W)%Z.
Hypothesis HH : (0 < H)%Z.

Let u_invRes : vec2 := Vec2 (1 / inject_Z W) (1 / inject_Z H).

Lemma texture2D_centre (s : sampler2D) (kx ky : Z) (coord : vec2) :
  width s = W -> height s = H ->
  (0 <= kx < W)%Z -> (0 <= ky < H)%Z ->
  x2 coord == centre W kx -> y2 coord == centre H ky ->
  texture2D s coord = texel s kx ky.
Proof.
  intros Hw Hh Hx Hy Hcx Hcy. unfold texture2D. rewrite Hw, Hh.
  rewrite (centre_texel W kx), (centre_texel H ky) by assumption.
  reflexivity.
Qed.

Lemma sampleP_cell (s : sampler2D) (kx ky : Z) (coord : vec2) :
  width s = W -> height s = H ->
  (-1 <= kx <= W)%Z -> (-1 <= ky <= H)%Z ->
  x2 coord == centre W kx -> y2 coord == centre H ky ->
  sampleP s u_invRes coord = x4 (texel s (nb W kx) (nb H ky)).
Proof.
  intros Hw Hh Hx Hy Hcx Hcy. unfold sampleP, texture2D.
  cbn [x2 y2 add2 mul2 u_invRes]. rewrite Hw, Hh.
  rewrite (reflect_centre W kx), (reflect_centre H ky) by assumption.
  reflexivity.
Qed.

Lemma sampleVel_cell (s : sampler2D) (kx ky : Z) (coord : vec2) :
  width s = W -> height s = H ->
  (-1 <= kx <= W)%Z -> (-1 <= ky <= H)%Z ->
  x2 coord == centre W kx -> y2 coord == centre H ky ->
  sampleVel s u_invRes coord
  = mul2 (Vec2 (flip W kx) (flip H ky)) (xy (texel s (nb W kx) (nb H ky))).
Proof.
  intros Hw Hh Hx Hy Hcx Hcy. unfold sampleVel, texture2D.
  rewrite (reflect_flip_centre W kx (x2 coord)),
          (reflect_flip_centre H ky (y2 coord)) by assumption.
  cbn [fst snd x2 y2 add2 mul2 u_invRes]. rewrite Hw, Hh.
  rewrite (reflect_centre W kx), (reflect_centre H ky) by assumption.
  reflexivity.
Qed.

(** The four neighbour coordinates the stencil shaders form. *)
Lemma left_coord (i : Z) :
  centre W i - 1 / inject_Z W == centre W (i - 1).
Proof.
  unfold centre. rewrite inject_Z_pred. field. apply inject_Z_nonzero. exact HW.
Qed.

Lemma right_coord (i : Z) :
  centre W i + 1 / inject_Z W == centre W (i + 1).
Proof.
  unfold centre. rewrite inject_Z_succ. field. apply inject_Z_nonzero. exact HW.
Qed.

Lemma below_coord (j : Z) :
  centre H j - 1 / inject_Z H == centre H (j - 1).
Proof.
  unfold centre. rewrite inject_Z_pred. field. apply inject_Z_nonzero. exact HH.
Qed.

Lemma above_coord (j : Z) :
  centre H j + 1 / inject_Z H == centre H (j + 1).
Proof.
  unfold centre. rewrite inject_Z_succ. field. apply inject_Z_nonzero. exact HH.
Qed.

Lemma same_coord_minus (n k : Z) : centre n k - 0 == centre n k.
Proof. ring. Qed.

Lemma same_coord_plus (n k : Z) : centre n k + 0 == centre n k.
Proof. ring. Qed.

Lemma nb_inside (n k : Z) : (0 <= k < n)%Z -> nb n k = k.
Proof. unfold nb, clampZ. lia. Qed.

Lemma nb_range (n k : Z) : (0 < n)%Z -> (0 <= nb n k < n)%Z.
Proof. unfold nb, clampZ. lia. Qed.

Variables i j : Z.
Hypothesis Hi : (0 <= i < W)%Z.
Hypothesis Hj : (0 <= j < H)%Z.

(** [_getPressureSource], at cell [(i, j)]. *)
Lemma pressure_main_cell (u_pressure u_divergence : sampler2D) (u_alpha aspect : Q) :
  width u_pressure = W -> height u_pressure = H ->
  width u_divergence = W -> height u_divergence = H ->
  pressure_main u_pressure u_divergence u_alpha u_invRes (fragment W H aspect i j)
  = Vec4 (jacobi_cell W H u_alpha
            (fun a b => x4 (texel u_divergence a b))
            (fun a b => x4 (texel u_pressure a b)) i j) 0 0 1.
Proof.
  intros Hpw Hph Hdw Hdh.
  unfold pressure_main, jacobi_cell, fragment, vertex_main, a_position.
  cbn [v_texCoord sub2 add2 x2 y2 u_invRes].
  fold (centre W i). fold (centre H j).
  rewrite (sampleP_cell u_pressure (i - 1) j), (sampleP_cell u_pressure (i + 1) j),
    (sampleP_cell u_pressure i (j - 1)), (sampleP_cell u_pressure i (j + 1));
    cbn [x2 y2];
    try assumption; try lia;
    try apply left_coord; try apply right_coord;
    try apply below_coord; try apply above_coord;
    try apply same_coord_minus; try apply same_coord_plus.
  rewrite (texture2D_centre u_divergence i j); cbn [x2 y2];
    try assumption; try reflexivity.
  rewrite (nb_inside W i Hi), (nb_inside H j Hj). reflexivity.
Qed.

(** [_getDivergenceSource], at cell [(i, j)]. *)
Lemma divergence_main_cell (u_velocity : sampler2D) (u_halfRdx aspect : Q) :
  width u_velocity = W -> height u_velocity = H ->
  divergence_main u_velocity u_halfRdx u_invRes (fragment W H aspect i j)
  = Vec4 (divergence_cell W H u_halfRdx
            (fun a b => xy (texel u_velocity a b)) i j) 0 0 1.
Proof.
  intros Hvw Hvh.
  unfold divergence_main, divergence_cell, fragment, vertex_main, a_position.
  cbn [v_texCoord sub2 add2 x2 y2 u_invRes].
  fold (centre W i). fold (centre H j).
  rewrite (sampleVel_cell u_velocity (i + 1) j), (sampleVel_cell u_velocity (i - 1) j),
    (sampleVel_cell u_velocity i (j + 1)), (sampleVel_cell u_velocity i (j - 1));
    cbn [x2 y2];
    try assumption; try lia;
    try apply left_coord; try apply right_coord;
    try apply below_coord; try apply above_coord;
    try apply same_coord_minus; try apply same_coord_plus.
  cbn [mul2 x2 y2 xy].
  rewrite (nb_inside W i Hi), (nb_inside H j Hj). reflexivity.
Qed.

(** [_getGradientSource], at cell [(i, j)]. *)
Lemma gradient_main_cell (u_pressure u_velocity : sampler2D) (u_halfRdx aspect : Q) :
  width u_pressure = W -> height u_pressure = H ->
  width u_velocity = W -> height u_velocity = H ->
  gradient_main u_pressure u_velocity u_halfRdx u_invRes (fragment W H aspect i j)
  = vec4_2ss (gradient_cell W H u_halfRdx
                (fun a b => x4 (texel u_pressure a b))
                (fun a b => xy (texel u_velocity a b)) i j) 0 1.
Proof.
  intros Hpw Hph Hvw Hvh.
  unfold gradient_main, gradient_cell, fragment, vertex_main, a_position.
  cbn [v_texCoord sub2 add2 x2 y2 u_invRes].
  fold (centre W i). fold (centre H j).
  rewrite (sampleP_cell u_pressure (i + 1) j), (sampleP_cell u_pressure (i - 1) j),
    (sampleP_cell u_pressure i (j + 1)), (sampleP_cell u_pressure i (j - 1));
    cbn [x2 y2];
    try assumption; try lia;
    try apply left_coord; try apply right_coord;
    try apply below_coord; try apply above_coord;
    try apply same_coord_minus; try apply same_coord_plus.
  rewrite (texture2D_centre u_velocity i j); cbn [x2 y2];
    try assumption; try reflexivity.
  rewrite (nb_inside W i Hi), (nb_inside H j Hj). reflexivity.
Qed.

End Stencils.

(* ================================================================== *)
(** * Draw calls and ping-pong buffers *)
(* ================================================================== *)

Lemma drawQuad_texel (vw vh : Z) (aspect : Q) (frag : varyings -> vec4)
    (t : sampler2D) (i j : Z) :
  (0 <= i < vw)%Z -> (0 <= j < vh)%Z ->
  texel (drawQuad vw vh aspect frag t) i j = frag (fragment vw vh aspect i j).
Proof.
  intros Hi Hj. unfold drawQuad, in_viewport, fragment. cbn [texel].
  assert ((0 <=? i)%Z = true) as -> by (apply Z.leb_le; lia).
  assert ((i <? vw)%Z = true) as -> by (apply Z.ltb_lt; lia).
  assert ((0 <=? j)%Z = true) as -> by (apply Z.leb_le; lia).
  assert ((j <? vh)%Z = true) as -> by (apply Z.ltb_lt; lia).
  reflexivity.
Qed.

Lemma fbo_get_set (d : doubleFBO) (idx : Z) (t : renderTarget) :
  fbo_get (fbo_set d idx t) idx = t.
Proof. unfold fbo_get, fbo_set. destruct (idx =? 0)%Z; reflexivity. Qed.

Lemma fbo_get_sized (W H : Z) (d : doubleFBO) (idx : Z) :
  sized W H (fst d) -> sized W H (snd d) -> sized W H (fbo_get d idx).
Proof. intros H0 H1. unfold fbo_get. destruct (idx =? 0)%Z; assumption. Qed.

Lemma fbo_set_sized (W H : Z) (d : doubleFBO) (idx : Z) (t : renderTarget) :
  sized W H (fst d) -> sized W H (snd d) -> sized W H t ->
  sized W H (fst (fbo_set d idx t)) /\ sized W H (snd (fbo_set d idx t)).
Proof.
  intros H0 H1 Ht. unfold fbo_set. destruct (idx =? 0)%Z; split; assumption.
Qed.

Lemma draw_to_sized (W H vw vh : Z) (aspect : Q) (frag : varyings -> vec4)
    (t : renderTarget) :
  sized W H t -> sized W H (draw_to vw vh aspect frag t).
Proof. intros Ht. exact Ht. Qed.

(** ** One sweep of the pressure loop *)

Lemma pressure_sweep_wf (u_alpha : Q) (g : Grid) :
  grid_wf g -> grid_wf (pressure_sweep u_alpha g).
Proof.
  intros Hg. destruct Hg.
  destruct (fbo_set_sized (simWidth g) (simHeight g) (pressureFBO g)
              (1 - pressIdx g)
              (draw_to (simWidth g) (simHeight g) 0
                 (pressure_main (texture (fbo_get (pressureFBO g) (pressIdx g)))
                    (texture (divergenceFBO g)) u_alpha (invRes g))
                 (fbo_get (pressureFBO g) (1 - pressIdx g))))
    as [H0 H1]; try assumption.
  { apply draw_to_sized. apply fbo_get_sized; assumption. }
  constructor; assumption.
Qed.

Lemma pressure_sweep_keeps (u_alpha : Q) (g : Grid) :
  simWidth (pressure_sweep u_alpha g) = simWidth g
  /\ simHeight (pressure_sweep u_alpha g) = simHeight g
  /\ divergenceFBO (pressure_sweep u_alpha g) = divergenceFBO g
  /\ velocityFBO (pressure_sweep u_alpha g) = velocityFBO g
  /\ velIdx (pressure_sweep u_alpha g) = velIdx g
  /\ dyeFBO (pressure_sweep u_alpha g) = dyeFBO g
  /\ dyeIdx (pressure_sweep u_alpha g) = dyeIdx g
  /\ pressIdx (pressure_sweep u_alpha g) = (1 - pressIdx g)%Z.
Proof. repeat split. Qed.

Lemma pressure_sweep_cell (u_alpha : Q) (g : Grid) (i j : Z) :
  grid_wf g -> (0 <= i < simWidth g)%Z -> (0 <= j < simHeight g)%Z ->
  read_pressure (pressure_sweep u_alpha g) i j
  = jacobi_cell (simWidth g) (simHeight g) u_alpha
      (read_divergence g) (read_pressure g) i j.
Proof.
  intros Hg Hi Hj. destruct Hg.
  unfold read_pressure, pressure_sweep.
  cbn [set_pressure pressureFBO pressIdx].
  rewrite fbo_get_set. unfold draw_to. cbn [texture].
  rewrite drawQuad_texel by assumption.
  unfold invRes.
  rewrite pressure_main_cell; try assumption.
  - reflexivity.
  - apply (fbo_get_sized (simWidth g) (simHeight g)); assumption.
  - apply (fbo_get_sized (simWidth g) (simHeight g)); assumption.
  - apply wf_div0.
  - apply wf_div0.
Qed.

(** Sweeps that start from fields agreeing on the grid agree on the grid. *)
Lemma jacobi_cell_ext (W H : Z) (alpha : Q) (div1 div2 p1 p2 : Z -> Z -> Q) :
  (0 < W)%Z -> (0 < H)%Z ->
  (forall a b, (0 <= a < W)%Z -> (0 <= b < H)%Z -> div1 a b = div2 a b) ->
  (forall a b, (0 <= a < W)%Z -> (0 <= b < H)%Z -> p1 a b = p2 a b) ->
  forall i j, (0 <= i < W)%Z -> (0 <= j < H)%Z ->
              jacobi_cell W H alpha div1 p1 i j = jacobi_cell W H alpha div2 p2 i j.
Proof.
  intros HW HH Hd Hp i j Hi Hj. unfold jacobi_cell.
  rewrite (Hd i j Hi Hj).
  rewrite (Hp (nb W (i - 1)) j), (Hp (nb W (i + 1)) j),
    (Hp i (nb H (j - 1))), (Hp i (nb H (j + 1)));
    try assumption; try (apply nb_range; assumption).
  reflexivity.
Qed.

Lemma jacobi_iter_ext (n : nat) (W H : Z) (alpha : Q) (div1 div2 : Z -> Z -> Q) :
  (0 < W)%Z -> (0 < H)%Z ->
  (forall a b, (0 <= a < W)%Z -> (0 <= b < H)%Z -> div1 a b = div2 a b) ->
  forall p1 p2,
    (forall a b, (0 <= a < W)%Z -> (0 <= b < H)%Z -> p1 a b = p2 a b) ->
    forall i j, (0 <= i < W)%Z -> (0 <= j < H)%Z ->
                jacobi_iter n W H alpha div1 p1 i j = jacobi_iter n W H alpha div2 p2 i j.
Proof.
  intros HW HH Hd. induction n as [|n IH]; intros p1 p2 Hp i j Hi Hj.
  - apply Hp; assumption.
  - cbn [jacobi_iter]. apply IH; try assumption.
    intros a b Ha Hb. apply jacobi_cell_ext; assumption.
Qed.

(** ** The whole loop *)

Lemma pressure_loop_wf (n : nat) (u_alpha : Q) :
  forall g, grid_wf g -> grid_wf (pressure_loop n u_alpha g).
Proof.
  induction n as [|n IH]; intros g Hg.
  - exact Hg.
  - cbn [pressure_loop]. apply IH. apply pressure_sweep_wf. exact Hg.
Qed.

Lemma pressure_loop_keeps (n : nat) (u_alpha : Q) :
  forall g,
    simWidth (pressure_loop n u_alpha g) = simWidth g
    /\ simHeight (pressure_loop n u_alpha g) = simHeight g
    /\ aspectRatio (pressure_loop n u_alpha g) = aspectRatio g
    /\ divergenceFBO (pressure_loop n u_alpha g) = divergenceFBO g
    /\ velocityFBO (pressure_loop n u_alpha g) = velocityFBO g
    /\ velIdx (pressure_loop n u_alpha g) = velIdx g
    /\ dyeFBO (pressure_loop n u_alpha g) = dyeFBO g
    /\ dyeIdx (pressure_loop n u_alpha g) = dyeIdx g
    /\ pressIdx (pressure_loop n u_alpha g)
       = (if Nat.even n then pressIdx g else 1 - pressIdx g)%Z.
Proof.
  induction n as [|n IH]; intros g.
  - repeat split.
  - cbn [pressure_loop].
    destruct (IH (pressure_sweep u_alpha g))
      as [H1 [H2 [H3 [H4 [H5 [H6 [H7 [H8 H9]]]]]]]].
    rewrite H1, H2, H3, H4, H5, H6, H7, H8, H9.
    repeat split.
    rewrite Nat.even_succ, <- Nat.negb_even.
    cbn [pressure_sweep set_pressure pressIdx].
    destruct (Nat.even n); cbn [negb]; lia.
Qed.

Lemma pressure_loop_cell (n : nat) (u_alpha : Q) :
  forall g i j,
    grid_wf g -> (0 <= i < simWidth g)%Z -> (0 <= j < simHeight g)%Z ->
    read_pressure (pressure_loop n u_alpha g) i j
    = jacobi_iter n (simWidth g) (simHeight g) u_alpha
        (read_divergence g) (read_pressure g) i j.
Proof.
  induction n as [|n IH]; intros g i j Hg Hi Hj.
  - reflexivity.
  - cbn [pressure_loop jacobi_iter].
    rewrite IH; try (apply pressure_sweep_wf; assumption); try assumption.
    change (simWidth (pressure_sweep u_alpha g)) with (simWidth g).
    change (simHeight (pressure_sweep u_alpha g)) with (simHeight g).
    apply jacobi_iter_ext; try assumption; try (destruct Hg; assumption).
    + intros a b Ha Hb. reflexivity.
    + intros a b Ha Hb. apply pressure_sweep_cell; assumption.
Qed.

(** ** Grid shape is an invariant *)

Lemma sim_extent_pos (inner : Z) (p : Preset) : (0 < sim_extent inner p)%Z.
Proof. unfold sim_extent. lia. Qed.

Lemma rebuilt_grid_wf (e e' : DaemonFluidEngine) (p : Preset) :
  rebuilt_from e p e' -> grid_wf (grid e').
Proof.
  intros Hr.
  constructor;
    rewrite ?(rb_simWidth _ _ _ Hr), ?(rb_simHeight _ _ _ Hr),
      ?(rb_velocity _ _ _ Hr), ?(rb_pressure _ _ _ Hr), ?(rb_divergence _ _ _ Hr),
      ?(rb_dye _ _ _ Hr), ?(rb_aspect _ _ _ Hr);
    try apply sim_extent_pos; try (split; reflexivity); reflexivity.
Qed.

Lemma booted_grid_wf : grid_wf (grid (booted no_options)).
Proof.
  exact (rebuilt_grid_wf _ _ _
           (booted_rebuilt no_options (mkPreset 262144 (1 / 4) 20) eq_refl)).
Qed.

Lemma computeDivergence_wf (e : DaemonFluidEngine) :
  grid_wf (grid e) -> grid_wf (grid (_computeDivergence e)).
Proof. intros Hg. destruct Hg. constructor; assumption. Qed.

Lemma solvePressure_wf (e : DaemonFluidEngine) :
  grid_wf (grid e) -> grid_wf (grid (_solvePressure e)).
Proof. intros Hg. apply pressure_loop_wf. exact Hg. Qed.

Lemma subtractGradient_wf (e : DaemonFluidEngine) :
  grid_wf (grid e) -> grid_wf (grid (_subtractGradient e)).
Proof.
  intros Hg. destruct Hg.
  destruct (fbo_set_sized (simWidth (grid e)) (simHeight (grid e))
              (velocityFBO (grid e)) (1 - velIdx (grid e))
              (draw_to (simWidth (grid e)) (simHeight (grid e)) 0
                 (gradient_main
                    (texture (fbo_get (pressureFBO (grid e)) (pressIdx (grid e))))
                    (texture (fbo_get (velocityFBO (grid e)) (velIdx (grid e))))
                    (0.5 / cellSize (settings e)) (invRes (grid e)))
                 (fbo_get (velocityFBO (grid e)) (1 - velIdx (grid e)))))
    as [H0 H1]; try assumption.
  { apply draw_to_sized. apply fbo_get_sized; assumption. }
  constructor; assumption.
Qed.

(** ** [_computeDivergence] and [_subtractGradient], cell by cell *)

Lemma computeDivergence_cell (e : DaemonFluidEngine) (i j : Z) :
  grid_wf (grid e) -> in_grid e i j ->
  divergence_at (_computeDivergence e) i j
  = divergence_cell (simWidth (grid e)) (simHeight (grid e))
      (0.5 / cellSize (settings e)) (velocity_at e) i j.
Proof.
  intros Hg [Hi Hj]. destruct Hg.
  unfold divergence_at, read_divergence, _computeDivergence.
  cbn [set_grid grid set_divergence divergenceFBO]. unfold draw_to. cbn [texture].
  rewrite drawQuad_texel by assumption.
  unfold invRes.
  rewrite divergence_main_cell; try assumption.
  - reflexivity.
  - apply (fbo_get_sized (simWidth (grid e)) (simHeight (grid e))); assumption.
  - apply (fbo_get_sized (simWidth (grid e)) (simHeight (grid e))); assumption.
Qed.

Lemma subtractGradient_cell (e : DaemonFluidEngine) (i j : Z) :
  grid_wf (grid e) -> in_grid e i j ->
  velocity_at (_subtractGradient e) i j
  = gradient_cell (simWidth (grid e)) (simHeight (grid e))
      (0.5 / cellSize (settings e)) (pressure_at e) (velocity_at e) i j.
Proof.
  intros Hg [Hi Hj]. destruct Hg.
  unfold velocity_at, read_velocity, _subtractGradient.
  cbn [set_grid grid set_velocity velocityFBO velIdx].
  rewrite fbo_get_set. unfold draw_to. cbn [texture].
  rewrite drawQuad_texel by assumption.
  unfold invRes.
  rewrite gradient_main_cell; try assumption.
  - reflexivity.
  - apply (fbo_get_sized (simWidth (grid e)) (simHeight (grid e))); assumption.
  - apply (fbo_get_sized (simWidth (grid e)) (simHeight (grid e))); assumption.
  - apply (fbo_get_sized (simWidth (grid e)) (simHeight (grid e))); assumption.
  - apply (fbo_get_sized (simWidth (grid e)) (simHeight (grid e))); assumption.
Qed.

Lemma solvePressure_cell (e : DaemonFluidEngine) (i j : Z) :
  grid_wf (grid e) -> in_grid e i j ->
  pressure_at (_solvePressure e) i j
  = jacobi_iter (Z.to_nat (solverIterations (settings e)))
      (simWidth (grid e)) (simHeight (grid e))
      (- cellSize (settings e) * cellSize (settings e))
      (divergence_at e) (pressure_at e) i j.
Proof.
  intros Hg [Hi Hj].
  unfold pressure_at, _solvePressure. cbn [set_grid grid].
  apply pressure_loop_cell; assumption.
Qed.

(* ================================================================== *)
(** * The pressure solve *)
(* ================================================================== *)

(** Claim C2.  [_solvePressure] runs the loop body exactly
    [solverIterations] times, whatever the fields hold.  On every cell of the
    grid the pressure it leaves to be read is the [N]-fold Jacobi sweep
    [p' = (pL + pR + pB + pT + alpha * div) * 0.25], [alpha = -cellSize^2],
    each sweep reading the result of the one before, out-of-domain
    neighbours reflected to the border cell without a sign change, started
    from the pressure that was there on entry.  The read index has flipped
    once per sweep and no other buffer has changed.  Inside [_step] nothing
    touches the pressure buffers before or after the solve, so the pressure on
    entry is the one the previous frame left. *)
Theorem pressure_solve_runs_N_sweeps `{Builtins} (e : DaemonFluidEngine) :
  grid_wf (grid e) ->
  (forall i j,
      in_grid e i j ->
      pressure_at (_solvePressure e) i j
      = jacobi_iter (Z.to_nat (solverIterations (settings e)))
          (simWidth (grid e)) (simHeight (grid e))
          (- cellSize (settings e) * cellSize (settings e))
          (divergence_at e) (pressure_at e) i j)
  /\ pressIdx (grid (_solvePressure e))
     = (if Nat.even (Z.to_nat (solverIterations (settings e)))
        then pressIdx (grid e) else 1 - pressIdx (grid e))%Z
  /\ velocity_at (_solvePressure e) = velocity_at e
  /\ divergence_at (_solvePressure e) = divergence_at e
  /\ dye_at (_solvePressure e) = dye_at e
  /\ (forall undef dt,
        pressure_at
          (_computeDivergence
             (_applyForces undef dt
                (_advect VelocityField dt (velocityDissipation (settings e)) e)))
        = pressure_at e)
  /\ (forall undef dt,
        pressure_at (_step undef dt e)
        = pressure_at
            (_solvePressure
               (_computeDivergence
                  (_applyForces undef dt
                     (_advect VelocityField dt (velocityDissipation (settings e)) e))))).
Proof.
  intros Hg.
  split; [intros i j Hij; apply solvePressure_cell; assumption|].
  destruct (pressure_loop_keeps (Z.to_nat (solverIterations (settings e)))
              (- cellSize (settings e) * cellSize (settings e)) (grid e))
    as [H1 [H2 [H3 [H4 [H5 [H6 [H7 [H8 H9]]]]]]]].
  split; [exact H9|].
  unfold velocity_at, divergence_at, dye_at, read_velocity, read_divergence, read_dye.
  unfold _solvePressure at 1 2 3 4 5. cbn [set_grid grid].
  rewrite H4, H5, H6, H7, H8.
  split; [reflexivity|]. split; [reflexivity|]. split; [reflexivity|].
  split; intros undef dt; reflexivity.
Qed.

(* ================================================================== *)
(** * Projection: what one Jacobi sweep from zero pressure does *)
(* ================================================================== *)

Lemma flip_inside (n k : Z) : (0 <= k < n)%Z -> flip n k = 1.
Proof.
  intros Hk. unfold flip.
  assert ((k <? 0)%Z = false) as -> by (apply Z.ltb_ge; lia).
  assert ((n <=? k)%Z = false) as -> by (apply Z.leb_gt; lia).
  reflexivity.
Qed.

Lemma flip_outside (n k : Z) : (k < 0 \/ n <= k)%Z -> flip n k = -1.
Proof.
  intros Hk. unfold flip.
  destruct (k <? 0)%Z eqn:E1; [reflexivity|].
  apply Z.ltb_ge in E1.
  assert ((n <=? k)%Z = true) as -> by (apply Z.leb_le; lia).
  reflexivity.
Qed.




Section OneSweep.

Variables W H : Z.
Hypothesis HW : (0 < W)%Z.
Hypothesis HH : (0 < H)%Z.
Variables h alpha : Q.
Variable V : Z -> Z -> vec2.
Variable P0 : Z -> Z -> Q.

Let D : Z -> Z -> Q := divergence_cell W H h V.
Let P1 : Z -> Z -> Q := jacobi_cell W H alpha D P0.


Hypothesis HP0 : forall a b, (0 <= a < W)%Z -> (0 <= b < H)%Z -> P0 a b == 0.


Hypothesis Hscale : h * h * (alpha * 0.25) == - (1 # 16).



End OneSweep.

(* ================================================================== *)
(** * Projection on the engine *)
(* ================================================================== *)




Lemma divergence_of_cells (e : DaemonFluidEngine) (i j : Z) :
  grid_wf (grid e) -> in_grid e i j ->
  divergence_of e i j
  = divergence_cell (simWidth (grid e)) (simHeight (grid e))
      (0.5 / cellSize (settings e)) (velocity_at e) i j.
Proof. intros Hg Hij. apply computeDivergence_cell; assumption. Qed.

Lemma projection_scale (cs : Q) :
  ~ cs == 0 -> 0.5 / cs * (0.5 / cs) * (- cs * cs * 0.25) == - (1 # 16).
Proof. intros Hcs. field. exact Hcs. Qed.

(** ** Fields put into the buffers *)

Lemma with_velocity_reads (f : Z -> Z -> vec2) (e : DaemonFluidEngine) (i j : Z) :
  velocity_at (with_velocity f e) i j = Vec2 (x2 (f i j)) (y2 (f i j)).
Proof.
  unfold velocity_at, read_velocity, with_velocity.
  cbn [set_grid grid set_velocity velocityFBO velIdx].
  rewrite fbo_get_set. reflexivity.
Qed.

Lemma with_pressure_reads (f : Z -> Z -> Q) (e : DaemonFluidEngine) (i j : Z) :
  pressure_at (with_pressure f e) i j = f i j.
Proof.
  unfold pressure_at, read_pressure, with_pressure.
  cbn [set_grid grid set_pressure pressureFBO pressIdx].
  rewrite fbo_get_set. reflexivity.
Qed.

Lemma with_velocity_wf (f : Z -> Z -> vec2) (e : DaemonFluidEngine) :
  grid_wf (grid e) -> grid_wf (grid (with_velocity f e)).
Proof.
  intros Hg. destruct Hg.
  destruct (fbo_set_sized (simWidth (grid e)) (simHeight (grid e))
              (velocityFBO (grid e)) (velIdx (grid e))
              (with_texels (fun i j => vec4_2ss (f i j) 0 1)
                 (fbo_get (velocityFBO (grid e)) (velIdx (grid e)))))
    as [H0 H1]; try assumption.
  { apply (fbo_get_sized (simWidth (grid e)) (simHeight (grid e))); assumption. }
  constructor; assumption.
Qed.

Lemma with_pressure_wf (f : Z -> Z -> Q) (e : DaemonFluidEngine) :
  grid_wf (grid e) -> grid_wf (grid (with_pressure f e)).
Proof.
  intros Hg. destruct Hg.
  destruct (fbo_set_sized (simWidth (grid e)) (simHeight (grid e))
              (pressureFBO (grid e)) (pressIdx (grid e))
              (with_texels (fun i j => Vec4 (f i j) 0 0 1)
                 (fbo_get (pressureFBO (grid e)) (pressIdx (grid e)))))
    as [H0 H1]; try assumption.
  { apply (fbo_get_sized (simWidth (grid e)) (simHeight (grid e))); assumption. }
  constructor; assumption.
Qed.

(** A freshly built pressure buffer is zero. *)
Lemma rebuilt_pressure_zero (e e' : DaemonFluidEngine) (p : Preset) (i j : Z) :
  rebuilt_from e p e' -> pressure_at e' i j = 0.
Proof.
  intros Hr. unfold pressure_at, read_pressure.
  rewrite (rb_pressure _ _ _ Hr). destruct (rb_indices _ _ _ Hr) as [_ [-> _]].
  reflexivity.
Qed.

(** ** A divergence-free field that is not zero *)


(** ** Zero pressure and zero divergence stay zero *)



Lemma divergence_cell_proper (W H : Z) (h : Q) (V1 V2 : Z -> Z -> vec2) :
  (0 < W)%Z -> (0 < H)%Z ->
  (forall a b, (0 <= a < W)%Z -> (0 <= b < H)%Z -> veq2 (V1 a b) (V2 a b)) ->
  forall i j, (0 <= i < W)%Z -> (0 <= j < H)%Z ->
              divergence_cell W H h V1 i j == divergence_cell W H h V2 i j.
Proof.
  intros HW HH HV i j Hi Hj. unfold divergence_cell.
  destruct (HV (nb W (i + 1)) j) as [-> _]; try assumption; try (apply nb_range; assumption).
  destruct (HV (nb W (i - 1)) j) as [-> _]; try assumption; try (apply nb_range; assumption).
  destruct (HV i (nb H (j + 1))) as [_ ->]; try assumption; try (apply nb_range; assumption).
  destruct (HV i (nb H (j - 1))) as [_ ->]; try assumption; try (apply nb_range; assumption).
  reflexivity.
Qed.


(** ** The example engines *)

Lemma with_velocity_keeps (f : Z -> Z -> vec2) (e : DaemonFluidEngine) :
  settings (with_velocity f e) = settings e
  /\ simWidth (grid (with_velocity f e)) = simWidth (grid e)
  /\ simHeight (grid (with_velocity f e)) = simHeight (grid e)
  /\ pressure_at (with_velocity f e) = pressure_at e.
Proof. repeat split. Qed.

Lemma with_pressure_keeps (f : Z -> Z -> Q) (e : DaemonFluidEngine) :
  settings (with_pressure f e) = settings e
  /\ simWidth (grid (with_pressure f e)) = simWidth (grid e)
  /\ simHeight (grid (with_pressure f e)) = simHeight (grid e)
  /\ velocity_at (with_pressure f e) = velocity_at e.
Proof. repeat split. Qed.

Lemma updateSettings_keeps (s : SettingsPatch) (e : DaemonFluidEngine) :
  grid (updateSettings s e) = grid e.
Proof. reflexivity. Qed.

Lemma booted_extent :
  simWidth (grid (booted no_options)) = 480%Z
  /\ simHeight (grid (booted no_options)) = 270%Z.
Proof.
  pose proof (booted_rebuilt no_options (mkPreset 262144 (1 / 4) 20) eq_refl) as Hr.
  rewrite (rb_simWidth _ _ _ Hr), (rb_simHeight _ _ _ Hr).
  split; vm_compute; reflexivity.
Qed.

Lemma checker_engine_wf : grid_wf (grid checker_engine).
Proof. apply with_velocity_wf. exact booted_grid_wf. Qed.

Lemma checker_engine_extent :
  simWidth (grid checker_engine) = 480%Z /\ simHeight (grid checker_engine) = 270%Z.
Proof.
  unfold checker_engine.
  destruct (with_velocity_keeps checkerboard (booted no_options)) as [_ [-> [-> _]]].
  exact booted_extent.
Qed.

Lemma checker_engine_in_grid (i j : Z) :
  in_grid checker_engine i j <-> (0 <= i < 480)%Z /\ (0 <= j < 270)%Z.
Proof.
  unfold in_grid. destruct checker_engine_extent as [-> ->]. reflexivity.
Qed.






(* ================================================================== *)
(** * Incompressibility *)
(* ================================================================== *)












(* ================================================================== *)
(** * Advection through a fluid at rest *)
(* ================================================================== *)

Section StillAdvection.

Variables W H : Z.
Hypothesis HW : (0 < W)%Z.
Hypothesis HH : (0 < H)%Z.
Variables u_velocity u_target : sampler2D.
Hypothesis Hvw : width u_velocity = W.
Hypothesis Hvh : height u_velocity = H.
Hypothesis Htw : width u_target = W.
Hypothesis Hth : height u_target = H.
Variables dt rdx aspect d : Q.
Hypothesis Haspect : ~ aspect == 0.
Variables i j : Z.
Hypothesis Hi : (0 <= i < W)%Z.
Hypothesis Hj : (0 <= j < H)%Z.
Hypothesis Hstill : veq2 (xy (texel u_velocity i j)) (Vec2 0 0).

Let u_invRes : vec2 := Vec2 (1 / inject_Z W) (1 / inject_Z H).

(** The back-trace of a cell whose velocity is zero lands on the centre of
    that cell. *)
Lemma still_texelPos :
  veq2 (advect_texelPos u_velocity dt rdx u_invRes aspect (fragment W H aspect i j))
       (Vec2 (inject_Z i + 0.5) (inject_Z j + 0.5)).
Proof.
  destruct Hstill as [Hx Hy]. cbn [x2 y2] in Hx, Hy.
  unfold advect_texelPos, fragment, vertex_main, a_position. cbn [v_texCoord v_simPos].
  fold (centre W i). fold (centre H j).
  rewrite (texture2D_centre W H HW HH u_velocity i j); cbn [x2 y2];
    try assumption; try reflexivity.
  unfold veq2, simToTexel, u_invRes.
  cbn [x2 y2 div2 muls2 sub2 smul2 subs2].
  rewrite Hx, Hy. unfold centre.
  pose proof (inject_Z_nonzero W HW). pose proof (inject_Z_nonzero H HH).
  split; field; auto.
Qed.

Lemma mix_at_zero (a b c e t s : Q) :
  t == 0 -> s == 0 -> mixQ (mixQ a b t) (mixQ c e t) s == a.
Proof. intros Ht Hs. unfold mixQ. rewrite Ht, Hs. ring. Qed.

(** [_getAdvectSource] at a cell where the fluid is at rest: the stored value
    times the dissipation. *)
Lemma advect_main_still :
  veq4 (advect_main u_velocity u_target dt rdx u_invRes aspect d
          (fragment W H aspect i j))
       (muls4 (texel u_target i j) d).
Proof.
  destruct still_texelPos as [Hx Hy]. cbn [x2 y2] in Hx, Hy.
  unfold advect_main.
  set (tp := advect_texelPos u_velocity dt rdx u_invRes aspect (fragment W H aspect i j))
    in *.
  assert (Qfloor (x2 tp - 0.5) = i) as Fx.
  { rewrite <- (Qfloor_Z i). apply Qfloor_comp. rewrite Hx. ring. }
  assert (Qfloor (y2 tp - 0.5) = j) as Fy.
  { rewrite <- (Qfloor_Z j). apply Qfloor_comp. rewrite Hy. ring. }
  unfold subs2, floor2, adds2, sub2, mul2, add2, floorQ. cbn [x2 y2].
  rewrite Fx, Fy.
  pose proof (inject_Z_nonzero W HW) as HWz.
  pose proof (inject_Z_nonzero H HH) as HHz.
  rewrite (texture2D_centre W H HW HH u_target i j
             (Vec2 ((inject_Z i + 0.5) * x2 u_invRes) ((inject_Z j + 0.5) * y2 u_invRes)));
    try assumption;
    [| cbn [x2 y2 u_invRes]; unfold centre; field; assumption
     | cbn [x2 y2 u_invRes]; unfold centre; field; assumption].
  assert (x2 tp - (inject_Z i + 0.5) == 0) as Tx by (rewrite Hx; ring).
  assert (y2 tp - (inject_Z j + 0.5) == 0) as Ty by (rewrite Hy; ring).
  unfold veq4, muls4, mix4. cbn [x4 y4 z4 w4].
  rewrite !(mix_at_zero _ _ _ _ _ _ Tx Ty).
  repeat split; reflexivity.
Qed.

End StillAdvection.

Lemma aspect_nonzero (g : Grid) : grid_wf g -> ~ aspectRatio g == 0.
Proof.
  intros Hg E. destruct Hg as [HW HH _ _ _ _ _ _ _ Ha].
  rewrite Ha in E.
  pose proof (inject_Z_pos _ HW) as Hw. pose proof (inject_Z_pos _ HH) as Hh.
  assert (0 < inject_Z (simWidth g) / inject_Z (simHeight g)) as Hpos.
  { apply Qlt_shift_div_l; [exact Hh|]. lra. }
  rewrite E in Hpos. lra.
Qed.



(* ================================================================== *)
(** * Particles *)
(* ================================================================== *)

(** [mod(x, 2.0)] lies in [[0, 2)]. *)
Lemma modQ_2_range (x : Q) : 0 <= modQ x 2 /\ modQ x 2 < 2.
Proof.
  unfold modQ, floorQ.
  pose proof (Qfloor_le (x / 2)) as Hlo. pose proof (Qlt_floor (x / 2)) as Hhi.
  rewrite inject_Z_succ in Hhi.
  assert (x / 2 == x * (1 # 2)) as E by (field; discriminate).
  split; lra.
Qed.

Lemma Qfloor_unique (q : Q) (m : Z) :
  inject_Z m <= q -> q < inject_Z m + 1 -> Qfloor q = m.
Proof.
  intros Hlo Hhi.
  pose proof (Qfloor_le q) as Fl. pose proof (Qlt_floor q) as Fh.
  rewrite inject_Z_succ in Fh.
  assert (inject_Z (Qfloor q) < inject_Z (m + 1)) as A
    by (rewrite inject_Z_succ; lra).
  assert (inject_Z m < inject_Z (Qfloor q + 1)) as B
    by (rewrite inject_Z_succ; clear A; lra).
  rewrite <- Zlt_Qlt in A, B. lia.
Qed.

(** The wrap law [mod(u + 1, 2) - 1]: always in [[-1, 1)], congruent to [u]
    modulo 2, equal to [u - 2] for [u] in [[1, 3)] and to [u] itself for [u]
    already in [[-1, 1)]; from [1] on, at least one whole domain width is
    taken off. *)
Lemma wrap_law (u : Q) :
  (-1 <= modQ (u + 1) 2 - 1 /\ modQ (u + 1) 2 - 1 < 1)
  /\ modQ (u + 1) 2 - 1 == u - 2 * floorQ ((u + 1) / 2)
  /\ (1 <= u -> u < 3 -> modQ (u + 1) 2 - 1 == u - 2)
  /\ (-1 <= u -> u < 1 -> modQ (u + 1) 2 - 1 == u)
  /\ (1 <= u ->
      exists k : Z, (1 <= k)%Z /\ modQ (u + 1) 2 - 1 == u - 2 * inject_Z k).
Proof.
  pose proof (modQ_2_range (u + 1)) as [Hlo Hhi].
  split; [split; lra|].
  split; [unfold modQ; ring|].
  assert ((u + 1) / 2 == (u + 1) * (1 # 2)) as E by (field; discriminate).
  clear Hlo Hhi.
  split; [|split]; intros H1; [intros H2|intros H2|]; unfold modQ, floorQ.
  - rewrite (Qfloor_unique ((u + 1) / 2) 1).
    + change (inject_Z 1) with 1. ring.
    + change (inject_Z 1) with 1. lra.
    + change (inject_Z 1) with 1. lra.
  - rewrite (Qfloor_unique ((u + 1) / 2) 0).
    + change (inject_Z 0) with 0. ring.
    + change (inject_Z 0) with 0. lra.
    + change (inject_Z 0) with 0. lra.
  - exists (Qfloor ((u + 1) / 2)). split; [|ring].
    assert (1 <= (u + 1) / 2) as H by lra.
    apply Qfloor_resp_le in H. exact H.
Qed.

Lemma updateParticles_cell (dt : Q) (e : DaemonFluidEngine) (i j : Z) :
  (0 <= i < particleDataSize (particleSys e))%Z ->
  (0 <= j < particleDataSize (particleSys e))%Z ->
  particle_at (_updateParticles dt e) i j
  = particleUpdate_main
      (texture (fbo_get (particleData (particleSys e)) (particleReadIdx (particleSys e))))
      (texture (fbo_get (velocityFBO (grid e)) (velIdx (grid e)))) dt
      (Vec2 (1 / (cellSize (settings e) * aspectRatio (grid e)))
            (1 / cellSize (settings e)))
      1.0 (particleSpeed (settings e))
      (fragment (particleDataSize (particleSys e)) (particleDataSize (particleSys e))
                0 i j).
Proof.
  intros Hi Hj. unfold particle_at, _updateParticles.
  cbn [set_particleSys particleSys particleData particleReadIdx].
  rewrite fbo_get_set. unfold draw_to. cbn [texture].
  rewrite drawQuad_texel by assumption. reflexivity.
Qed.

(** Claim C4.  After [_updateParticles] every particle texel holds a position
    in [[-1, 1)] on both axes, for every state and every [dt].  The stored
    coordinate is the wrap law [mod(u + 1, 2) - 1] applied to the coordinate
    [u] reached by integration.  A particle integrated past [+1] re-enters
    at [u - 2]; should the step have carried it further than a whole domain
    width ([u >= 3]), the law takes off as many widths of 2 as needed,
    always at least one. *)
Theorem particle_wrap (dt : Q) (e : DaemonFluidEngine) (i j : Z) :
  (0 <= i < particleDataSize (particleSys e))%Z ->
  (0 <= j < particleDataSize (particleSys e))%Z ->
  (-1 <= x4 (particle_at (_updateParticles dt e) i j)
   /\ x4 (particle_at (_updateParticles dt e) i j) < 1)
  /\ (-1 <= y4 (particle_at (_updateParticles dt e) i j)
      /\ y4 (particle_at (_updateParticles dt e) i j) < 1)
  /\ x4 (particle_at (_updateParticles dt e) i j)
     == modQ (x2 (unwrapped_at dt e i j) + 1) 2 - 1
  /\ y4 (particle_at (_updateParticles dt e) i j)
     == modQ (y2 (unwrapped_at dt e i j) + 1) 2 - 1
  /\ (1 <= x2 (unwrapped_at dt e i j) -> x2 (unwrapped_at dt e i j) < 3 ->
      x4 (particle_at (_updateParticles dt e) i j) == x2 (unwrapped_at dt e i j) - 2)
  /\ (1 <= y2 (unwrapped_at dt e i j) -> y2 (unwrapped_at dt e i j) < 3 ->
      y4 (particle_at (_updateParticles dt e) i j) == y2 (unwrapped_at dt e i j) - 2)
  /\ (1 <= x2 (unwrapped_at dt e i j) ->
      exists k : Z,
        (1 <= k)%Z
        /\ x4 (particle_at (_updateParticles dt e) i j)
           == x2 (unwrapped_at dt e i j) - 2 * inject_Z k)
  /\ (1 <= y2 (unwrapped_at dt e i j) ->
      exists k : Z,
        (1 <= k)%Z
        /\ y4 (particle_at (_updateParticles dt e) i j)
           == y2 (unwrapped_at dt e i j) - 2 * inject_Z k).
Proof.
  intros Hi Hj.
  rewrite (updateParticles_cell dt e i j Hi Hj).
  unfold unwrapped_at.
  match goal with
  | |- context [particle_unwrapped ?a ?b ?c ?f ?g ?s ?v] =>
      change (particleUpdate_main a b c f g s v)
        with (vec4_22 (subs2 (mods2 (adds2 (particle_unwrapped a b c f g s v) 1) 2) 1)
                (add2 (zw (texture2D a (v_texCoord v)))
                   (muls2
                      (sub2
                         (mul2 (xy (texture2D b
                                      (muls2 (adds2 (xy (texture2D a (v_texCoord v))) 1) 0.5)))
                               f)
                         (zw (texture2D a (v_texCoord v))))
                      g)));
      set (u := particle_unwrapped a b c f g s v)
  end.
  cbn [vec4_22 subs2 mods2 adds2 x2 y2 x4 y4].
  destruct (wrap_law (x2 u)) as [Rx [_ [Cx [_ Kx]]]].
  destruct (wrap_law (y2 u)) as [Ry [_ [Cy [_ Ky]]]].
  split; [exact Rx|]. split; [exact Ry|].
  split; [reflexivity|]. split; [reflexivity|].
  split; [exact Cx|]. split; [exact Cy|].
  split; assumption.
Qed.

Lemma with_particles_dataSize (f : Z -> Z -> vec4) (e : DaemonFluidEngine) :
  particleDataSize (particleSys (with_particles f e))
  = particleDataSize (particleSys e).
Proof. reflexivity. Qed.

Lemma with_velocity_particleSys (f : Z -> Z -> vec2) (e : DaemonFluidEngine) :
  particleSys (with_velocity f e) = particleSys e.
Proof. reflexivity. Qed.

Lemma flow_engine_dataSize : particleDataSize (particleSys flow_engine) = 512%Z.
Proof.
  unfold flow_engine.
  rewrite with_particles_dataSize, with_velocity_particleSys.
  rewrite (rb_dataSize _ _ _
             (booted_rebuilt no_options (mkPreset 262144 (1 / 4) 20) eq_refl)).
  reflexivity.
Qed.

Lemma particle_wrap_witness :
  x2 (unwrapped_at 0.016 flow_engine 5 7) == 1.019
  /\ x4 (particle_at (_updateParticles 0.016 flow_engine) 5 7) == - 0.981
  /\ (-1 <= x4 (particle_at (_updateParticles 0.016 flow_engine) 5 7)
      /\ x4 (particle_at (_updateParticles 0.016 flow_engine) 5 7) < 1).
Proof.
  assert (x2 (unwrapped_at 0.016 flow_engine 5 7) == 1.019) as Hu
    by (vm_compute; reflexivity).
  destruct (particle_wrap 0.016 flow_engine 5 7) as [Rx [_ [_ [_ [Cx _]]]]].
  - rewrite flow_engine_dataSize. lia.
  - rewrite flow_engine_dataSize. lia.
  - split; [exact Hu|]. split; [|exact Rx].
    rewrite Cx.
    + rewrite Hu. reflexivity.
    + rewrite Hu. discriminate.
    + rewrite Hu. reflexivity.
Defined.

(* ================================================================== *)
(** * The particle grid *)
(* ================================================================== *)

(** [Math.ceil(Math.sqrt(n))] is the least side whose square reaches [n]. *)
Lemma Math_ceil_sqrt_spec (n : Z) :
  (1 <= n)%Z ->
  (0 < Math_ceil_sqrt n)%Z
  /\ (n <= Math_ceil_sqrt n * Math_ceil_sqrt n)%Z
  /\ (forall s, 0 <= s -> n <= s * s -> Math_ceil_sqrt n <= s)%Z.
Proof.
  intros Hn. unfold Math_ceil_sqrt.
  pose proof (Z.sqrt_spec n ltac:(lia)) as [Hlo Hhi].
  pose proof (Z.sqrt_nonneg n) as H0.
  unfold Z.succ in Hhi.
  destruct (Z.sqrt n * Z.sqrt n =? n)%Z eqn:E.
  - apply Z.eqb_eq in E. repeat split; try nia.
  - apply Z.eqb_neq in E. repeat split; try nia.
Qed.

Lemma range_length (n : Z) : length (range n) = Z.to_nat n.
Proof. unfold range. rewrite length_map, length_seq. reflexivity. Qed.

Lemma range_nth (n : Z) (k : nat) :
  (k < Z.to_nat n)%nat -> nth_error (range n) k = Some (Z.of_nat k).
Proof.
  intros Hk. unfold range. rewrite nth_error_map, nth_error_seq.
  apply Nat.ltb_lt in Hk. rewrite Hk. reflexivity.
Qed.

(** Row [r], column [k] of a table laid out row after row. *)
Lemma nth_error_flat_map_rows {A B : Type} (f : A -> list B) (c : nat) :
  (forall x, length (f x) = c) ->
  forall (l : list A) (r k : nat) (a : A),
    nth_error l r = Some a -> (k < c)%nat ->
    nth_error (flat_map f l) (r * c + k) = nth_error (f a) k.
Proof.
  intros Hlen. induction l as [|x l IH]; intros r k a Hr Hk.
  - destruct r; discriminate Hr.
  - destruct r as [|r]; cbn [flat_map nth_error] in *.
    + injection Hr as ->. cbn [Nat.mul Nat.add].
      apply nth_error_app1. rewrite Hlen. exact Hk.
    + rewrite nth_error_app2 by (rewrite Hlen; cbn [Nat.mul]; lia).
      rewrite Hlen.
      replace (S r * c + k - c)%nat with (r * c + k)%nat by (cbn [Nat.mul]; lia).
      apply IH; assumption.
Qed.

Lemma make_uvs_length (ds : Z) :
  (0 <= ds)%Z -> length (make_uvs ds) = Z.to_nat (ds * ds).
Proof.
  intros Hds. unfold make_uvs.
  rewrite (flat_map_constant_length (c := Z.to_nat ds)).
  - rewrite range_length. rewrite Z2Nat.inj_mul by lia. reflexivity.
  - intros x _. rewrite length_map. apply range_length.
Qed.

(** Vertex [i * dataSize + j] carries the centre of texel [(j, i)]. *)
Lemma make_uvs_nth (ds i j : Z) :
  (0 <= i < ds)%Z -> (0 <= j < ds)%Z ->
  nth_error (make_uvs ds) (Z.to_nat (i * ds + j))
  = Some (Vec2 (centre ds j) (centre ds i)).
Proof.
  intros Hi Hj. unfold make_uvs.
  replace (Z.to_nat (i * ds + j))
    with (Z.to_nat i * Z.to_nat ds + Z.to_nat j)%nat
    by (rewrite Z2Nat.inj_add, Z2Nat.inj_mul by nia; reflexivity).
  rewrite (nth_error_flat_map_rows _ (Z.to_nat ds)) with (a := i).
  - rewrite nth_error_map, (range_nth ds (Z.to_nat j)) by lia.
    cbn [option_map]. rewrite Z2Nat.id by lia. reflexivity.
  - intros x. rewrite length_map. apply range_length.
  - rewrite (range_nth ds (Z.to_nat i)) by lia. rewrite Z2Nat.id by lia. reflexivity.
  - lia.
Qed.

(** Claim C9.  For a requested count [n >= 1], [_initParticleBuffers] sets
    the particle count, and with it what [getParticleCount] returns, to
    [side * side] where [side = ceil(sqrt(n))] is the least whole number
    whose square is at least [n].  Both particle targets are [side] x [side]
    textures, there are [side * side] particle vertices, and vertex
    [i * side + j] samples exactly texel [(j, i)]: one texel per particle. *)
Theorem particle_count_is_square (e : DaemonFluidEngine) (p : Preset) :
  preset_at (qualityPresets e) (quality (settings e)) = Some p ->
  (1 <= particles p)%Z ->
  exists e',
    _initParticleBuffers e = Some e'
    /\ particleDataSize (particleSys e') = Math_ceil_sqrt (particles p)
    /\ getParticleCount e'
       = (particleDataSize (particleSys e') * particleDataSize (particleSys e'))%Z
    /\ (0 < particleDataSize (particleSys e'))%Z
    /\ (particles p
        <= particleDataSize (particleSys e') * particleDataSize (particleSys e'))%Z
    /\ (forall s, 0 <= s -> particles p <= s * s ->
                  particleDataSize (particleSys e') <= s)%Z
    /\ sized (particleDataSize (particleSys e')) (particleDataSize (particleSys e'))
             (fst (particleData (particleSys e')))
    /\ sized (particleDataSize (particleSys e')) (particleDataSize (particleSys e'))
             (snd (particleData (particleSys e')))
    /\ length (particleUVs (particleSys e')) = Z.to_nat (getParticleCount e')
    /\ (forall i j,
          (0 <= i < particleDataSize (particleSys e'))%Z ->
          (0 <= j < particleDataSize (particleSys e'))%Z ->
          exists uv,
            nth_error (particleUVs (particleSys e'))
                      (Z.to_nat (i * particleDataSize (particleSys e') + j))
            = Some uv
            /\ forall s : sampler2D,
                width s = particleDataSize (particleSys e') ->
                height s = particleDataSize (particleSys e') ->
                texture2D s uv = texel s j i).
Proof.
  intros Hp Hn.
  destruct (Math_ceil_sqrt_spec (particles p) Hn) as [Hpos [Hge Hmin]].
  unfold _initParticleBuffers. rewrite Hp.
  eexists. split; [reflexivity|].
  unfold getParticleCount, _initParticles.
  cbn [set_particleSys count_particleBuild particleSys particleDataSize
       particleCount particleUVs particleData].
  set (side := Math_ceil_sqrt (particles p)) in *.
  split; [reflexivity|]. split; [reflexivity|].
  split; [exact Hpos|]. split; [exact Hge|]. split; [exact Hmin|].
  split; [split; reflexivity|]. split; [split; reflexivity|].
  split; [apply make_uvs_length; lia|].
  intros i j Hi Hj.
  exists (Vec2 (centre side j) (centre side i)).
  split; [apply make_uvs_nth; assumption|].
  intros s Hw Hh.
  apply (texture2D_centre side side Hpos Hpos s j i); cbn [x2 y2];
    try assumption; reflexivity.
Qed.

Lemma particle_count_is_square_witness :
  exists e',
    _initParticleBuffers (desktop no_options) = Some e'
    /\ particleDataSize (particleSys e') = 512%Z
    /\ getParticleCount e' = 262144%Z.
Proof.
  destruct (particle_count_is_square (desktop no_options)
              (mkPreset 262144 (1 / 4) 20) eq_refl ltac:(cbn [particles]; lia))
    as [e' [He' [Hs [Hc _]]]].
  exists e'. split; [exact He'|].
  rewrite Hc, Hs. split; reflexivity.
Defined.

(** The "High" preset asks for 524288 particles, which is not a square: the
    engine runs 725 * 725 = 525625 of them. *)
Example high_preset_particle_count :
  Math_ceil_sqrt 524288 = 725%Z
  /\ (724 * 724 < 524288 <= 725 * 725)%Z.
Proof. split; [reflexivity|lia]. Qed.

(* ================================================================== *)
(** * The stroke geometry of the force and dye shaders *)
(* ================================================================== *)

(** On a degenerate segment ([a == b], more generally whenever the computed
    length is at most [0.0001]) [distToSeg] returns before the assignment to
    [fp]. *)
Lemma distToSeg_degenerate `{Builtins} (a b p : vec2) :
  length2 (sub2 b a) <= 0.0001 ->
  distToSeg a b p = (length2 (sub2 p a), None).
Proof.
  intros Hl. unfold distToSeg.
  apply Qle_bool_iff in Hl. rewrite Hl. reflexivity.
Qed.

(** On any other segment it assigns [fp = proj / lx]. *)
Lemma distToSeg_assigns `{Builtins} (a b p : vec2) :
  ~ length2 (sub2 b a) <= 0.0001 ->
  snd (distToSeg a b p)
  = Some (dot2 (sub2 p a) (divs2 (sub2 b a) (length2 (sub2 b a)))
          / length2 (sub2 b a)).
Proof.
  intros Hl. unfold distToSeg.
  destruct (Qle_bool (length2 (sub2 b a)) 0.0001) eqn:E.
  - apply Qle_bool_iff in E. contradiction.
  - destruct (Qltb _ 0); [reflexivity|].
    destruct (Qltb _ _); reflexivity.
Qed.

(** With the pointer down on a degenerate segment, the tapering factor of the
    force shader is computed from whatever the uninitialized local held. *)
Lemma force_main_degenerate `{Builtins} (u_velocity : sampler2D) (dt dx : Q)
    (ptr last : vec2) (radius aspect fp_uninit : Q) (v : varyings) :
  length2 (sub2 (clipToSim aspect last) (clipToSim aspect ptr)) <= 0.0001 ->
  force_main u_velocity dt dx ptr last true radius aspect fp_uninit v
  = let vel := xy (texture2D u_velocity (v_texCoord v)) in
    let dist := length2 (sub2 (v_simPos v) (clipToSim aspect ptr)) in
    let ptrVel := divs2 (neg2 (sub2 (clipToSim aspect last) (clipToSim aspect ptr)))
                        (maxQ dt 0.001) in
    let m := expQ (- dist / radius) * (tapering_of fp_uninit * tapering_of fp_uninit) in
    vec4_2ss (add2 vel (muls2 (sub2 (muls2 ptrVel dx) vel) m)) 0 1.
Proof.
  intros Hl. unfold force_main.
  rewrite (distToSeg_degenerate _ _ _ Hl). reflexivity.
Qed.

(** The dye shader computes its tapering factor from the same
    indeterminate value. *)
Lemma dye_main_degenerate `{Builtins} (u_dye : sampler2D) (dt : Q)
    (ptr last : vec2) (radius aspect intensity : Q) (mode : Z) (decay fp_uninit : Q)
    (v : varyings) :
  length2 (sub2 (clipToSim aspect last) (clipToSim aspect ptr)) <= 0.0001 ->
  dye_main u_dye dt ptr last true radius aspect intensity mode decay fp_uninit v
  = let color := texture2D u_dye (v_texCoord v) in
    let color := with_rgb color (muls3 (rgb color) decay) in
    let dist := length2 (sub2 (v_simPos v) (clipToSim aspect ptr)) in
    let ptrVel := divs2 (neg2 (sub2 (clipToSim aspect last) (clipToSim aspect ptr)))
                        (maxQ dt 0.001) in
    let m := expQ (- dist / 0.03) in
    let speed := length2 ptrVel in
    let x := clamp ((speed * speed * 0.015 - dist * 4) * tapering_of fp_uninit) 0 1 in
    with_rgb color (add3 (rgb color) (muls3 (smul3 m (getColor mode x)) intensity)).
Proof.
  intros Hl. unfold dye_main.
  rewrite (distToSeg_degenerate _ _ _ Hl). reflexivity.
Qed.

Lemma approx_sqrt_zero (q : Q) : q == 0 -> approx_sqrt q == 0.
Proof.
  intros Hq. unfold approx_sqrt.
  assert (Qfloor (q * 100000000) = 0%Z) as ->.
  { rewrite <- (Qfloor_Z 0). apply Qfloor_comp. rewrite Hq. reflexivity. }
  reflexivity.
Qed.

Lemma press_engine_pointer :
  isDown (pointer press_engine) = true
  /\ lastPointer press_engine
     = Vec2 (ptr_x (pointer press_engine)) (ptr_y (pointer press_engine))
  /\ veq2 (lastPointer press_engine) (Vec2 0 0).
Proof. repeat split. Qed.

(** Claim C10 fails on a stationary press.  The [mousedown] listener makes
    the previous pointer position equal to the current one, so the segment is
    degenerate: [distToSeg] returns without storing into [fp] for every cell,
    and the velocity the force pass writes depends on the indeterminate value
    of that local (here cell [(240, 135)], once with [0] and once with [1]
    in it). *)
Theorem stationary_press_reads_unassigned_fp :
  isDown (pointer press_engine) = true
  /\ lastPointer press_engine
     = Vec2 (ptr_x (pointer press_engine)) (ptr_y (pointer press_engine))
  /\ (forall p,
        snd (@distToSeg approx_builtins
               (clipToSim (aspectRatio (grid press_engine))
                          (Vec2 (ptr_x (pointer press_engine))
                                (ptr_y (pointer press_engine))))
               (clipToSim (aspectRatio (grid press_engine)) (lastPointer press_engine))
               p)
        = None)
  /\ ~ veq2
       (velocity_at (@_applyForces approx_builtins (fun _ => 0) 0.016 press_engine)
                    240 135)
       (velocity_at (@_applyForces approx_builtins (fun _ => 1) 0.016 press_engine)
                    240 135).
Proof.
  destruct press_engine_pointer as [Hd [Hl _]].
  split; [exact Hd|]. split; [exact Hl|]. split.
  - intros p. rewrite Hl.
    rewrite (@distToSeg_degenerate approx_builtins); [reflexivity|].
    unfold length2. cbn [sqrtQ approx_builtins].
    rewrite approx_sqrt_zero; [discriminate|].
    unfold dot2, sub2. cbn [x2 y2]. ring.
  - intros [Hx _]. vm_compute in Hx. discriminate Hx.
Qed.

Lemma pressure_solve_runs_N_sweeps_witness :
  grid_wf (grid (booted no_options))
  /\ (forall i j,
        in_grid (booted no_options) i j ->
        pressure_at (_solvePressure (booted no_options)) i j
        = jacobi_iter (Z.to_nat (solverIterations (settings (booted no_options))))
            (simWidth (grid (booted no_options))) (simHeight (grid (booted no_options)))
            (- cellSize (settings (booted no_options))
             * cellSize (settings (booted no_options)))
            (divergence_at (booted no_options)) (pressure_at (booted no_options)) i j)
  /\ Z.to_nat (solverIterations (settings (booted no_options))) = 20%nat.
Proof.
  split; [exact booted_grid_wf|].
  split.
  - exact (proj1 (@pressure_solve_runs_N_sweeps approx_builtins (booted no_options)
                    booted_grid_wf)).
  - destruct (booted_state no_options (mkPreset 262144 (1 / 4) 20) eq_refl)
      as [_ [-> _]].
    reflexivity.
Defined.
(* ================================================================== *)
(** * Sampling at pixel centres and inside the texture *)
(* ================================================================== *)

Lemma texture2D_fragment (W H : Z) (s : sampler2D) (a : Q) (i j : Z) :
  (0 < W)%Z -> (0 < H)%Z -> width s = W -> height s = H ->
  (0 <= i < W)%Z -> (0 <= j < H)%Z ->
  texture2D s (v_texCoord (fragment W H a i j)) = texel s i j.
Proof.
  intros HW HH Hw Hh Hi Hj.
  apply (texture2D_centre W H HW HH); try assumption; reflexivity.
Qed.








(* ================================================================== *)
(** * The passes of a frame, one by one *)
(* ================================================================== *)

Lemma velocity_write_wf (g : Grid) (idx vw vh : Z) (a : Q) (frag : varyings -> vec4) :
  grid_wf g ->
  grid_wf (set_velocity
             (fbo_set (velocityFBO g) idx
                (draw_to vw vh a frag (fbo_get (velocityFBO g) idx))) idx g).
Proof.
  intros Hg. destruct Hg.
  destruct (fbo_set_sized (simWidth g) (simHeight g) (velocityFBO g) idx
              (draw_to vw vh a frag (fbo_get (velocityFBO g) idx)))
    as [H0 H1]; try assumption.
  { apply draw_to_sized. apply fbo_get_sized; assumption. }
  constructor; assumption.
Qed.

Lemma dye_write_wf (g : Grid) (idx vw vh : Z) (a : Q) (frag : varyings -> vec4) :
  grid_wf g ->
  grid_wf (set_dye
             (fbo_set (dyeFBO g) idx
                (draw_to vw vh a frag (fbo_get (dyeFBO g) idx))) idx g).
Proof.
  intros Hg. destruct Hg.
  destruct (fbo_set_sized (simWidth g) (simHeight g) (dyeFBO g) idx
              (draw_to vw vh a frag (fbo_get (dyeFBO g) idx)))
    as [H0 H1]; try assumption.
  { apply draw_to_sized. apply fbo_get_sized; assumption. }
  constructor; assumption.
Qed.

Lemma advect_wf (which : fieldName) (dt d : Q) (e : DaemonFluidEngine) :
  grid_wf (grid e) -> grid_wf (grid (_advect which dt d e)).
Proof.
  intros Hg. destruct which; unfold _advect; cbn [set_grid grid].
  - apply velocity_write_wf. exact Hg.
  - apply dye_write_wf. exact Hg.
Qed.

Lemma applyForces_wf `{Builtins} (undef : varyings -> Q) (dt : Q)
    (e : DaemonFluidEngine) :
  grid_wf (grid e) -> grid_wf (grid (_applyForces undef dt e)).
Proof.
  intros Hg. unfold _applyForces; cbn [set_grid grid].
  apply velocity_write_wf. exact Hg.
Qed.

Lemma updateDye_wf `{Builtins} (undef : varyings -> Q) (dt : Q)
    (e : DaemonFluidEngine) :
  grid_wf (grid e) -> grid_wf (grid (_updateDye undef dt e)).
Proof.
  intros Hg. unfold _updateDye; cbn [set_grid grid].
  apply dye_write_wf. exact Hg.
Qed.

(** A texel of the read buffer of a sized double buffer, fetched at the
    centre of its own fragment. *)
Lemma fetch_own_texel (W H : Z) (d : doubleFBO) (idx : Z) (a : Q) (i j : Z) :
  (0 < W)%Z -> (0 < H)%Z ->
  sized W H (fst d) -> sized W H (snd d) ->
  (0 <= i < W)%Z -> (0 <= j < H)%Z ->
  texture2D (texture (fbo_get d idx)) (v_texCoord (fragment W H a i j))
  = texel (texture (fbo_get d idx)) i j.
Proof.
  intros HW HH S0 S1 Hi Hj.
  destruct (fbo_get_sized W H d idx S0 S1) as [Sw Sh].
  apply texture2D_fragment; assumption.
Qed.

Lemma applyForces_idle_cell `{Builtins} (undef : varyings -> Q) (dt : Q)
    (e : DaemonFluidEngine) (i j : Z) :
  grid_wf (grid e) -> isDown (pointer e) = false -> in_grid e i j ->
  field_at VelocityField (_applyForces undef dt e) i j
  = vec4_2ss (velocity_at e i j) 0 1.
Proof.
  intros Hg Hup [Hi Hj]. destruct Hg.
  unfold field_at, _applyForces.
  cbn [set_grid grid set_velocity velocityFBO velIdx].
  rewrite fbo_get_set. unfold draw_to. cbn [texture].
  rewrite drawQuad_texel by assumption.
  unfold force_main. rewrite Hup.
  rewrite fetch_own_texel by assumption.
  reflexivity.
Qed.

Lemma updateDye_idle_cell `{Builtins} (undef : varyings -> Q) (dt : Q)
    (e : DaemonFluidEngine) (i j : Z) :
  grid_wf (grid e) -> isDown (pointer e) = false -> in_grid e i j ->
  dye_at (_updateDye undef dt e) i j
  = Vec4 (x4 (dye_at e i j) * dyeDecay (settings e))
         (y4 (dye_at e i j) * dyeDecay (settings e))
         (z4 (dye_at e i j) * dyeDecay (settings e))
         (w4 (dye_at e i j)).
Proof.
  intros Hg Hup [Hi Hj]. destruct Hg.
  unfold dye_at, read_dye, _updateDye.
  cbn [set_grid grid set_dye dyeFBO dyeIdx].
  rewrite fbo_get_set. unfold draw_to. cbn [texture].
  rewrite drawQuad_texel by assumption.
  unfold dye_main. rewrite Hup.
  rewrite fetch_own_texel by assumption.
  reflexivity.
Qed.

(* ================================================================== *)
(** * A frame without input *)
(* ================================================================== *)

Lemma advect_at_rest (which : fieldName) (dt d : Q) (e : DaemonFluidEngine) :
  grid_wf (grid e) -> at_rest e ->
  forall i j,
    in_grid e i j ->
    veq4 (field_at which (_advect which dt d e) i j)
         (muls4 (field_at which e i j) d).
Proof.
  intros Hg Hstill i j Hij.
  pose proof (aspect_nonzero _ Hg) as Ha.
  pose proof (Hstill i j Hij) as Hv.
  destruct Hij as [Hi Hj]. destruct Hg.
  destruct which; unfold field_at, dye_at, read_dye, _advect;
    cbn [set_grid grid set_velocity set_dye velocityFBO velIdx dyeFBO dyeIdx];
    rewrite fbo_get_set; unfold draw_to; cbn [texture];
    rewrite drawQuad_texel by assumption;
    unfold invRes;
    apply advect_main_still; try assumption;
    try (apply (fbo_get_sized (simWidth (grid e)) (simHeight (grid e))); assumption).
Qed.

Lemma divergence_at_rest (e : DaemonFluidEngine) :
  grid_wf (grid e) -> at_rest e ->
  forall i j, in_grid e i j -> divergence_of e i j == 0.
Proof.
  intros Hg Hstill i j Hij.
  rewrite (divergence_of_cells e i j Hg Hij).
  destruct Hij as [Hi Hj]. pose proof Hg as Hg0. destruct Hg0.
  rewrite (divergence_cell_proper _ _ _ (velocity_at e) (fun _ _ => Vec2 0 0));
    try assumption.
  - unfold divergence_cell. cbn [x2 y2]. ring.
  - intros a b Ha Hb. apply Hstill. split; assumption.
Qed.

(** Jacobi sweeps leave a uniform pressure alone where the divergence
    vanishes: the reflected neighbours of a border cell hold the same
    value. *)
Lemma jacobi_iter_uniform (n : nat) (W H : Z) (alpha c : Q) (div : Z -> Z -> Q) :
  (0 < W)%Z -> (0 < H)%Z ->
  (forall a b, (0 <= a < W)%Z -> (0 <= b < H)%Z -> div a b == 0) ->
  forall p,
    (forall a b, (0 <= a < W)%Z -> (0 <= b < H)%Z -> p a b == c) ->
    forall i j, (0 <= i < W)%Z -> (0 <= j < H)%Z ->
                jacobi_iter n W H alpha div p i j == c.
Proof.
  intros HW HH Hd. induction n as [|n IH]; intros p Hp i j Hi Hj.
  - apply Hp; assumption.
  - cbn [jacobi_iter]. apply IH; try assumption.
    intros a b Ha Hb. unfold jacobi_cell.
    rewrite (Hp (nb W (a - 1)) b), (Hp (nb W (a + 1)) b),
      (Hp a (nb H (b - 1))), (Hp a (nb H (b + 1))), (Hd a b);
      try assumption; try (apply nb_range; assumption).
    ring.
Qed.

Lemma gradient_cell_uniform (W H : Z) (h c : Q) (P : Z -> Z -> Q)
    (V : Z -> Z -> vec2) :
  (0 < W)%Z -> (0 < H)%Z ->
  (forall a b, (0 <= a < W)%Z -> (0 <= b < H)%Z -> P a b == c) ->
  forall i j, (0 <= i < W)%Z -> (0 <= j < H)%Z ->
              veq2 (gradient_cell W H h P V i j) (V i j).
Proof.
  intros HW HH HP i j Hi Hj. unfold gradient_cell, veq2. cbn [sub2 smul2 x2 y2].
  rewrite (HP (nb W (i + 1)) j), (HP (nb W (i - 1)) j),
    (HP i (nb H (j + 1))), (HP i (nb H (j - 1)));
    try assumption; try (apply nb_range; assumption).
  split; ring.
Qed.

(** What each pass leaves alone. *)
Lemma advect_velocity_frame (dt d : Q) (e : DaemonFluidEngine) :
  settings (_advect VelocityField dt d e) = settings e
  /\ pointer (_advect VelocityField dt d e) = pointer e
  /\ lastPointer (_advect VelocityField dt d e) = lastPointer e
  /\ particleSys (_advect VelocityField dt d e) = particleSys e
  /\ simWidth (grid (_advect VelocityField dt d e)) = simWidth (grid e)
  /\ simHeight (grid (_advect VelocityField dt d e)) = simHeight (grid e)
  /\ pressure_at (_advect VelocityField dt d e) = pressure_at e
  /\ dye_at (_advect VelocityField dt d e) = dye_at e.
Proof. repeat split. Qed.

Lemma advect_dye_frame (dt d : Q) (e : DaemonFluidEngine) :
  settings (_advect DyeField dt d e) = settings e
  /\ pointer (_advect DyeField dt d e) = pointer e
  /\ lastPointer (_advect DyeField dt d e) = lastPointer e
  /\ particleSys (_advect DyeField dt d e) = particleSys e
  /\ simWidth (grid (_advect DyeField dt d e)) = simWidth (grid e)
  /\ simHeight (grid (_advect DyeField dt d e)) = simHeight (grid e)
  /\ pressure_at (_advect DyeField dt d e) = pressure_at e
  /\ velocity_at (_advect DyeField dt d e) = velocity_at e.
Proof. repeat split. Qed.

Lemma applyForces_frame `{Builtins} (undef : varyings -> Q) (dt : Q)
    (e : DaemonFluidEngine) :
  settings (_applyForces undef dt e) = settings e
  /\ pointer (_applyForces undef dt e) = pointer e
  /\ lastPointer (_applyForces undef dt e) = lastPointer e
  /\ particleSys (_applyForces undef dt e) = particleSys e
  /\ simWidth (grid (_applyForces undef dt e)) = simWidth (grid e)
  /\ simHeight (grid (_applyForces undef dt e)) = simHeight (grid e)
  /\ pressure_at (_applyForces undef dt e) = pressure_at e
  /\ dye_at (_applyForces undef dt e) = dye_at e.
Proof. repeat split. Qed.

Lemma computeDivergence_frame (e : DaemonFluidEngine) :
  settings (_computeDivergence e) = settings e
  /\ pointer (_computeDivergence e) = pointer e
  /\ lastPointer (_computeDivergence e) = lastPointer e
  /\ particleSys (_computeDivergence e) = particleSys e
  /\ simWidth (grid (_computeDivergence e)) = simWidth (grid e)
  /\ simHeight (grid (_computeDivergence e)) = simHeight (grid e)
  /\ pressure_at (_computeDivergence e) = pressure_at e
  /\ dye_at (_computeDivergence e) = dye_at e
  /\ velocity_at (_computeDivergence e) = velocity_at e.
Proof. repeat split. Qed.

Lemma solvePressure_frame (e : DaemonFluidEngine) :
  settings (_solvePressure e) = settings e
  /\ pointer (_solvePressure e) = pointer e
  /\ lastPointer (_solvePressure e) = lastPointer e
  /\ particleSys (_solvePressure e) = particleSys e
  /\ simWidth (grid (_solvePressure e)) = simWidth (grid e)
  /\ simHeight (grid (_solvePressure e)) = simHeight (grid e)
  /\ divergence_at (_solvePressure e) = divergence_at e
  /\ dye_at (_solvePressure e) = dye_at e
  /\ velocity_at (_solvePressure e) = velocity_at e.
Proof.
  unfold _solvePressure, divergence_at, dye_at, velocity_at,
    read_divergence, read_dye, read_velocity.
  cbn [set_grid grid settings pointer lastPointer particleSys].
  destruct (pressure_loop_keeps (Z.to_nat (solverIterations (settings e)))
              (- cellSize (settings e) * cellSize (settings e)) (grid e))
    as [-> [-> [_ [-> [-> [-> [-> [-> _]]]]]]]].
  repeat split.
Qed.

Lemma subtractGradient_frame (e : DaemonFluidEngine) :
  settings (_subtractGradient e) = settings e
  /\ pointer (_subtractGradient e) = pointer e
  /\ lastPointer (_subtractGradient e) = lastPointer e
  /\ particleSys (_subtractGradient e) = particleSys e
  /\ simWidth (grid (_subtractGradient e)) = simWidth (grid e)
  /\ simHeight (grid (_subtractGradient e)) = simHeight (grid e)
  /\ pressure_at (_subtractGradient e) = pressure_at e
  /\ dye_at (_subtractGradient e) = dye_at e.
Proof. repeat split. Qed.

Lemma updateDye_frame `{Builtins} (undef : varyings -> Q) (dt : Q)
    (e : DaemonFluidEngine) :
  settings (_updateDye undef dt e) = settings e
  /\ pointer (_updateDye undef dt e) = pointer e
  /\ lastPointer (_updateDye undef dt e) = lastPointer e
  /\ particleSys (_updateDye undef dt e) = particleSys e
  /\ simWidth (grid (_updateDye undef dt e)) = simWidth (grid e)
  /\ simHeight (grid (_updateDye undef dt e)) = simHeight (grid e)
  /\ pressure_at (_updateDye undef dt e) = pressure_at e
  /\ velocity_at (_updateDye undef dt e) = velocity_at e.
Proof. repeat split. Qed.

Lemma updateParticles_frame (dt : Q) (e : DaemonFluidEngine) :
  settings (_updateParticles dt e) = settings e
  /\ pointer (_updateParticles dt e) = pointer e
  /\ lastPointer (_updateParticles dt e) = lastPointer e
  /\ grid (_updateParticles dt e) = grid e.
Proof. repeat split. Qed.

Lemma in_grid_same (e e' : DaemonFluidEngine) (i j : Z) :
  simWidth (grid e') = simWidth (grid e) ->
  simHeight (grid e') = simHeight (grid e) ->
  in_grid e' i j <-> in_grid e i j.
Proof. intros Hw Hh. unfold in_grid. rewrite Hw, Hh. reflexivity. Qed.

Lemma same_scene_trans (e1 e2 e3 : DaemonFluidEngine) :
  same_scene e1 e2 -> same_scene e2 e3 -> same_scene e1 e3.
Proof.
  intros [S1 [P1 [W1 H1]]] [S2 [P2 [W2 H2]]].
  split; [congruence|]. split; [congruence|]. split; congruence.
Qed.

Lemma same_scene_in_grid (e e' : DaemonFluidEngine) (i j : Z) :
  same_scene e e' -> in_grid e' i j <-> in_grid e i j.
Proof. intros [_ [_ [W H]]]. apply in_grid_same; assumption. Qed.

Lemma at_rest_same (e e' : DaemonFluidEngine) :
  simWidth (grid e') = simWidth (grid e) ->
  simHeight (grid e') = simHeight (grid e) ->
  velocity_at e' = velocity_at e ->
  at_rest e -> at_rest e'.
Proof.
  intros Hw Hh Hv Hr i j Hij. rewrite Hv. apply Hr.
  apply (in_grid_same e e' i j Hw Hh). exact Hij.
Qed.

Lemma uniform_pressure_same (c : Q) (e e' : DaemonFluidEngine) :
  simWidth (grid e') = simWidth (grid e) ->
  simHeight (grid e') = simHeight (grid e) ->
  pressure_at e' = pressure_at e ->
  uniform_pressure c e -> uniform_pressure c e'.
Proof.
  intros Hw Hh Hv Hr i j Hij. rewrite Hv. apply Hr.
  apply (in_grid_same e e' i j Hw Hh). exact Hij.
Qed.

(** A pass that changes neither velocity nor pressure keeps an idle engine
    idle. *)
Lemma idle_transfer (c : Q) (e e' : DaemonFluidEngine) :
  grid_wf (grid e') -> same_scene e e' ->
  velocity_at e' = velocity_at e -> pressure_at e' = pressure_at e ->
  idle_state c e -> idle_state c e'.
Proof.
  intros Hg Hs Hv Hp [_ [Hup [Hr Hu]]].
  split; [exact Hg|].
  split; [destruct Hs as [_ [-> _]]; exact Hup|].
  split.
  - intros i j Hij. rewrite Hv. apply Hr.
    apply (same_scene_in_grid e e' i j Hs). exact Hij.
  - intros i j Hij. rewrite Hp. apply Hu.
    apply (same_scene_in_grid e e' i j Hs). exact Hij.
Qed.

Lemma idle_advect_velocity (dt d c : Q) (e : DaemonFluidEngine) :
  idle_state c e ->
  idle_state c (_advect VelocityField dt d e)
  /\ same_scene e (_advect VelocityField dt d e)
  /\ dye_at (_advect VelocityField dt d e) = dye_at e.
Proof.
  intros [Hg [Hup [Hr Hu]]].
  destruct (advect_velocity_frame dt d e) as [S1 [P1 [_ [_ [W1 [H1 [Pr1 D1]]]]]]].
  assert (same_scene e (_advect VelocityField dt d e)) as Hs.
  { split; [exact S1|]. split; [exact P1|]. split; assumption. }
  split; [|split; [exact Hs|exact D1]].
  split; [apply advect_wf; exact Hg|].
  split; [rewrite P1; exact Hup|].
  split.
  - intros i j Hij.
    apply (same_scene_in_grid e _ i j Hs) in Hij.
    destruct (advect_at_rest VelocityField dt d e Hg Hr i j Hij) as [Hx [Hy _]].
    destruct (Hr i j Hij) as [Rx Ry].
    unfold velocity_at, read_velocity, xy in *. unfold field_at in Hx, Hy.
    cbn [muls4 x4 y4 x2 y2] in *.
    split; cbn [x2 y2]; [rewrite Hx, Rx|rewrite Hy, Ry]; ring.
  - intros i j Hij. rewrite Pr1. apply Hu.
    apply (same_scene_in_grid e _ i j Hs). exact Hij.
Qed.

Lemma idle_applyForces `{Builtins} (undef : varyings -> Q) (dt c : Q)
    (e : DaemonFluidEngine) :
  idle_state c e ->
  idle_state c (_applyForces undef dt e)
  /\ same_scene e (_applyForces undef dt e)
  /\ dye_at (_applyForces undef dt e) = dye_at e.
Proof.
  intros [Hg [Hup [Hr Hu]]].
  destruct (applyForces_frame undef dt e) as [S1 [P1 [_ [_ [W1 [H1 [Pr1 D1]]]]]]].
  assert (same_scene e (_applyForces undef dt e)) as Hs.
  { split; [exact S1|]. split; [exact P1|]. split; assumption. }
  split; [|split; [exact Hs|exact D1]].
  split; [apply applyForces_wf; exact Hg|].
  split; [rewrite P1; exact Hup|].
  split.
  - intros i j Hij.
    apply (same_scene_in_grid e _ i j Hs) in Hij.
    pose proof (applyForces_idle_cell undef dt e i j Hg Hup Hij) as Hc.
    unfold field_at in Hc. unfold velocity_at at 1. unfold read_velocity.
    rewrite Hc. exact (Hr i j Hij).
  - intros i j Hij. rewrite Pr1. apply Hu.
    apply (same_scene_in_grid e _ i j Hs). exact Hij.
Qed.

Lemma idle_computeDivergence (c : Q) (e : DaemonFluidEngine) :
  idle_state c e ->
  idle_state c (_computeDivergence e)
  /\ same_scene e (_computeDivergence e)
  /\ dye_at (_computeDivergence e) = dye_at e
  /\ forall i j, in_grid (_computeDivergence e) i j ->
                 divergence_at (_computeDivergence e) i j == 0.
Proof.
  intros Hi. pose proof Hi as [Hg [Hup [Hr Hu]]].
  destruct (computeDivergence_frame e) as [S3 [P3 [_ [_ [W3 [H3 [Pr3 [D3 V3]]]]]]]].
  assert (same_scene e (_computeDivergence e)) as Hs.
  { split; [exact S3|]. split; [exact P3|]. split; assumption. }
  split; [|split; [exact Hs|split; [exact D3|]]].
  - apply (idle_transfer c e); try assumption. apply computeDivergence_wf. exact Hg.
  - intros i j Hij. apply (divergence_at_rest e Hg Hr).
    apply (same_scene_in_grid e _ i j Hs). exact Hij.
Qed.

Lemma idle_solvePressure (c : Q) (e : DaemonFluidEngine) :
  idle_state c e ->
  (forall i j, in_grid e i j -> divergence_at e i j == 0) ->
  idle_state c (_solvePressure e)
  /\ same_scene e (_solvePressure e)
  /\ dye_at (_solvePressure e) = dye_at e.
Proof.
  intros [Hg [Hup [Hr Hu]]] Hd.
  destruct (solvePressure_frame e) as [S4 [P4 [_ [_ [W4 [H4 [_ [D4 V4]]]]]]]].
  assert (same_scene e (_solvePressure e)) as Hs.
  { split; [exact S4|]. split; [exact P4|]. split; assumption. }
  split; [|split; [exact Hs|exact D4]].
  split; [apply solvePressure_wf; exact Hg|].
  split; [rewrite P4; exact Hup|].
  split.
  - intros i j Hij. rewrite V4. apply Hr.
    apply (same_scene_in_grid e _ i j Hs). exact Hij.
  - intros i j Hij.
    apply (same_scene_in_grid e _ i j Hs) in Hij.
    rewrite (solvePressure_cell e i j Hg Hij).
    destruct Hij as [Hi Hj]. pose proof Hg as Hg0. destruct Hg0.
    apply jacobi_iter_uniform; try assumption.
    + intros a b Ha Hb. apply Hd. split; assumption.
    + intros a b Ha Hb. apply Hu. split; assumption.
Qed.

Lemma idle_subtractGradient (c : Q) (e : DaemonFluidEngine) :
  idle_state c e ->
  idle_state c (_subtractGradient e)
  /\ same_scene e (_subtractGradient e)
  /\ dye_at (_subtractGradient e) = dye_at e.
Proof.
  intros [Hg [Hup [Hr Hu]]].
  destruct (subtractGradient_frame e) as [S5 [P5 [_ [_ [W5 [H5 [Pr5 D5]]]]]]].
  assert (same_scene e (_subtractGradient e)) as Hs.
  { split; [exact S5|]. split; [exact P5|]. split; assumption. }
  split; [|split; [exact Hs|exact D5]].
  split; [apply subtractGradient_wf; exact Hg|].
  split; [rewrite P5; exact Hup|].
  split.
  - intros i j Hij.
    apply (same_scene_in_grid e _ i j Hs) in Hij.
    rewrite (subtractGradient_cell e i j Hg Hij).
    destruct Hij as [Hi Hj]. pose proof Hg as Hg0. destruct Hg0.
    destruct (gradient_cell_uniform (simWidth (grid e)) (simHeight (grid e))
                (0.5 / cellSize (settings e)) c (pressure_at e) (velocity_at e))
      with (i := i) (j := j) as [Gx Gy]; try assumption.
    { intros a b Ha Hb. apply Hu. split; assumption. }
    destruct (Hr i j (conj Hi Hj)) as [Rx Ry]. cbn [x2 y2] in *.
    split; cbn [x2 y2]; [rewrite Gx, Rx|rewrite Gy, Ry]; reflexivity.
  - intros i j Hij. rewrite Pr5. apply Hu.
    apply (same_scene_in_grid e _ i j Hs). exact Hij.
Qed.

(** The projection of a fluid at rest under a uniform pressure. *)
Lemma idle_projection (c : Q) (e : DaemonFluidEngine) :
  idle_state c e ->
  idle_state c (projection e)
  /\ same_scene e (projection e)
  /\ dye_at (projection e) = dye_at e.
Proof.
  intros Hi. unfold projection.
  destruct (idle_computeDivergence c e Hi) as [I3 [S3 [D3 Z3]]].
  destruct (idle_solvePressure c (_computeDivergence e) I3 Z3) as [I4 [S4 D4]].
  destruct (idle_subtractGradient c (_solvePressure (_computeDivergence e)) I4)
    as [I5 [S5 D5]].
  split; [exact I5|]. split.
  - exact (same_scene_trans _ _ _ (same_scene_trans _ _ _ S3 S4) S5).
  - exact (eq_trans D5 (eq_trans D4 D3)).
Qed.

(** The five velocity passes of [_step] on an idle engine. *)
Lemma idle_velocity_passes `{Builtins} (undef : varyings -> Q) (dt d c : Q)
    (e : DaemonFluidEngine) :
  idle_state c e ->
  idle_state c (projection (_applyForces undef dt (_advect VelocityField dt d e)))
  /\ same_scene e
       (projection (_applyForces undef dt (_advect VelocityField dt d e)))
  /\ dye_at (projection (_applyForces undef dt (_advect VelocityField dt d e)))
     = dye_at e.
Proof.
  intros Hi.
  destruct (idle_advect_velocity dt d c e Hi) as [I1 [S1 D1]].
  destruct (idle_applyForces undef dt c (_advect VelocityField dt d e) I1)
    as [I2 [S2 D2]].
  destruct (idle_projection c (_applyForces undef dt (_advect VelocityField dt d e)) I2)
    as [I5 [S5 D5]].
  split; [exact I5|]. split.
  - exact (same_scene_trans _ _ _ (same_scene_trans _ _ _ S1 S2) S5).
  - exact (eq_trans D5 (eq_trans D2 D1)).
Qed.

Lemma idle_updateDye `{Builtins} (undef : varyings -> Q) (dt c : Q)
    (e : DaemonFluidEngine) :
  idle_state c e ->
  idle_state c (_updateDye undef dt e)
  /\ same_scene e (_updateDye undef dt e)
  /\ forall i j,
       in_grid e i j ->
       dye_at (_updateDye undef dt e) i j
       = Vec4 (x4 (dye_at e i j) * dyeDecay (settings e))
              (y4 (dye_at e i j) * dyeDecay (settings e))
              (z4 (dye_at e i j) * dyeDecay (settings e))
              (w4 (dye_at e i j)).
Proof.
  intros Hi. pose proof Hi as [Hg [Hup [Hr Hu]]].
  destruct (updateDye_frame undef dt e) as [S6 [P6 [_ [_ [W6 [H6 [Pr6 V6]]]]]]].
  assert (same_scene e (_updateDye undef dt e)) as Hs.
  { split; [exact S6|]. split; [exact P6|]. split; assumption. }
  split; [|split; [exact Hs|]].
  - apply (idle_transfer c e); try assumption. apply updateDye_wf. exact Hg.
  - intros i j Hij. apply updateDye_idle_cell; assumption.
Qed.

Lemma idle_advect_dye (dt d c : Q) (e : DaemonFluidEngine) :
  idle_state c e ->
  idle_state c (_advect DyeField dt d e)
  /\ same_scene e (_advect DyeField dt d e)
  /\ forall i j,
       in_grid e i j ->
       veq4 (dye_at (_advect DyeField dt d e) i j) (muls4 (dye_at e i j) d).
Proof.
  intros Hi. pose proof Hi as [Hg [Hup [Hr Hu]]].
  destruct (advect_dye_frame dt d e) as [S7 [P7 [_ [_ [W7 [H7 [Pr7 V7]]]]]]].
  assert (same_scene e (_advect DyeField dt d e)) as Hs.
  { split; [exact S7|]. split; [exact P7|]. split; assumption. }
  split; [|split; [exact Hs|]].
  - apply (idle_transfer c e); try assumption. apply advect_wf. exact Hg.
  - intros i j Hij. exact (advect_at_rest DyeField dt d e Hg Hr i j Hij).
Qed.

(** The end of [_step]: the particle update and the assignment of
    [lastPointer]. *)
Lemma step_tail_frame (dt : Q) (l : vec2) (e : DaemonFluidEngine) :
  grid (set_lastPointer l (_updateParticles dt e)) = grid e
  /\ settings (set_lastPointer l (_updateParticles dt e)) = settings e
  /\ pointer (set_lastPointer l (_updateParticles dt e)) = pointer e.
Proof. repeat split. Qed.

Lemma idle_step_tail (dt c : Q) (l : vec2) (e : DaemonFluidEngine) :
  idle_state c e ->
  idle_state c (set_lastPointer l (_updateParticles dt e))
  /\ same_scene e (set_lastPointer l (_updateParticles dt e))
  /\ dye_at (set_lastPointer l (_updateParticles dt e)) = dye_at e.
Proof.
  intros Hi. pose proof Hi as [Hg _].
  destruct (step_tail_frame dt l e) as [G [S P]].
  assert (same_scene e (set_lastPointer l (_updateParticles dt e))) as Hs.
  { split; [exact S|]. split; [exact P|]. rewrite G. split; reflexivity. }
  split; [|split; [exact Hs|unfold dye_at; rewrite G; reflexivity]].
  apply (idle_transfer c e); try assumption.
  - unfold velocity_at. rewrite G. reflexivity.
  - unfold pressure_at. rewrite G. reflexivity.
Qed.

(** [_step] spelled out, with its three middle passes gathered into
    [projection]. *)
Lemma step_unfold `{Builtins} (undef : varyings -> Q) (dt : Q)
    (e : DaemonFluidEngine) :
  _step undef dt e
  = set_lastPointer
      (Vec2
         (ptr_x (pointer (_updateParticles dt
            (_advect DyeField dt
               (dyeDecay (settings (_updateDye undef dt
                  (projection (_applyForces undef dt
                     (_advect VelocityField dt
                        (velocityDissipation (settings e)) e))))))
               (_updateDye undef dt
                  (projection (_applyForces undef dt
                     (_advect VelocityField dt
                        (velocityDissipation (settings e)) e))))))))
         (ptr_y (pointer (_updateParticles dt
            (_advect DyeField dt
               (dyeDecay (settings (_updateDye undef dt
                  (projection (_applyForces undef dt
                     (_advect VelocityField dt
                        (velocityDissipation (settings e)) e))))))
               (_updateDye undef dt
                  (projection (_applyForces undef dt
                     (_advect VelocityField dt
                        (velocityDissipation (settings e)) e)))))))))
      (_updateParticles dt
         (_advect DyeField dt
            (dyeDecay (settings (_updateDye undef dt
               (projection (_applyForces undef dt
                  (_advect VelocityField dt
                     (velocityDissipation (settings e)) e))))))
            (_updateDye undef dt
               (projection (_applyForces undef dt
                  (_advect VelocityField dt
                     (velocityDissipation (settings e)) e)))))).
Proof. reflexivity. Qed.

Lemma idle_step `{Builtins} (undef : varyings -> Q) (dt c : Q)
    (e : DaemonFluidEngine) :
  idle_state c e ->
  idle_state c (_step undef dt e)
  /\ same_scene e (_step undef dt e)
  /\ forall i j,
       in_grid e i j ->
       veq4 (dye_at (_step undef dt e) i j)
            (Vec4 (x4 (dye_at e i j) * dyeDecay (settings e) * dyeDecay (settings e))
                  (y4 (dye_at e i j) * dyeDecay (settings e) * dyeDecay (settings e))
                  (z4 (dye_at e i j) * dyeDecay (settings e) * dyeDecay (settings e))
                  (w4 (dye_at e i j) * dyeDecay (settings e))).
Proof.
  intros Hi.
  destruct (idle_velocity_passes undef dt (velocityDissipation (settings e)) c e Hi)
    as [I5 [S5 D5]].
  destruct (idle_updateDye undef dt c _ I5) as [I6 [S6 D6]].
  destruct (idle_advect_dye dt
              (dyeDecay (settings (_updateDye undef dt
                 (projection (_applyForces undef dt
                    (_advect VelocityField dt (velocityDissipation (settings e)) e))))))
              c _ I6) as [I7 [S7 D7]].
  rewrite step_unfold.
  match goal with
  | |- context [set_lastPointer ?l (_updateParticles dt ?x)] =>
      destruct (idle_step_tail dt c l x I7) as [I8 [S8 D8]]
  end.
  split; [exact I8|].
  split; [exact (same_scene_trans _ _ _
                   (same_scene_trans _ _ _ (same_scene_trans _ _ _ S5 S6) S7) S8)|].
  intros i j Hij.
  pose proof (proj2 (same_scene_in_grid _ _ i j S5) Hij) as Hij5.
  pose proof (proj2 (same_scene_in_grid _ _ i j S6) Hij5) as Hij6.
  rewrite D8.
  pose proof (D7 i j Hij6) as Ha.
  rewrite (D6 i j Hij5) in Ha.
  destruct S6 as [E6 _]. destruct S5 as [E5 _].
  rewrite E6, E5, D5 in Ha.
  exact Ha.
Qed.

(** X4.  A frame without input keeps a resting fluid at rest: when the
    velocity is zero on every cell, the pressure buffer holds one and the
    same value [c] on every cell and the pointer is up, then after [_step]
    the velocity is again zero and the pressure again [c] on every cell, for
    every time step and every number of solver iterations. *)
Theorem step_keeps_rest `{Builtins} (undef : varyings -> Q) (dt c : Q)
    (e : DaemonFluidEngine) :
  grid_wf (grid e) -> isDown (pointer e) = false ->
  at_rest e -> uniform_pressure c e ->
  at_rest (_step undef dt e) /\ uniform_pressure c (_step undef dt e).
Proof.
  intros Hg Hup Hr Hp.
  destruct (idle_step undef dt c e (conj Hg (conj Hup (conj Hr Hp))))
    as [[_ [_ [R U]]] _].
  split; assumption.
Qed.


(** ** The freshly constructed engine is idle *)

Lemma initFramebuffers_pointer (e e' : DaemonFluidEngine) :
  _initFramebuffers e = Some e' ->
  pointer e' = pointer e /\ lastPointer e' = lastPointer e.
Proof.
  unfold _initFramebuffers.
  destruct (preset_at (qualityPresets e) (quality (settings e))) as [p|] eqn:Hp;
    [|discriminate].
  unfold _initParticleBuffers.
  cbn [set_settings set_grid count_fieldBuild qualityPresets settings
       set_solverIterations quality].
  rewrite Hp. intros E. injection E as <-. split; reflexivity.
Qed.

Lemma booted_pointer :
  pointer (booted no_options) = mkPointer 0 0 0 0 false false.
Proof.
  destruct (initFramebuffers_pointer _ _
              (booted_is_init no_options (mkPreset 262144 (1 / 4) 20) eq_refl))
    as [-> _].
  reflexivity.
Qed.

Lemma booted_at_rest : at_rest (booted no_options).
Proof.
  intros i j _. unfold velocity_at, read_velocity.
  rewrite (rb_velocity _ _ _
             (booted_rebuilt no_options (mkPreset 262144 (1 / 4) 20) eq_refl)).
  unfold _createDoubleFBO, fbo_get.
  destruct (velIdx (grid (booted no_options)) =? 0)%Z; split; reflexivity.
Qed.

Lemma booted_uniform_pressure : uniform_pressure 0 (booted no_options).
Proof.
  intros i j _.
  rewrite (rebuilt_pressure_zero _ _ _ i j
             (booted_rebuilt no_options (mkPreset 262144 (1 / 4) 20) eq_refl)).
  reflexivity.
Qed.

Lemma booted_settings :
  settings (booted no_options)
  = set_solverIterations 20 (default_settings no_options).
Proof.
  rewrite (rb_settings _ _ _
             (booted_rebuilt no_options (mkPreset 262144 (1 / 4) 20) eq_refl)).
  reflexivity.
Qed.

Lemma with_dye_frame (f : Z -> Z -> vec4) (e : DaemonFluidEngine) :
  settings (with_dye f e) = settings e
  /\ pointer (with_dye f e) = pointer e
  /\ simWidth (grid (with_dye f e)) = simWidth (grid e)
  /\ simHeight (grid (with_dye f e)) = simHeight (grid e)
  /\ pressure_at (with_dye f e) = pressure_at e
  /\ velocity_at (with_dye f e) = velocity_at e.
Proof. repeat split. Qed.

Lemma with_dye_reads (f : Z -> Z -> vec4) (e : DaemonFluidEngine) (i j : Z) :
  dye_at (with_dye f e) i j = f i j.
Proof.
  unfold dye_at, read_dye, with_dye. cbn [set_grid grid set_dye dyeFBO dyeIdx].
  rewrite fbo_get_set. reflexivity.
Qed.

Lemma with_dye_wf (f : Z -> Z -> vec4) (e : DaemonFluidEngine) :
  grid_wf (grid e) -> grid_wf (grid (with_dye f e)).
Proof.
  intros Hg. destruct Hg. unfold with_dye. cbn [set_grid grid].
  destruct (fbo_set_sized (simWidth (grid e)) (simHeight (grid e)) (dyeFBO (grid e))
              (dyeIdx (grid e))
              (with_texels f (fbo_get (dyeFBO (grid e)) (dyeIdx (grid e)))))
    as [H0 H1]; try assumption.
  { destruct (fbo_get_sized (simWidth (grid e)) (simHeight (grid e))
                (dyeFBO (grid e)) (dyeIdx (grid e))) as [Sw Sh]; try assumption.
    split; assumption. }
  constructor; assumption.
Qed.

Lemma dyed_engine_facts :
  grid_wf (grid dyed_engine)
  /\ isDown (pointer dyed_engine) = false
  /\ at_rest dyed_engine
  /\ uniform_pressure 0 dyed_engine
  /\ dyeDecay (settings dyed_engine) = 0.98
  /\ (forall i j, in_grid dyed_engine i j <-> (0 <= i < 480)%Z /\ (0 <= j < 270)%Z)
  /\ forall i j, dye_at dyed_engine i j = Vec4 1 0.5 0.25 1.
Proof.
  unfold dyed_engine.
  destruct (with_dye_frame (fun _ _ => Vec4 1 0.5 0.25 1) (booted no_options))
    as [S [P [W [H [Pr V]]]]].
  split; [apply with_dye_wf; exact booted_grid_wf|].
  split; [rewrite P, booted_pointer; reflexivity|].
  split; [exact (at_rest_same _ _ W H V booted_at_rest)|].
  split; [exact (uniform_pressure_same 0 _ _ W H Pr booted_uniform_pressure)|].
  split; [rewrite S, booted_settings; reflexivity|].
  split.
  { intros i j. unfold in_grid. rewrite W, H.
    destruct booted_extent as [-> ->]. reflexivity. }
  intros i j. apply with_dye_reads.
Qed.

(* ================================================================== *)
(** * Ping-pong bookkeeping *)
(* ================================================================== *)

Lemma projection_frame (e : DaemonFluidEngine) :
  settings (projection e) = settings e
  /\ pointer (projection e) = pointer e
  /\ particleSys (projection e) = particleSys e
  /\ simWidth (grid (projection e)) = simWidth (grid e)
  /\ simHeight (grid (projection e)) = simHeight (grid e)
  /\ velIdx (grid (projection e)) = (1 - velIdx (grid e))%Z
  /\ dyeIdx (grid (projection e)) = dyeIdx (grid e)
  /\ pressIdx (grid (projection e))
     = (if Nat.even (Z.to_nat (solverIterations (settings e)))
        then pressIdx (grid e) else 1 - pressIdx (grid e))%Z.
Proof.
  unfold projection, _subtractGradient, _solvePressure.
  cbn [set_grid grid settings pointer particleSys set_velocity
       simWidth simHeight velIdx dyeIdx pressIdx].
  destruct (pressure_loop_keeps
              (Z.to_nat (solverIterations (settings (_computeDivergence e))))
              (- cellSize (settings (_computeDivergence e))
               * cellSize (settings (_computeDivergence e)))
              (grid (_computeDivergence e)))
    as [-> [-> [_ [_ [_ [-> [_ [-> ->]]]]]]]].
  repeat split.
Qed.

(** The two velocity passes before the projection, and the projection. *)
Lemma velocity_passes_frame `{Builtins} (undef : varyings -> Q) (dt d : Q)
    (e : DaemonFluidEngine) :
  settings (projection (_applyForces undef dt (_advect VelocityField dt d e)))
  = settings e
  /\ pointer (projection (_applyForces undef dt (_advect VelocityField dt d e)))
     = pointer e
  /\ particleSys (projection (_applyForces undef dt (_advect VelocityField dt d e)))
     = particleSys e
  /\ simWidth (grid (projection (_applyForces undef dt
                                   (_advect VelocityField dt d e))))
     = simWidth (grid e)
  /\ simHeight (grid (projection (_applyForces undef dt
                                    (_advect VelocityField dt d e))))
     = simHeight (grid e)
  /\ velIdx (grid (projection (_applyForces undef dt
                                 (_advect VelocityField dt d e))))
     = (1 - velIdx (grid e))%Z
  /\ dyeIdx (grid (projection (_applyForces undef dt
                                 (_advect VelocityField dt d e))))
     = dyeIdx (grid e)
  /\ pressIdx (grid (projection (_applyForces undef dt
                                   (_advect VelocityField dt d e))))
     = (if Nat.even (Z.to_nat (solverIterations (settings e)))
        then pressIdx (grid e) else 1 - pressIdx (grid e))%Z.
Proof.
  destruct (projection_frame (_applyForces undef dt (_advect VelocityField dt d e)))
    as [-> [-> [-> [-> [-> [-> [-> ->]]]]]]].
  cbn [_applyForces _advect set_grid grid settings pointer particleSys set_velocity
       simWidth simHeight velIdx dyeIdx pressIdx].
  repeat split. lia.
Qed.

(** The dye passes, the particle update and the assignment of
    [lastPointer]. *)
Lemma dye_passes_frame `{Builtins} (undef : varyings -> Q) (dt k : Q) (l : vec2)
    (e : DaemonFluidEngine) :
  settings (set_lastPointer l (_updateParticles dt
              (_advect DyeField dt k (_updateDye undef dt e)))) = settings e
  /\ pointer (set_lastPointer l (_updateParticles dt
                (_advect DyeField dt k (_updateDye undef dt e)))) = pointer e
  /\ lastPointer (set_lastPointer l (_updateParticles dt
                    (_advect DyeField dt k (_updateDye undef dt e)))) = l
  /\ simWidth (grid (set_lastPointer l (_updateParticles dt
                       (_advect DyeField dt k (_updateDye undef dt e)))))
     = simWidth (grid e)
  /\ simHeight (grid (set_lastPointer l (_updateParticles dt
                        (_advect DyeField dt k (_updateDye undef dt e)))))
     = simHeight (grid e)
  /\ velIdx (grid (set_lastPointer l (_updateParticles dt
                     (_advect DyeField dt k (_updateDye undef dt e)))))
     = velIdx (grid e)
  /\ pressIdx (grid (set_lastPointer l (_updateParticles dt
                       (_advect DyeField dt k (_updateDye undef dt e)))))
     = pressIdx (grid e)
  /\ dyeIdx (grid (set_lastPointer l (_updateParticles dt
                     (_advect DyeField dt k (_updateDye undef dt e)))))
     = dyeIdx (grid e)
  /\ particleReadIdx (particleSys (set_lastPointer l (_updateParticles dt
                        (_advect DyeField dt k (_updateDye undef dt e)))))
     = (1 - particleReadIdx (particleSys e))%Z
  /\ particleDataSize (particleSys (set_lastPointer l (_updateParticles dt
                         (_advect DyeField dt k (_updateDye undef dt e)))))
     = particleDataSize (particleSys e).
Proof.
  cbn [set_lastPointer _updateParticles _advect _updateDye set_grid set_particleSys
       grid settings pointer lastPointer particleSys set_dye
       simWidth simHeight velIdx dyeIdx pressIdx particleReadIdx particleDataSize].
  repeat split. lia.
Qed.

(** What a whole frame leaves alone, and where it leaves the read
    indices. *)
Lemma step_frame `{Builtins} (undef : varyings -> Q) (dt : Q)
    (e : DaemonFluidEngine) :
  settings (_step undef dt e) = settings e
  /\ pointer (_step undef dt e) = pointer e
  /\ simWidth (grid (_step undef dt e)) = simWidth (grid e)
  /\ simHeight (grid (_step undef dt e)) = simHeight (grid e)
  /\ velIdx (grid (_step undef dt e)) = (1 - velIdx (grid e))%Z
  /\ dyeIdx (grid (_step undef dt e)) = dyeIdx (grid e)
  /\ pressIdx (grid (_step undef dt e))
     = (if Nat.even (Z.to_nat (solverIterations (settings e)))
        then pressIdx (grid e) else 1 - pressIdx (grid e))%Z
  /\ particleReadIdx (particleSys (_step undef dt e))
     = (1 - particleReadIdx (particleSys e))%Z
  /\ particleDataSize (particleSys (_step undef dt e))
     = particleDataSize (particleSys e)
  /\ lastPointer (_step undef dt e)
     = Vec2 (ptr_x (pointer e)) (ptr_y (pointer e)).
Proof.
  rewrite step_unfold.
  destruct (velocity_passes_frame undef dt (velocityDissipation (settings e)) e)
    as [S5 [P5 [Q5 [W5 [H5 [V5 [D5 I5]]]]]]].
  match goal with
  | |- context [set_lastPointer ?l (_updateParticles dt
                  (_advect DyeField dt ?k (_updateDye undef dt ?x)))] =>
      destruct (dye_passes_frame undef dt k l x)
        as [S8 [P8 [L8 [W8 [H8 [V8 [I8 [D8 [R8 Z8]]]]]]]]]
  end.
  split; [exact (eq_trans S8 S5)|].
  split; [exact (eq_trans P8 P5)|].
  split; [exact (eq_trans W8 W5)|].
  split; [exact (eq_trans H8 H5)|].
  split; [exact (eq_trans V8 V5)|].
  split; [exact (eq_trans D8 D5)|].
  split; [exact (eq_trans I8 I5)|].
  split; [rewrite R8, Q5; reflexivity|].
  split; [rewrite Z8, Q5; reflexivity|].
  rewrite L8.
  match goal with
  | |- context [pointer (_updateParticles dt ?y)] =>
      destruct (updateParticles_frame dt y) as [_ [-> _]]
  end.
  match goal with
  | |- context [pointer (_advect DyeField dt ?k ?y)] =>
      destruct (advect_dye_frame dt k y) as [_ [-> _]]
  end.
  match goal with
  | |- context [pointer (_updateDye undef dt ?y)] =>
      destruct (updateDye_frame undef dt y) as [_ [-> _]]
  end.
  rewrite P5. reflexivity.
Qed.

Lemma slot_flip (idx : Z) : slot idx -> slot (1 - idx).
Proof. unfold slot. lia. Qed.

(** Writing the other slot leaves the slot that is read untouched. *)
Lemma fbo_get_other (d : doubleFBO) (idx : Z) (t : renderTarget) :
  slot idx -> fbo_get (fbo_set d (1 - idx) t) idx = fbo_get d idx.
Proof. intros [-> | ->]; reflexivity. Qed.

(** X6.  The read indices over one frame.  [_step] flips the velocity index
    (three velocity passes), brings the dye index back to where it was (two
    dye passes), flips the particle index, and flips the pressure index
    exactly when [solverIterations] is odd; an index that was one of the two
    slots [0] and [1] is one of them afterwards.  Settings, grid extent and
    pointer are untouched and [lastPointer] ends up equal to the pointer
    position. *)
Theorem step_read_indices `{Builtins} (undef : varyings -> Q) (dt : Q)
    (e : DaemonFluidEngine) :
  velIdx (grid (_step undef dt e)) = (1 - velIdx (grid e))%Z
  /\ dyeIdx (grid (_step undef dt e)) = dyeIdx (grid e)
  /\ pressIdx (grid (_step undef dt e))
     = (if Nat.even (Z.to_nat (solverIterations (settings e)))
        then pressIdx (grid e) else 1 - pressIdx (grid e))%Z
  /\ particleReadIdx (particleSys (_step undef dt e))
     = (1 - particleReadIdx (particleSys e))%Z
  /\ (slot (velIdx (grid e)) -> slot (velIdx (grid (_step undef dt e))))
  /\ (slot (pressIdx (grid e)) -> slot (pressIdx (grid (_step undef dt e))))
  /\ (slot (particleReadIdx (particleSys e)) ->
      slot (particleReadIdx (particleSys (_step undef dt e))))
  /\ settings (_step undef dt e) = settings e
  /\ simWidth (grid (_step undef dt e)) = simWidth (grid e)
  /\ simHeight (grid (_step undef dt e)) = simHeight (grid e)
  /\ pointer (_step undef dt e) = pointer e
  /\ lastPointer (_step undef dt e) = Vec2 (ptr_x (pointer e)) (ptr_y (pointer e)).
Proof.
  destruct (step_frame undef dt e)
    as [S [P [W [Hh [V [D [I [R [_ L]]]]]]]]].
  split; [exact V|]. split; [exact D|]. split; [exact I|]. split; [exact R|].
  split; [rewrite V; apply slot_flip|].
  split.
  { rewrite I. destruct (Nat.even _); [tauto|apply slot_flip]. }
  split; [rewrite R; apply slot_flip|].
  repeat split; assumption.
Qed.

(** X7.  No pass draws into the texture it samples.  When a read index is
    one of the two slots, the pass that reads that slot of a double buffer
    writes the other one: the target it read from is, texel for texel, what
    it was before the pass. *)
Theorem passes_keep_their_source `{Builtins} (undef : varyings -> Q) (dt d : Q)
    (e : DaemonFluidEngine) :
  (slot (velIdx (grid e)) ->
   fbo_get (velocityFBO (grid (_advect VelocityField dt d e))) (velIdx (grid e))
   = fbo_get (velocityFBO (grid e)) (velIdx (grid e))
   /\ fbo_get (velocityFBO (grid (_applyForces undef dt e))) (velIdx (grid e))
      = fbo_get (velocityFBO (grid e)) (velIdx (grid e))
   /\ fbo_get (velocityFBO (grid (_subtractGradient e))) (velIdx (grid e))
      = fbo_get (velocityFBO (grid e)) (velIdx (grid e)))
  /\ (slot (dyeIdx (grid e)) ->
      fbo_get (dyeFBO (grid (_advect DyeField dt d e))) (dyeIdx (grid e))
      = fbo_get (dyeFBO (grid e)) (dyeIdx (grid e))
      /\ fbo_get (dyeFBO (grid (_updateDye undef dt e))) (dyeIdx (grid e))
         = fbo_get (dyeFBO (grid e)) (dyeIdx (grid e)))
  /\ (slot (pressIdx (grid e)) ->
      forall alpha,
        fbo_get (pressureFBO (pressure_sweep alpha (grid e))) (pressIdx (grid e))
        = fbo_get (pressureFBO (grid e)) (pressIdx (grid e)))
  /\ (slot (particleReadIdx (particleSys e)) ->
      fbo_get (particleData (particleSys (_updateParticles dt e)))
              (particleReadIdx (particleSys e))
      = fbo_get (particleData (particleSys e)) (particleReadIdx (particleSys e))).
Proof.
  split; [|split; [|split]].
  - intros Hs.
    unfold _advect, _applyForces, _subtractGradient.
    cbn [set_grid grid set_velocity velocityFBO].
    rewrite !(fbo_get_other _ _ _ Hs). repeat split.
  - intros Hs.
    unfold _advect, _updateDye.
    cbn [set_grid grid set_dye dyeFBO].
    rewrite !(fbo_get_other _ _ _ Hs). repeat split.
  - intros Hs alpha. unfold pressure_sweep. cbn [set_pressure pressureFBO].
    apply fbo_get_other. exact Hs.
  - intros Hs. unfold _updateParticles.
    cbn [set_particleSys particleSys particleData].
    apply fbo_get_other. exact Hs.
Qed.

(** X2.  While the pointer is up the force pass is a plain copy: on every
    cell it writes the velocity it read, with [0] and [1] in the two unused
    channels, and it makes the written buffer the one to read. *)
Theorem applyForces_pointer_up `{Builtins} (undef : varyings -> Q) (dt : Q)
    (e : DaemonFluidEngine) :
  grid_wf (grid e) -> isDown (pointer e) = false ->
  velIdx (grid (_applyForces undef dt e)) = (1 - velIdx (grid e))%Z
  /\ forall i j,
       in_grid e i j ->
       field_at VelocityField (_applyForces undef dt e) i j
       = vec4_2ss (velocity_at e i j) 0 1.
Proof.
  intros Hg Hup. split; [reflexivity|].
  intros i j Hij. apply applyForces_idle_cell; assumption.
Qed.

Lemma with_velocity_pointer (f : Z -> Z -> vec2) (e : DaemonFluidEngine) :
  pointer (with_velocity f e) = pointer e.
Proof. reflexivity. Qed.

Lemma checker_engine_pointer_up : isDown (pointer checker_engine) = false.
Proof.
  unfold checker_engine. rewrite with_velocity_pointer, booted_pointer. reflexivity.
Qed.

Lemma applyForces_pointer_up_witness :
  field_at VelocityField
    (@_applyForces approx_builtins (fun _ => 0) 0.016 checker_engine) 3 4
  = vec4_2ss (velocity_at checker_engine 3 4) 0 1.
Proof.
  destruct (@applyForces_pointer_up approx_builtins (fun _ => 0) 0.016 checker_engine
              checker_engine_wf checker_engine_pointer_up) as [_ Hc].
  apply Hc. apply checker_engine_in_grid. lia.
Defined.



Lemma step_keeps_rest_witness :
  veq2 (velocity_at (@_step approx_builtins (fun _ => 0) 0.016 dyed_engine) 3 4)
       (Vec2 0 0)
  /\ pressure_at (@_step approx_builtins (fun _ => 0) 0.016 dyed_engine) 3 4 == 0.
Proof.
  destruct dyed_engine_facts as [Hg [Hup [Hr [Hp [_ [Hin _]]]]]].
  destruct (@step_keeps_rest approx_builtins (fun _ => 0) 0.016 0 dyed_engine
              Hg Hup Hr Hp) as [R U].
  destruct (@step_frame approx_builtins (fun _ => 0) 0.016 dyed_engine)
    as [_ [_ [W [H _]]]].
  assert (in_grid (@_step approx_builtins (fun _ => 0) 0.016 dyed_engine) 3 4) as Hij.
  { apply (in_grid_same dyed_engine _ 3 4 W H). apply Hin. lia. }
  split; [apply R|apply U]; exact Hij.
Defined.


Lemma booted_slots :
  velIdx (grid (booted no_options)) = 0%Z
  /\ pressIdx (grid (booted no_options)) = 0%Z
  /\ dyeIdx (grid (booted no_options)) = 0%Z
  /\ particleReadIdx (particleSys (booted no_options)) = 0%Z.
Proof.
  pose proof (booted_rebuilt no_options (mkPreset 262144 (1 / 4) 20) eq_refl) as Hr.
  destruct (rb_indices _ _ _ Hr) as [-> [-> ->]].
  rewrite (rb_readIdx _ _ _ Hr). repeat split.
Qed.

Lemma passes_keep_their_source_witness :
  fbo_get (velocityFBO (grid (_subtractGradient (booted no_options))))
          (velIdx (grid (booted no_options)))
  = fbo_get (velocityFBO (grid (booted no_options)))
            (velIdx (grid (booted no_options)))
  /\ fbo_get (particleData (particleSys (_updateParticles 0.016 (booted no_options))))
             (particleReadIdx (particleSys (booted no_options)))
     = fbo_get (particleData (particleSys (booted no_options)))
               (particleReadIdx (particleSys (booted no_options))).
Proof.
  destruct booted_slots as [Sv [_ [_ Sp]]].
  destruct (@passes_keep_their_source approx_builtins (fun _ => 0) 0.016 0.999
              (booted no_options)) as [Hv [_ [_ Hq]]].
  split.
  - apply Hv. left. exact Sv.
  - apply Hq. left. exact Sp.
Defined.

(* ================================================================== *)
(** * The stencils at the walls *)
(* ================================================================== *)

(** The one-axis difference of the divergence stencil on a constant
    field. *)
Lemma wall_difference (n k : Z) (u : Q) :
  (0 < n)%Z -> (0 <= k < n)%Z ->
  flip n (k + 1) * u - flip n (k - 1) * u == 2 * wall_sign n k * u.
Proof.
  intros Hn Hk. unfold wall_sign.
  destruct (Z.eq_dec k 0) as [E0|E0]; destruct (Z.eq_dec k (n - 1)) as [E1|E1].
  - rewrite (flip_outside n (k + 1)), (flip_outside n (k - 1)) by lia.
    rewrite (proj2 (Z.eqb_eq k 0) E0), (proj2 (Z.eqb_eq k (n - 1)) E1). ring.
  - rewrite (flip_inside n (k + 1)), (flip_outside n (k - 1)) by lia.
    rewrite (proj2 (Z.eqb_eq k 0) E0), (proj2 (Z.eqb_neq k (n - 1)) E1). ring.
  - rewrite (flip_outside n (k + 1)), (flip_inside n (k - 1)) by lia.
    rewrite (proj2 (Z.eqb_neq k 0) E0), (proj2 (Z.eqb_eq k (n - 1)) E1). ring.
  - rewrite (flip_inside n (k + 1)), (flip_inside n (k - 1)) by lia.
    rewrite (proj2 (Z.eqb_neq k 0) E0), (proj2 (Z.eqb_neq k (n - 1)) E1). ring.
Qed.

(** X8.  The divergence pass on a uniform flow [(u, v)].  Away from the
    walls the divergence is zero.  On the first and last cell of an axis the
    neighbour outside the domain is the border cell itself with its sign
    flipped, so the stencil sees the wall as a source or a sink: the
    divergence is [halfRdx * 2 * u] on the left column, [- halfRdx * 2 * u]
    on the right one, likewise with [v] on the bottom and top rows, and the
    two contributions add up in the corners. *)
Theorem divergence_of_uniform_flow (e : DaemonFluidEngine) (u v : Q) (i j : Z) :
  grid_wf (grid e) ->
  (forall a b, in_grid e a b -> veq2 (velocity_at e a b) (Vec2 u v)) ->
  in_grid e i j ->
  divergence_of e i j
  == 0.5 / cellSize (settings e)
     * (2 * wall_sign (simWidth (grid e)) i * u
        + 2 * wall_sign (simHeight (grid e)) j * v).
Proof.
  intros Hg Hu Hij.
  rewrite (divergence_of_cells e i j Hg Hij).
  destruct Hij as [Hi Hj]. pose proof Hg as Hg0. destruct Hg0.
  rewrite (divergence_cell_proper _ _ _ (velocity_at e) (fun _ _ => Vec2 u v));
    try assumption.
  - unfold divergence_cell. cbn [x2 y2].
    rewrite (wall_difference (simWidth (grid e)) i u) by assumption.
    rewrite (wall_difference (simHeight (grid e)) j v) by assumption.
    reflexivity.
  - intros a b Ha Hb. apply Hu. split; assumption.
Qed.

Lemma with_particles_frame (f : Z -> Z -> vec4) (e : DaemonFluidEngine) :
  grid (with_particles f e) = grid e
  /\ settings (with_particles f e) = settings e
  /\ pointer (with_particles f e) = pointer e.
Proof. repeat split. Qed.

Lemma flow_engine_facts :
  grid_wf (grid flow_engine)
  /\ cellSize (settings flow_engine) = 32
  /\ simWidth (grid flow_engine) = 480%Z
  /\ simHeight (grid flow_engine) = 270%Z
  /\ forall a b, velocity_at flow_engine a b = Vec2 (640 # 9) 0.
Proof.
  unfold flow_engine.
  destruct (with_particles_frame (fun _ _ => Vec4 0.999 0 0 0)
              (with_velocity (fun _ _ => Vec2 (640 # 9) 0) (booted no_options)))
    as [G [S _]].
  unfold velocity_at. rewrite G, S.
  destruct (with_velocity_keeps (fun _ _ => Vec2 (640 # 9) 0) (booted no_options))
    as [-> [-> [-> _]]].
  split; [apply with_velocity_wf; exact booted_grid_wf|].
  split; [rewrite booted_settings; reflexivity|].
  destruct booted_extent as [-> ->].
  split; [reflexivity|]. split; [reflexivity|].
  intros a b.
  change (velocity_at (with_velocity (fun _ _ => Vec2 (640 # 9) 0) (booted no_options))
            a b = Vec2 (640 # 9) 0).
  rewrite with_velocity_reads. reflexivity.
Qed.

Lemma divergence_of_uniform_flow_witness :
  divergence_of flow_engine 0 5 == 20 # 9
  /\ divergence_of flow_engine 5 5 == 0
  /\ divergence_of flow_engine 479 5 == - (20 # 9).
Proof.
  destruct flow_engine_facts as [Hg [Hc [Hw [Hh Hv]]]].
  assert (forall i j, (0 <= i < 480)%Z -> (0 <= j < 270)%Z ->
            divergence_of flow_engine i j
            == 0.5 / 32 * (2 * wall_sign 480 i * (640 # 9) + 2 * wall_sign 270 j * 0))
    as Hd.
  { intros i j Hi Hj.
    rewrite (divergence_of_uniform_flow flow_engine (640 # 9) 0 i j Hg).
    - rewrite Hc, Hw, Hh. reflexivity.
    - intros a b _. rewrite Hv. split; reflexivity.
    - unfold in_grid. rewrite Hw, Hh. split; assumption. }
  split; [|split]; rewrite Hd by lia; reflexivity.
Defined.

(* ================================================================== *)
(** * Bounds on the pressure solve *)
(* ================================================================== *)

Lemma jacobi_cell_bounds (W H : Z) (alpha s lo hi : Q) (div p : Z -> Z -> Q) :
  (0 < W)%Z -> (0 < H)%Z ->
  (forall a b, (0 <= a < W)%Z -> (0 <= b < H)%Z ->
               - s <= alpha * div a b * 0.25 <= s) ->
  (forall a b, (0 <= a < W)%Z -> (0 <= b < H)%Z -> lo <= p a b <= hi) ->
  forall i j, (0 <= i < W)%Z -> (0 <= j < H)%Z ->
              lo - s <= jacobi_cell W H alpha div p i j <= hi + s.
Proof.
  intros HW HH Hd Hp i j Hi Hj. unfold jacobi_cell.
  pose proof (Hp (nb W (i - 1)) j (nb_range W (i - 1) HW) Hj) as B1.
  pose proof (Hp (nb W (i + 1)) j (nb_range W (i + 1) HW) Hj) as B2.
  pose proof (Hp i (nb H (j - 1)) Hi (nb_range H (j - 1) HH)) as B3.
  pose proof (Hp i (nb H (j + 1)) Hi (nb_range H (j + 1) HH)) as B4.
  pose proof (Hd i j Hi Hj) as B5.
  split; lra.
Qed.

Lemma jacobi_iter_bounds (n : nat) (W H : Z) (alpha s : Q) (div : Z -> Z -> Q) :
  (0 < W)%Z -> (0 < H)%Z ->
  (forall a b, (0 <= a < W)%Z -> (0 <= b < H)%Z ->
               - s <= alpha * div a b * 0.25 <= s) ->
  forall lo hi p,
    (forall a b, (0 <= a < W)%Z -> (0 <= b < H)%Z -> lo <= p a b <= hi) ->
    forall i j, (0 <= i < W)%Z -> (0 <= j < H)%Z ->
                lo - inject_Z (Z.of_nat n) * s
                <= jacobi_iter n W H alpha div p i j
                <= hi + inject_Z (Z.of_nat n) * s.
Proof.
  intros HW HH Hd. induction n as [|n IH]; intros lo hi p Hp i j Hi Hj.
  - cbn [jacobi_iter]. change (inject_Z (Z.of_nat 0)) with 0.
    pose proof (Hp i j Hi Hj). split; lra.
  - cbn [jacobi_iter].
    pose proof (IH (lo - s) (hi + s) (jacobi_cell W H alpha div p)
                  (jacobi_cell_bounds W H alpha s lo hi div p HW HH Hd Hp)
                  i j Hi Hj) as B.
    rewrite Nat2Z.inj_succ. unfold Z.succ. rewrite inject_Z_succ.
    split; lra.
Qed.

(** X9.  The pressure solve cannot blow up.  If the divergence is at most
    [D] in absolute value and the pressure lies between [lo] and [hi] on
    every cell, then after [_solvePressure] the pressure of every cell lies
    between [lo - n * s] and [hi + n * s], where [n] is the number of sweeps
    run and [s = cellSize^2 * D / 4]: a sweep averages the four neighbours,
    which cannot leave the range, and adds a source term of size at most
    [s].  With [D = 0] this is the discrete maximum principle. *)
Theorem solvePressure_bounds (e : DaemonFluidEngine) (lo hi D : Q) :
  grid_wf (grid e) ->
  (forall i j, in_grid e i j -> Qabs (divergence_at e i j) <= D) ->
  (forall i j, in_grid e i j -> lo <= pressure_at e i j <= hi) ->
  forall i j,
    in_grid e i j ->
    lo - inject_Z (Z.of_nat (Z.to_nat (solverIterations (settings e))))
         * (cellSize (settings e) * cellSize (settings e) * D * 0.25)
    <= pressure_at (_solvePressure e) i j
    <= hi + inject_Z (Z.of_nat (Z.to_nat (solverIterations (settings e))))
            * (cellSize (settings e) * cellSize (settings e) * D * 0.25).
Proof.
  intros Hg Hd Hp i j Hij.
  rewrite (solvePressure_cell e i j Hg Hij).
  destruct Hij as [Hi Hj]. pose proof Hg as Hg0. destruct Hg0.
  apply jacobi_iter_bounds; try assumption.
  - intros a b Ha Hb.
    pose proof (proj1 (Qabs_Qle_condition _ _) (Hd a b (conj Ha Hb))) as [D1 D2].
    set (cs := cellSize (settings e)) in *.
    set (dv := divergence_at e a b) in *.
    assert (0 <= cs * cs) as Hsq by nra.
    split; nra.
  - intros a b Ha Hb. apply Hp. split; assumption.
Qed.

(* ================================================================== *)
(** * The pressure gradient *)
(* ================================================================== *)

(** X10.  The gradient pass only sees pressure differences: with a constant
    [c] added to the pressure of every cell it writes the same velocity on
    every cell, also next to the walls, where the neighbour outside the
    domain is the border cell itself. *)
Theorem gradient_ignores_pressure_offset (c : Q) (e : DaemonFluidEngine) (i j : Z) :
  grid_wf (grid e) -> in_grid e i j ->
  veq2 (velocity_at
          (_subtractGradient (with_pressure (fun a b => pressure_at e a b + c) e)) i j)
       (velocity_at (_subtractGradient e) i j).
Proof.
  intros Hg Hij.
  pose proof (with_pressure_wf (fun a b => pressure_at e a b + c) e Hg) as Hg'.
  destruct (with_pressure_keeps (fun a b => pressure_at e a b + c) e)
    as [S [W [H V]]].
  assert (in_grid (with_pressure (fun a b => pressure_at e a b + c) e) i j) as Hij'.
  { unfold in_grid. rewrite W, H. exact Hij. }
  rewrite (subtractGradient_cell _ i j Hg' Hij').
  rewrite (subtractGradient_cell e i j Hg Hij).
  rewrite S, W, H, V.
  unfold gradient_cell, veq2. cbn [sub2 smul2 x2 y2].
  rewrite !with_pressure_reads. split; ring.
Qed.

Lemma gradient_ignores_pressure_offset_witness :
  veq2 (velocity_at
          (_subtractGradient
             (with_pressure (fun a b => pressure_at checker_engine a b + 7)
                            checker_engine)) 0 5)
       (velocity_at (_subtractGradient checker_engine) 0 5).
Proof.
  apply (gradient_ignores_pressure_offset 7 checker_engine 0 5).
  - exact checker_engine_wf.
  - apply checker_engine_in_grid. lia.
Defined.

(* ================================================================== *)
(** * Particles as tracers *)
(* ================================================================== *)

Lemma modQ_comp (x y : Q) : x == y -> modQ x 2 == modQ y 2.
Proof.
  intros E. unfold modQ, floorQ.
  assert (Qfloor (x / 2) = Qfloor (y / 2)) as ->
    by (apply Qfloor_comp; rewrite E; reflexivity).
  rewrite E. reflexivity.
Qed.

(** The particle a fragment of the update pass reads is the one stored in
    its own texel. *)
Lemma particle_fetch (e : DaemonFluidEngine) (a : Q) (i j : Z) :
  particles_wf e ->
  (0 <= i < particleDataSize (particleSys e))%Z ->
  (0 <= j < particleDataSize (particleSys e))%Z ->
  texture2D (texture (fbo_get (particleData (particleSys e))
                              (particleReadIdx (particleSys e))))
            (v_texCoord (fragment (particleDataSize (particleSys e))
                                  (particleDataSize (particleSys e)) a i j))
  = particle_at e i j.
Proof.
  intros [Hd [S0 S1]] Hi Hj. unfold particle_at.
  apply fetch_own_texel; assumption.
Qed.

Lemma updateParticles_tracer (dt : Q) (e : DaemonFluidEngine) (i j : Z) :
  particles_wf e ->
  (0 <= i < particleDataSize (particleSys e))%Z ->
  (0 <= j < particleDataSize (particleSys e))%Z ->
  z4 (particle_at (_updateParticles dt e) i j)
  == x2 (flow_at e (xy (particle_at e i j)))
  /\ w4 (particle_at (_updateParticles dt e) i j)
     == y2 (flow_at e (xy (particle_at e i j)))
  /\ x4 (particle_at (_updateParticles dt e) i j)
     == modQ (x4 (particle_at e i j)
              + dt * x2 (flow_at e (xy (particle_at e i j)))
                * particleSpeed (settings e) + 1) 2 - 1
  /\ y4 (particle_at (_updateParticles dt e) i j)
     == modQ (y4 (particle_at e i j)
              + dt * y2 (flow_at e (xy (particle_at e i j)))
                * particleSpeed (settings e) + 1) 2 - 1.
Proof.
  intros Hp Hi Hj.
  rewrite (updateParticles_cell dt e i j Hi Hj).
  unfold particleUpdate_main. rewrite (particle_fetch e 0 i j Hp Hi Hj).
  fold (flow_at e (xy (particle_at e i j))).
  set (f := flow_at e (xy (particle_at e i j))).
  set (p := particle_at e i j).
  cbn [vec4_22 subs2 mods2 adds2 add2 muls2 smul2 sub2 zw xy x2 y2 x4 y4 z4 w4].
  split; [ring|]. split; [ring|].
  split; (apply Qplus_comp; [|reflexivity]); apply modQ_comp; ring.
Qed.

(** X11.  Particles are massless tracers.  [_updateParticles] binds
    [u_drag = 1.0], so the velocity a particle is left with is the flow
    velocity sampled at its position, whatever velocity it had before, and
    its new position is the old one moved by [dt * particleSpeed] times that
    flow velocity and then wrapped. *)
Theorem particles_follow_the_flow (dt : Q) (e : DaemonFluidEngine) (i j : Z) :
  particles_wf e ->
  (0 <= i < particleDataSize (particleSys e))%Z ->
  (0 <= j < particleDataSize (particleSys e))%Z ->
  z4 (particle_at (_updateParticles dt e) i j)
  == x2 (flow_at e (xy (particle_at e i j)))
  /\ w4 (particle_at (_updateParticles dt e) i j)
     == y2 (flow_at e (xy (particle_at e i j)))
  /\ x4 (particle_at (_updateParticles dt e) i j)
     == modQ (x4 (particle_at e i j)
              + dt * x2 (flow_at e (xy (particle_at e i j)))
                * particleSpeed (settings e) + 1) 2 - 1
  /\ y4 (particle_at (_updateParticles dt e) i j)
     == modQ (y4 (particle_at e i j)
              + dt * y2 (flow_at e (xy (particle_at e i j)))
                * particleSpeed (settings e) + 1) 2 - 1.
Proof. exact (updateParticles_tracer dt e i j). Qed.

Lemma rebuilt_particles_wf (e e' : DaemonFluidEngine) (p : Preset) :
  rebuilt_from e p e' -> (1 <= particles p)%Z -> particles_wf e'.
Proof.
  intros Hr Hn. unfold particles_wf.
  rewrite (rb_dataSize _ _ _ Hr), (rb_particle0 _ _ _ Hr), (rb_particle1 _ _ _ Hr).
  destruct (Math_ceil_sqrt_spec (particles p) Hn) as [Hpos _].
  split; [exact Hpos|]. split; split; reflexivity.
Qed.

Lemma booted_particles_wf : particles_wf (booted no_options).
Proof.
  apply (rebuilt_particles_wf (desktop no_options) (booted no_options)
           (mkPreset 262144 (1 / 4) 20)).
  - exact (booted_rebuilt no_options (mkPreset 262144 (1 / 4) 20) eq_refl).
  - cbn [particles]. lia.
Qed.

Lemma booted_dataSize : particleDataSize (particleSys (booted no_options)) = 512%Z.
Proof.
  rewrite (rb_dataSize _ _ _
             (booted_rebuilt no_options (mkPreset 262144 (1 / 4) 20) eq_refl)).
  reflexivity.
Qed.

Lemma particles_follow_the_flow_witness :
  z4 (particle_at (_updateParticles 0.016 (booted no_options)) 5 7)
  == x2 (flow_at (booted no_options) (xy (particle_at (booted no_options) 5 7))).
Proof.
  destruct (particles_follow_the_flow 0.016 (booted no_options) 5 7) as [Hz _].
  - exact booted_particles_wf.
  - rewrite booted_dataSize. lia.
  - rewrite booted_dataSize. lia.
  - exact Hz.
Defined.



(* ================================================================== *)
(** * Where particles start *)
(* ================================================================== *)

Lemma centre_range (n k : Z) : (0 <= k < n)%Z -> 0 < centre n k /\ centre n k < 1.
Proof.
  intros Hk. unfold centre.
  assert (0 < inject_Z n) as Hn by (apply inject_Z_pos; lia).
  assert (0 <= inject_Z k) as H0
    by (change 0 with (inject_Z 0); rewrite <- Zle_Qle; lia).
  assert (inject_Z k + 1 <= inject_Z n) as H1.
  { rewrite <- inject_Z_succ. rewrite <- Zle_Qle. lia. }
  split.
  - apply Qlt_shift_div_l; [exact Hn|]. lra.
  - apply Qlt_shift_div_r; [exact Hn|]. lra.
Qed.

Lemma centre_inj (n k k' : Z) :
  (0 < n)%Z -> centre n k == centre n k' -> k = k'.
Proof.
  intros Hn E. unfold centre in E.
  pose proof (inject_Z_nonzero n Hn) as Hz.
  apply inject_Z_injective.
  assert (forall q, q == (q + 0.5) / inject_Z n * inject_Z n - 0.5) as Hq
    by (intros q; field; exact Hz).
  rewrite (Hq (inject_Z k)), (Hq (inject_Z k')), E. reflexivity.
Qed.

Lemma initParticles_texel (e : DaemonFluidEngine) (idx i j : Z) :
  (0 <= i < particleDataSize (particleSys e))%Z ->
  (0 <= j < particleDataSize (particleSys e))%Z ->
  texel (texture (fbo_get (particleData (particleSys (_initParticles e))) idx)) i j
  = Vec4 (centre (particleDataSize (particleSys e)) i * 2 - 1)
         (centre (particleDataSize (particleSys e)) j * 2 - 1) 0 0.
Proof.
  intros Hi Hj. unfold _initParticles.
  cbn [set_particleSys particleSys particleData].
  unfold fbo_get, fbo_set. cbn [Z.eqb fst snd].
  destruct (idx =? 0)%Z; cbn [fst snd]; unfold draw_to; cbn [texture];
    rewrite drawQuad_texel by assumption; reflexivity.
Qed.

(** X13.  [_initParticles] spreads the particles over a regular lattice.
    In both particle targets the texel [(i, j)] holds the position
    [(2 (i + 1/2) / n - 1, 2 (j + 1/2) / n - 1)], with [n] the side
    [particleDataSize], and zero velocity.  Every such position lies
    strictly inside the square [(-1, 1) x (-1, 1)], and two different
    texels never hold the same position. *)
Theorem initParticles_lattice (e : DaemonFluidEngine) (idx i j : Z) :
  (0 <= i < particleDataSize (particleSys e))%Z ->
  (0 <= j < particleDataSize (particleSys e))%Z ->
  texel (texture (fbo_get (particleData (particleSys (_initParticles e))) idx)) i j
  = Vec4 (centre (particleDataSize (particleSys e)) i * 2 - 1)
         (centre (particleDataSize (particleSys e)) j * 2 - 1) 0 0
  /\ (-1 < centre (particleDataSize (particleSys e)) i * 2 - 1
      /\ centre (particleDataSize (particleSys e)) i * 2 - 1 < 1)
  /\ (-1 < centre (particleDataSize (particleSys e)) j * 2 - 1
      /\ centre (particleDataSize (particleSys e)) j * 2 - 1 < 1)
  /\ forall i' j',
       (0 <= i' < particleDataSize (particleSys e))%Z ->
       (0 <= j' < particleDataSize (particleSys e))%Z ->
       veq2 (xy (texel (texture (fbo_get (particleData
                                   (particleSys (_initParticles e))) idx)) i j))
            (xy (texel (texture (fbo_get (particleData
                                   (particleSys (_initParticles e))) idx)) i' j')) ->
       i = i' /\ j = j'.
Proof.
  intros Hi Hj.
  destruct (centre_range _ _ Hi) as [I0 I1].
  destruct (centre_range _ _ Hj) as [J0 J1].
  split; [apply initParticles_texel; assumption|].
  split; [split; lra|]. split; [split; lra|].
  intros i' j' Hi' Hj' [Ex Ey].
  rewrite (initParticles_texel e idx i j Hi Hj) in Ex, Ey.
  rewrite (initParticles_texel e idx i' j' Hi' Hj') in Ex, Ey.
  cbn [xy x2 y2 x4 y4] in Ex, Ey.
  split; apply (centre_inj (particleDataSize (particleSys e))); try lia; lra.
Qed.



Lemma initParticles_lattice_witness :
  texel (texture (fbo_get (particleData
                   (particleSys (_initParticles (booted no_options)))) 1)) 5 7
  = Vec4 (centre 512 5 * 2 - 1) (centre 512 7 * 2 - 1) 0 0.
Proof.
  destruct (initParticles_lattice (booted no_options) 1 5 7) as [Ht _].
  - rewrite booted_dataSize. lia.
  - rewrite booted_dataSize. lia.
  - rewrite booted_dataSize in Ht. exact Ht.
Defined.


(* ================================================================== *)
(** * Drawing the particles *)
(* ================================================================== *)

(** X14.  The point-sprite draw reaches every particle exactly once.  With
    the UV buffer [_initParticleBuffers] builds and [particleCount = n * n],
    [_renderParticles] runs the vertex shader [n * n] times, and vertex
    [i * n + j] fetches texel [(j, i)] of the particle target: its
    [gl_Position] is the position stored in that texel, with [z = 0] and
    [w = 1]. *)
Theorem renderParticles_addresses_texels `{Builtins} (e : DaemonFluidEngine)
    (i j : Z) :
  particles_wf e ->
  particleUVs (particleSys e) = make_uvs (particleDataSize (particleSys e)) ->
  particleCount (particleSys e)
  = (particleDataSize (particleSys e) * particleDataSize (particleSys e))%Z ->
  (0 <= i < particleDataSize (particleSys e))%Z ->
  (0 <= j < particleDataSize (particleSys e))%Z ->
  length (_renderParticles e)
  = Z.to_nat (particleDataSize (particleSys e) * particleDataSize (particleSys e))
  /\ exists v,
       nth_error (_renderParticles e)
                 (Z.to_nat (i * particleDataSize (particleSys e) + j)) = Some v
       /\ fst v = vec4_2ss (xy (particle_at e j i)) 0 1.
Proof.
  intros [Hd [S0 S1]] Huv Hc Hi Hj.
  unfold _renderParticles. rewrite Hc, Huv.
  set (ds := particleDataSize (particleSys e)) in *.
  assert (length (make_uvs ds) = Z.to_nat (ds * ds)) as Hl
    by (apply make_uvs_length; lia).
  rewrite <- Hl, firstn_all.
  split; [apply length_map|].
  rewrite nth_error_map, (make_uvs_nth ds i j Hi Hj). cbn [option_map].
  eexists. split; [reflexivity|].
  unfold particleVert_main. cbn [fst].
  destruct (fbo_get_sized ds ds (particleData (particleSys e))
              (particleReadIdx (particleSys e)) S0 S1) as [Sw Sh].
  rewrite (texture2D_centre ds ds Hd Hd _ j i); try assumption; reflexivity.
Qed.

Lemma renderParticles_addresses_texels_witness :
  exists v,
    nth_error (@_renderParticles approx_builtins (booted no_options))
              (Z.to_nat (7 * 512 + 5)) = Some v
    /\ fst v = vec4_2ss (xy (particle_at (booted no_options) 5 7)) 0 1.
Proof.
  pose proof (booted_rebuilt no_options (mkPreset 262144 (1 / 4) 20) eq_refl) as Hr.
  destruct (@renderParticles_addresses_texels approx_builtins (booted no_options) 7 5)
    as [_ Hv].
  - exact booted_particles_wf.
  - rewrite (rb_uvs _ _ _ Hr), (rb_dataSize _ _ _ Hr). reflexivity.
  - rewrite (rb_count _ _ _ Hr), (rb_dataSize _ _ _ Hr). reflexivity.
  - rewrite booted_dataSize. lia.
  - rewrite booted_dataSize. lia.
  - rewrite booted_dataSize in Hv. exact Hv.
Defined.

(* ================================================================== *)
(** * Pointer coordinates *)
(* ================================================================== *)

(** The two formulas of [_updatePointer] and [_updateTouch]. *)
Lemma clip_coordinate (c lo size : Q) :
  0 < size -> lo <= c -> c <= lo + size ->
  (-1 <= (c - lo) / size * 2 - 1 /\ (c - lo) / size * 2 - 1 <= 1)
  /\ (-1 <= - ((c - lo) / size) * 2 + 1 /\ - ((c - lo) / size) * 2 + 1 <= 1).
Proof.
  intros Hs H0 H1.
  assert (0 <= (c - lo) / size) as T0 by (apply Qle_shift_div_l; [exact Hs|lra]).
  assert ((c - lo) / size <= 1) as T1 by (apply Qle_shift_div_r; [exact Hs|lra]).
  repeat split; lra.
Qed.

(** X15.  Pointer positions are clip-space coordinates with the y axis
    pointing up.  For an event inside a canvas rectangle of positive width
    and height, [_updatePointer] stores a position in [[-1, 1] x [-1, 1]]:
    the left edge maps to [x = -1], the right edge to [x = 1], the top edge
    to [y = 1] and the bottom edge to [y = -1].  [_updateTouch] stores the
    same position for the first touch point, ignores the others, and leaves
    the pointer where it was when the event has no touch point.  Neither
    changes [isDown]. *)
Theorem pointer_is_in_clip_space (cx cy : Q) (rect : Rect) (more : list (Q * Q))
    (e : DaemonFluidEngine) :
  0 < rect_width rect -> 0 < rect_height rect ->
  rect_left rect <= cx -> cx <= rect_left rect + rect_width rect ->
  rect_top rect <= cy -> cy <= rect_top rect + rect_height rect ->
  (-1 <= ptr_x (pointer (_updatePointer cx cy rect e))
   /\ ptr_x (pointer (_updatePointer cx cy rect e)) <= 1)
  /\ (-1 <= ptr_y (pointer (_updatePointer cx cy rect e))
      /\ ptr_y (pointer (_updatePointer cx cy rect e)) <= 1)
  /\ (cx == rect_left rect -> ptr_x (pointer (_updatePointer cx cy rect e)) == -1)
  /\ (cx == rect_left rect + rect_width rect ->
      ptr_x (pointer (_updatePointer cx cy rect e)) == 1)
  /\ (cy == rect_top rect -> ptr_y (pointer (_updatePointer cx cy rect e)) == 1)
  /\ (cy == rect_top rect + rect_height rect ->
      ptr_y (pointer (_updatePointer cx cy rect e)) == -1)
  /\ isDown (pointer (_updatePointer cx cy rect e)) = isDown (pointer e)
  /\ _updateTouch ((cx, cy) :: more) rect e = _updatePointer cx cy rect e
  /\ _updateTouch [] rect e = e.
Proof.
  intros Hw Hh X0 X1 Y0 Y1.
  destruct (clip_coordinate cx (rect_left rect) (rect_width rect) Hw X0 X1) as [Bx _].
  destruct (clip_coordinate cy (rect_top rect) (rect_height rect) Hh Y0 Y1) as [_ By].
  assert (~ rect_width rect == 0) as Nw by lra.
  assert (~ rect_height rect == 0) as Nh by lra.
  unfold _updatePointer, _updateTouch. cbn [set_pointer pointer ptr_x ptr_y isDown].
  split; [exact Bx|]. split; [exact By|].
  split; [intros ->; field; exact Nw|].
  split; [intros ->; field; exact Nw|].
  split; [intros ->; field; exact Nh|].
  split; [intros ->; field; exact Nh|].
  repeat split.
Qed.

Lemma pointer_is_in_clip_space_witness :
  ptr_x (pointer (_updatePointer 480 270 (mkRect 0 0 1920 1080) (booted no_options)))
  == - (1 # 2)
  /\ ptr_y (pointer (_updatePointer 480 270 (mkRect 0 0 1920 1080) (booted no_options)))
     == 1 # 2
  /\ -1 <= ptr_x (pointer (_updatePointer 480 270 (mkRect 0 0 1920 1080)
                             (booted no_options))).
Proof.
  destruct (pointer_is_in_clip_space 480 270 (mkRect 0 0 1920 1080) []
              (booted no_options)) as [[Bx _] _];
    try (cbn [rect_left rect_top rect_width rect_height]; lra).
  split; [reflexivity|]. split; [reflexivity|]. exact Bx.
Defined.

(* ================================================================== *)
(** * The frame loop *)
(* ================================================================== *)






(* ================================================================== *)
(** * [reset] *)
(* ================================================================== *)

Lemma fbo_get_clear_both (c : vec4) (d : doubleFBO) (idx i j : Z) :
  texel (texture (fbo_get (clear_both c d) idx)) i j = c.
Proof. unfold fbo_get, clear_both. destruct (idx =? 0)%Z; reflexivity. Qed.

Lemma reset_frame (e : DaemonFluidEngine) :
  settings (reset e) = settings e
  /\ pointer (reset e) = pointer e
  /\ perf (reset e) = perf e
  /\ simWidth (grid (reset e)) = simWidth (grid e)
  /\ simHeight (grid (reset e)) = simHeight (grid e)
  /\ aspectRatio (grid (reset e)) = aspectRatio (grid e)
  /\ velIdx (grid (reset e)) = velIdx (grid e)
  /\ pressIdx (grid (reset e)) = pressIdx (grid e)
  /\ dyeIdx (grid (reset e)) = dyeIdx (grid e)
  /\ divergenceFBO (grid (reset e)) = divergenceFBO (grid e)
  /\ particleDataSize (particleSys (reset e)) = particleDataSize (particleSys e)
  /\ particleReadIdx (particleSys (reset e)) = particleReadIdx (particleSys e)
  /\ fieldBuilds (reset e) = fieldBuilds e
  /\ particleBuilds (reset e) = particleBuilds e.
Proof. repeat split. Qed.

Lemma reset_clears_fields_aux (e : DaemonFluidEngine) (i j : Z) :
  velocity_at (reset e) i j = Vec2 0 0 /\ pressure_at (reset e) i j = 0.
Proof.
  unfold velocity_at, read_velocity, pressure_at, read_pressure, reset, _initParticles.
  cbn [set_particleSys set_grid grid velocityFBO pressureFBO].
  rewrite !fbo_get_clear_both. split; reflexivity.
Qed.

(** X17.  [reset()] empties the simulation without rebuilding it.  In both
    targets of the velocity, pressure and dye buffers every texel becomes
    [(0, 0, 0, 1)]: the fluid is at rest, the pressure is zero and the dye
    is black with alpha [1] (a freshly allocated target holds alpha [0]).
    Every particle goes back to its lattice position with zero velocity.
    The divergence target is not cleared, and the grid extent, the read
    indices, the settings and the allocation counters stay as they are. *)
Theorem reset_clears_fields (e : DaemonFluidEngine) (idx i j : Z) :
  texel (texture (fbo_get (velocityFBO (grid (reset e))) idx)) i j = Vec4 0 0 0 1
  /\ texel (texture (fbo_get (pressureFBO (grid (reset e))) idx)) i j = Vec4 0 0 0 1
  /\ texel (texture (fbo_get (dyeFBO (grid (reset e))) idx)) i j = Vec4 0 0 0 1
  /\ velocity_at (reset e) i j = Vec2 0 0
  /\ pressure_at (reset e) i j = 0
  /\ dye_at (reset e) i j = Vec4 0 0 0 1
  /\ ((0 <= i < particleDataSize (particleSys e))%Z ->
      (0 <= j < particleDataSize (particleSys e))%Z ->
      particle_at (reset e) i j
      = Vec4 (centre (particleDataSize (particleSys e)) i * 2 - 1)
             (centre (particleDataSize (particleSys e)) j * 2 - 1) 0 0)
  /\ divergenceFBO (grid (reset e)) = divergenceFBO (grid e)
  /\ simWidth (grid (reset e)) = simWidth (grid e)
  /\ simHeight (grid (reset e)) = simHeight (grid e)
  /\ velIdx (grid (reset e)) = velIdx (grid e)
  /\ pressIdx (grid (reset e)) = pressIdx (grid e)
  /\ dyeIdx (grid (reset e)) = dyeIdx (grid e)
  /\ settings (reset e) = settings e
  /\ fieldBuilds (reset e) = fieldBuilds e
  /\ particleBuilds (reset e) = particleBuilds e.
Proof.
  destruct (reset_frame e)
    as [S [_ [_ [W [H [_ [V [P [D [Dv [Ds [Ri [Fb Pb]]]]]]]]]]]]].
  assert (forall k, texel (texture (fbo_get (velocityFBO (grid (reset e))) k)) i j
                    = Vec4 0 0 0 1) as Tv.
  { intros k. unfold reset, _initParticles.
    cbn [set_particleSys set_grid grid velocityFBO]. apply fbo_get_clear_both. }
  assert (forall k, texel (texture (fbo_get (pressureFBO (grid (reset e))) k)) i j
                    = Vec4 0 0 0 1) as Tp.
  { intros k. unfold reset, _initParticles.
    cbn [set_particleSys set_grid grid pressureFBO]. apply fbo_get_clear_both. }
  assert (forall k, texel (texture (fbo_get (dyeFBO (grid (reset e))) k)) i j
                    = Vec4 0 0 0 1) as Td.
  { intros k. unfold reset, _initParticles.
    cbn [set_particleSys set_grid grid dyeFBO]. apply fbo_get_clear_both. }
  split; [apply Tv|]. split; [apply Tp|]. split; [apply Td|].
  split; [unfold velocity_at, read_velocity; rewrite Tv; reflexivity|].
  split; [unfold pressure_at, read_pressure; rewrite Tp; reflexivity|].
  split; [unfold dye_at, read_dye; rewrite Td; reflexivity|].
  split.
  { intros Hi Hj. unfold particle_at, reset.
    match goal with
    | |- context [_initParticles ?x] =>
        exact (initParticles_texel x (particleReadIdx (particleSys (_initParticles x)))
                 i j Hi Hj)
    end. }
  repeat split; assumption.
Qed.

(** X18.  After [reset()] the engine is idle whatever it was doing: on a
    well-formed grid the fluid is at rest with zero pressure, so that with
    the pointer up the next frame leaves the velocity at zero on every
    cell. *)
Theorem reset_then_step_stays_at_rest `{Builtins} (undef : varyings -> Q) (dt : Q)
    (e : DaemonFluidEngine) :
  grid_wf (grid e) -> isDown (pointer e) = false ->
  grid_wf (grid (reset e))
  /\ at_rest (reset e)
  /\ uniform_pressure 0 (reset e)
  /\ at_rest (_step undef dt (reset e)).
Proof.
  intros Hg Hup.
  assert (grid_wf (grid (reset e))) as Hg'.
  { destruct Hg. unfold reset, _initParticles.
    cbn [set_particleSys set_grid grid].
    constructor; cbn [simWidth simHeight aspectRatio velocityFBO pressureFBO
                      divergenceFBO dyeFBO clear_both fst snd];
      try assumption;
      match goal with
      | Hs : sized _ _ ?t |- sized _ _ (clear_target _ ?t) => exact Hs
      end. }
  assert (at_rest (reset e)) as Hr.
  { intros i j _.
    destruct (reset_clears_fields_aux e i j) as [-> _]. split; reflexivity. }
  assert (uniform_pressure 0 (reset e)) as Hp.
  { intros i j _.
    destruct (reset_clears_fields_aux e i j) as [_ ->]. reflexivity. }
  split; [exact Hg'|]. split; [exact Hr|]. split; [exact Hp|].
  destruct (reset_frame e) as [_ [Pq _]].
  assert (isDown (pointer (reset e)) = false) as Hup' by (rewrite Pq; exact Hup).
  destruct (idle_step undef dt 0 (reset e) (conj Hg' (conj Hup' (conj Hr Hp))))
    as [[_ [_ [R _]]] _].
  exact R.
Qed.

Lemma reset_then_step_stays_at_rest_witness :
  veq2 (velocity_at (reset checker_engine) 3 4) (Vec2 0 0)
  /\ veq2 (velocity_at (@_step approx_builtins (fun _ => 0) 0.016
                          (reset checker_engine)) 3 4)
          (Vec2 0 0).
Proof.
  destruct (@reset_then_step_stays_at_rest approx_builtins (fun _ => 0) 0.016
              checker_engine checker_engine_wf checker_engine_pointer_up)
    as [_ [R0 [_ R1]]].
  destruct (reset_frame checker_engine) as [_ [_ [_ [W0 [H0 _]]]]].
  destruct (@step_frame approx_builtins (fun _ => 0) 0.016 (reset checker_engine))
    as [_ [_ [W1 [H1 _]]]].
  destruct checker_engine_extent as [Ew Eh].
  split.
  - apply R0. unfold in_grid. rewrite W0, H0, Ew, Eh. lia.
  - apply R1. unfold in_grid. rewrite W1, H1, W0, H0, Ew, Eh. lia.
Defined.

(* ================================================================== *)
(** * Resizing the window *)
(* ================================================================== *)

Lemma set_window_frame (w h : Z) (e : DaemonFluidEngine) :
  settings (set_window w h e) = settings e
  /\ qualityPresets (set_window w h e) = qualityPresets e
  /\ grid (set_window w h e) = grid e
  /\ particleSys (set_window w h e) = particleSys e
  /\ innerWidth (set_window w h e) = w
  /\ innerHeight (set_window w h e) = h
  /\ fieldBuilds (set_window w h e) = fieldBuilds e.
Proof. repeat split. Qed.

(** X19.  A resize of the window rebuilds the simulation only when the grid
    extent changes.  If the new window size gives, for the current preset,
    the extent the grid already has, the [resize] listener leaves every
    buffer, index and particle as it is.  If either extent differs it runs
    [_initFramebuffers] for the new size, which allocates fresh buffers of
    the new extent.  If the current quality names no preset (it is out of
    range) the listener throws. *)
Theorem resize_rebuilds_only_on_new_extent (w h : Z) (e : DaemonFluidEngine) :
  (preset_at (qualityPresets e) (quality (settings e)) = None ->
   on_resize w h e = None)
  /\ forall p,
       preset_at (qualityPresets e) (quality (settings e)) = Some p ->
       (sim_extent w p = simWidth (grid e) ->
        sim_extent h p = simHeight (grid e) ->
        on_resize w h e = Some (set_window w h e))
       /\ (sim_extent w p <> simWidth (grid e)
           \/ sim_extent h p <> simHeight (grid e) ->
           exists e',
             on_resize w h e = Some e'
             /\ simWidth (grid e') = sim_extent w p
             /\ simHeight (grid e') = sim_extent h p
             /\ fieldBuilds e' = S (fieldBuilds e)
             /\ grid_wf (grid e')).
Proof.
  unfold on_resize, _resize.
  cbn [set_window qualityPresets settings innerWidth innerHeight grid].
  split.
  - intros ->. reflexivity.
  - intros p Hp. rewrite Hp. split.
    + intros -> ->. rewrite !Z.eqb_refl. reflexivity.
    + intros Hne.
      assert (negb (sim_extent w p =? simWidth (grid e))%Z
              || negb (sim_extent h p =? simHeight (grid e))%Z = true) as ->.
      { apply orb_true_iff.
        destruct Hne as [Hne|Hne]; [left|right];
          apply negb_true_iff; apply Z.eqb_neq; exact Hne. }
      fold (set_window w h e).
      destruct (initFramebuffers_rebuilds (set_window w h e) p) as [e' [He Hr]];
        [exact Hp|].
      exists e'. split; [exact He|].
      split; [exact (rb_simWidth _ _ _ Hr)|].
      split; [exact (rb_simHeight _ _ _ Hr)|].
      split; [exact (rb_fieldBuilds _ _ _ Hr)|].
      exact (rebuilt_grid_wf _ _ _ Hr).
Qed.

Lemma booted_preset :
  preset_at (qualityPresets (booted no_options)) (quality (settings (booted no_options)))
  = Some (mkPreset 262144 (1 / 4) 20).
Proof.
  destruct (booted_state no_options (mkPreset 262144 (1 / 4) 20) eq_refl)
    as [-> [_ [-> _]]].
  reflexivity.
Qed.

Lemma resize_rebuilds_only_on_new_extent_witness :
  on_resize 1921 1080 (booted no_options)
  = Some (set_window 1921 1080 (booted no_options))
  /\ exists e',
       on_resize 800 600 (booted no_options) = Some e'
       /\ simWidth (grid e') = 200%Z /\ simHeight (grid e') = 150%Z.
Proof.
  destruct (resize_rebuilds_only_on_new_extent 1921 1080 (booted no_options))
    as [_ Hsame].
  destruct (Hsame _ booted_preset) as [Hs _].
  destruct (resize_rebuilds_only_on_new_extent 800 600 (booted no_options))
    as [_ Hnew].
  destruct (Hnew _ booted_preset) as [_ Hn].
  destruct booted_extent as [Ew Eh].
  split.
  - apply Hs; [rewrite Ew|rewrite Eh]; reflexivity.
  - destruct Hn as [e' [He [Hw [Hh _]]]].
    + left. rewrite Ew. discriminate.
    + exists e'. split; [exact He|]. split; [rewrite Hw|rewrite Hh]; reflexivity.
Defined.

(* ================================================================== *)
(** * Fresh buffers *)
(* ================================================================== *)

(** What [_initFramebuffers] leaves in the grid: nothing. *)
Lemma rebuilt_is_blank (e e' : DaemonFluidEngine) (p : Preset) :
  rebuilt_from e p e' ->
  grid_wf (grid e')
  /\ at_rest e'
  /\ uniform_pressure 0 e'
  /\ (forall i j, dye_at e' i j = zero4)
  /\ (32 <= simWidth (grid e'))%Z
  /\ (32 <= simHeight (grid e'))%Z
  /\ velIdx (grid e') = 0%Z /\ pressIdx (grid e') = 0%Z /\ dyeIdx (grid e') = 0%Z
  /\ particleReadIdx (particleSys e') = 0%Z.
Proof.
  intros Hr.
  destruct (rb_indices _ _ _ Hr) as [Iv [Ip Id]].
  split; [exact (rebuilt_grid_wf _ _ _ Hr)|].
  split.
  { intros i j _. unfold velocity_at, read_velocity.
    rewrite (rb_velocity _ _ _ Hr), Iv. split; reflexivity. }
  split.
  { intros i j _. rewrite (rebuilt_pressure_zero _ _ _ i j Hr). reflexivity. }
  split.
  { intros i j. unfold dye_at, read_dye.
    rewrite (rb_dye _ _ _ Hr), Id. reflexivity. }
  split; [rewrite (rb_simWidth _ _ _ Hr); unfold sim_extent; lia|].
  split; [rewrite (rb_simHeight _ _ _ Hr); unfold sim_extent; lia|].
  split; [exact Iv|]. split; [exact Ip|]. split; [exact Id|].
  exact (rb_readIdx _ _ _ Hr).
Qed.

(** X20.  [setQuality] throws the simulation away, also when the level does
    not change.  There is no test for an unchanged level: whenever the call
    succeeds it has clamped the level to [0..4], taken the iteration count
    of that preset, allocated new buffers (both counters go up by one) and
    left a blank state behind: velocity, pressure and dye are zero on every
    cell, all read indices are [0], and neither grid extent is below
    [32]. *)
Theorem setQuality_discards_state (q : Z) (e e' : DaemonFluidEngine) :
  setQuality q e = Some e' ->
  quality (settings e') = Z.max 0 (Z.min 4 q)
  /\ fieldBuilds e' = S (fieldBuilds e)
  /\ particleBuilds e' = S (particleBuilds e)
  /\ grid_wf (grid e')
  /\ at_rest e'
  /\ uniform_pressure 0 e'
  /\ (forall i j, dye_at e' i j = zero4)
  /\ (32 <= simWidth (grid e'))%Z
  /\ (32 <= simHeight (grid e'))%Z
  /\ velIdx (grid e') = 0%Z /\ pressIdx (grid e') = 0%Z /\ dyeIdx (grid e') = 0%Z
  /\ particleReadIdx (particleSys e') = 0%Z.
Proof.
  intros Hs. unfold setQuality in Hs.
  destruct (initFramebuffers_inv _ _ Hs) as [p [_ Hr]].
  split.
  { rewrite (rb_settings _ _ _ Hr). reflexivity. }
  split; [exact (rb_fieldBuilds _ _ _ Hr)|].
  split; [exact (rb_particleBuilds _ _ _ Hr)|].
  exact (rebuilt_is_blank _ _ _ Hr).
Qed.

Lemma with_velocity_presets (f : Z -> Z -> vec2) (e : DaemonFluidEngine) :
  qualityPresets (with_velocity f e) = qualityPresets e.
Proof. reflexivity. Qed.

Lemma setQuality_discards_state_witness :
  exists e',
    setQuality 2 checker_engine = Some e'
    /\ quality (settings e') = quality (settings checker_engine)
    /\ at_rest e'.
Proof.
  destruct (setQuality_rebuilds 2 checker_engine) as [e' [p [He _]]].
  { unfold checker_engine. rewrite with_velocity_presets.
    destruct (booted_state no_options (mkPreset 262144 (1 / 4) 20) eq_refl)
      as [_ [_ [Hp _]]].
    exact Hp. }
  destruct (setQuality_discards_state 2 checker_engine e' He) as [Hq [_ [_ [_ [Hr _]]]]].
  exists e'. split; [exact He|]. split; [|exact Hr].
  rewrite Hq. unfold checker_engine.
  destruct (with_velocity_keeps checkerboard (booted no_options)) as [-> _].
  rewrite booted_settings. reflexivity.
Defined.

(** X21.  The constructor accepts a quality option between 0 and 4 and
    throws on any other.  With no option the level is 2.  When it succeeds
    it has allocated the buffers exactly once (the [_resize] call that
    follows [_initFramebuffers] finds the extent unchanged), the level is
    the requested one, the iteration count is the one of the preset, and the
    state is blank.  A level below 0 or above 4 is not clamped here: the
    preset lookup gives [undefined] and the constructor fails. *)
Theorem constructor_quality_range (webgl2 floatTex : bool) (winW winH : Z) (now : Q)
    (options : Options) :
  ((0 <= nullish (opt_quality options) 2 <= 4)%Z ->
   exists e p,
     constructor webgl2 floatTex winW winH now options = Some e
     /\ preset_at defaultPresets (nullish (opt_quality options) 2%Z) = Some p
     /\ quality (settings e) = nullish (opt_quality options) 2%Z
     /\ solverIterations (settings e) = iterations p
     /\ fieldBuilds e = 1%nat /\ particleBuilds e = 1%nat
     /\ at_rest e /\ uniform_pressure 0 e
     /\ isDown (pointer e) = false)
  /\ ((nullish (opt_quality options) 2 < 0 \/ 4 < nullish (opt_quality options) 2)%Z ->
      constructor webgl2 floatTex winW winH now options = None).
Proof.
  split.
  - intros Hq.
    destruct (preset_at_default _ Hq) as [p Hp].
    destruct (constructor_boots webgl2 floatTex winW winH now options p Hp)
      as [e [He Hr]].
    exists e, p. split; [exact He|]. split; [exact Hp|].
    destruct (rebuilt_is_blank _ _ _ Hr) as [_ [R [U _]]].
    split; [rewrite (rb_settings _ _ _ Hr); reflexivity|].
    split; [rewrite (rb_settings _ _ _ Hr); reflexivity|].
    split; [rewrite (rb_fieldBuilds _ _ _ Hr); reflexivity|].
    split; [rewrite (rb_particleBuilds _ _ _ Hr); reflexivity|].
    split; [exact R|]. split; [exact U|].
    unfold constructor in He.
    destruct (_initFramebuffers (uninitialized webgl2 floatTex winW winH now options))
      as [e0|] eqn:H0; [|discriminate].
    destruct (initFramebuffers_pointer _ _ H0) as [P0 _].
    destruct (initFramebuffers_inv _ _ H0) as [p0 [Hp0 Hr0]].
    rewrite (resize_after_init _ e0 p0 Hp0 Hr0) in He. injection He as <-.
    rewrite P0. reflexivity.
  - intros Hq. unfold constructor, _initFramebuffers.
    cbn [uninitialized qualityPresets settings default_settings quality].
    rewrite (preset_at_default_none _ Hq). reflexivity.
Qed.

Lemma constructor_quality_range_witness :
  constructor true true 1920 1080 0 options_quality7 = None
  /\ exists e, constructor true true 1920 1080 0 no_options = Some e
               /\ quality (settings e) = 2%Z.
Proof.
  destruct (constructor_quality_range true true 1920 1080 0 options_quality7)
    as [_ Hbad].
  destruct (constructor_quality_range true true 1920 1080 0 no_options)
    as [Hgood _].
  split.
  - apply Hbad. right. cbn [options_quality7 opt_quality nullish]. lia.
  - destruct Hgood as [e [p [He [_ [Hq _]]]]].
    + cbn [no_options opt_quality nullish]. lia.
    + exists e. split; [exact He|exact Hq].
Defined.

(* ================================================================== *)
(** * Palettes and dye injection *)
(* ================================================================== *)

Lemma clamp_range (v lo hi : Q) : lo <= hi -> lo <= clamp v lo hi /\ clamp v lo hi <= hi.
Proof.
  intros H. unfold clamp, minQ, maxQ.
  destruct (Qlt_le_dec v lo); destruct (Qlt_le_dec hi _); split; lra.
Qed.





Lemma approx_exp_nonneg (q : Q) : 0 <= approx_exp q.
Proof.
  unfold approx_exp.
  assert (q * q / 2 == q * q * (1 # 2)) as E by (field; discriminate).
  assert (0 <= q * q) as Hsq by nra.
  destruct (Qle_bool q 0) eqn:Hq.
  - apply Qle_bool_iff in Hq.
    apply Qle_shift_div_l; lra.
  - assert (0 < q) as Hpos.
    { destruct (Qlt_le_dec 0 q) as [Hlt|Hle]; [exact Hlt|].
      apply Qle_bool_iff in Hle. congruence. }
    lra.
Qed.

Lemma on_mousedown_frame (cx cy : Q) (rect : Rect) (e : DaemonFluidEngine) :
  grid (on_mousedown cx cy rect e) = grid e
  /\ settings (on_mousedown cx cy rect e) = settings e.
Proof. repeat split. Qed.


(* ================================================================== *)
(** * The force pass under a stroke *)
(* ================================================================== *)

Lemma tapering_range (fp : Q) : 0.4 <= tapering_of fp /\ tapering_of fp <= 1.
Proof.
  unfold tapering_of.
  destruct (clamp_range fp 0 1) as [C0 C1]; [discriminate|].
  split; lra.
Qed.

Lemma distToSeg_nonneg `{Builtins} (a b p : vec2) :
  (forall q, 0 <= sqrtQ q) -> 0 <= fst (distToSeg a b p).
Proof.
  intros Hs. unfold distToSeg, length2.
  destruct (Qle_bool _ _); [apply Hs|].
  destruct (Qltb _ 0); [apply Hs|].
  destruct (Qltb _ _); apply Hs.
Qed.

(** X23.  The force pass never overshoots.  Provided [sqrt] is never
    negative, [exp] maps non-positive numbers into [[0, 1]] and
    [forceRadius] is positive, the velocity [_applyForces] writes on a cell
    is the old velocity moved towards the stroke velocity by a weight [m]
    between 0 and 1: [v + (target - v) * m].  This holds with the pointer up
    ([m = 0]) and with it down, and also on a stationary press, where the
    tapering is computed from a value that was never assigned: the tapering
    is clamped into [[0.4, 1]] whatever that value is. *)
Theorem force_blends_toward_stroke `{Builtins} (undef : varyings -> Q) (dt : Q)
    (e : DaemonFluidEngine) (i j : Z) :
  grid_wf (grid e) ->
  (forall q, 0 <= sqrtQ q) ->
  (forall q, q <= 0 -> 0 <= expQ q /\ expQ q <= 1) ->
  0 < forceRadius (settings e) ->
  in_grid e i j ->
  exists m,
    0 <= m /\ m <= 1
    /\ veq2 (velocity_at (_applyForces undef dt e) i j)
            (add2 (velocity_at e i j)
                  (muls2 (sub2 (stroke_velocity dt e) (velocity_at e i j)) m)).
Proof.
  intros Hg Hs He Hr [Hi Hj]. destruct Hg.
  unfold velocity_at at 1. unfold read_velocity, _applyForces.
  cbn [set_grid grid set_velocity velocityFBO velIdx].
  rewrite fbo_get_set. unfold draw_to. cbn [texture].
  rewrite drawQuad_texel by assumption.
  unfold force_main.
  rewrite fetch_own_texel by assumption.
  fold (read_velocity (grid e) i j). fold (velocity_at e i j).
  destruct (isDown (pointer e)).
  - pose proof (distToSeg_nonneg
                  (clipToSim (aspectRatio (grid e))
                     (Vec2 (ptr_x (pointer e)) (ptr_y (pointer e))))
                  (clipToSim (aspectRatio (grid e)) (lastPointer e))
                  (v_simPos (fragment (simWidth (grid e)) (simHeight (grid e))
                               (aspectRatio (grid e)) i j)) Hs) as Hd.
    destruct (distToSeg _ _ _) as [dist out_fp]. cbn [fst] in Hd.
    destruct (tapering_range
                (fp_after_call out_fp
                   (undef (fragment (simWidth (grid e)) (simHeight (grid e))
                             (aspectRatio (grid e)) i j)))) as [T0 T1].
    set (tap := tapering_of _) in *.
    assert (- dist / forceRadius (settings e) <= 0) as Harg.
    { apply Qle_shift_div_r; [exact Hr|]. lra. }
    destruct (He _ Harg) as [E0 E1].
    set (ex := expQ (- dist / forceRadius (settings e))) in *.
    exists (ex * (tap * tap)).
    split; [nra|]. split; [nra|].
    unfold stroke_velocity. split; reflexivity.
  - exists 0. split; [discriminate|]. split; [discriminate|].
    split; cbn [xy vec4_2ss add2 muls2 sub2 x2 y2 x4 y4]; ring.
Qed.

Lemma approx_sqrt_nonneg (q : Q) : 0 <= approx_sqrt q.
Proof.
  unfold approx_sqrt.
  apply Qle_shift_div_l; [reflexivity|].
  change (0 * 10000) with (inject_Z 0). rewrite <- Zle_Qle. apply Z.sqrt_nonneg.
Qed.

Lemma approx_exp_unit (q : Q) : q <= 0 -> 0 <= approx_exp q /\ approx_exp q <= 1.
Proof.
  intros Hq. split; [apply approx_exp_nonneg|].
  unfold approx_exp.
  assert (q * q / 2 == q * q * (1 # 2)) as E by (field; discriminate).
  assert (0 <= q * q) as Hsq by nra.
  rewrite (proj2 (Qle_bool_iff q 0) Hq).
  apply Qle_shift_div_r; lra.
Qed.

Lemma force_blends_toward_stroke_witness :
  exists m,
    0 <= m /\ m <= 1
    /\ veq2 (velocity_at (@_applyForces approx_builtins (fun _ => 5) 0.016
                            press_engine) 240 135)
            (add2 (velocity_at press_engine 240 135)
                  (muls2 (sub2 (stroke_velocity 0.016 press_engine)
                               (velocity_at press_engine 240 135)) m)).
Proof.
  destruct (on_mousedown_frame 960 540 (mkRect 0 0 1920 1080) checker_engine)
    as [G S].
  fold press_engine in G, S.
  apply (@force_blends_toward_stroke approx_builtins (fun _ => 5) 0.016
           press_engine 240 135).
  - rewrite G. exact checker_engine_wf.
  - exact approx_sqrt_nonneg.
  - exact approx_exp_unit.
  - rewrite S. unfold checker_engine.
    destruct (with_velocity_keeps checkerboard (booted no_options)) as [-> _].
    rewrite booted_settings. reflexivity.
  - unfold in_grid. rewrite G. apply checker_engine_in_grid. lia.
Defined.

Lemma booted_divergence (i j : Z) : divergence_at (booted no_options) i j = 0.
Proof.
  unfold divergence_at, read_divergence.
  rewrite (rb_divergence _ _ _
             (booted_rebuilt no_options (mkPreset 262144 (1 / 4) 20) eq_refl)).
  reflexivity.
Qed.

Lemma with_pressure_divergence_at (f : Z -> Z -> Q) (e : DaemonFluidEngine) :
  divergence_at (with_pressure f e) = divergence_at e.
Proof. reflexivity. Qed.

Lemma solvePressure_bounds_witness :
  0 <= pressure_at (_solvePressure (with_pressure spike (booted no_options))) 10 10
  /\ pressure_at (_solvePressure (with_pressure spike (booted no_options))) 10 10 <= 1.
Proof.
  destruct (with_pressure_keeps spike (booted no_options)) as [S [W [H _]]].
  destruct (solvePressure_bounds (with_pressure spike (booted no_options)) 0 1 0)
    with (i := 10%Z) (j := 10%Z) as [Lo Hi].
  - apply with_pressure_wf. exact booted_grid_wf.
  - intros i j _. rewrite with_pressure_divergence_at, booted_divergence. discriminate.
  - intros i j _. rewrite with_pressure_reads. unfold spike.
    destruct ((i =? 10) && (j =? 10))%Z; split; discriminate.
  - unfold in_grid. rewrite W, H. destruct booted_extent as [-> ->]. lia.
  - split; lra.
Defined.
